(** * Autopilot API orchestrator: a shallow embedding and its properties

    The Python sources under [scripts/orchestrator] (costs.py, context.py,
    tools.py, checkpoint.py, orchestrator.py) are embedded as Rocq
    functions, one module per Python class.  Mutable objects become
    records threaded through the calls, exceptions become explicit
    [Raise] results, and the operating system (pathlib, subprocess) is an
    interface, [Platform], that the tool executor is written against. *)

From Stdlib Require Import ZArith QArith Qround Lqa Ascii String.
From stdpp Require Import base option list strings gmap pretty sorting.

Local Open Scope string_scope.
Local Open Scope Z_scope.

#[local] Set Warnings "-register-all".

(** ** Python strings

    A Python [str] is modelled by [string], one [ascii] for each code
    point (the model covers code points below 256).  The functions below
    follow the [str] methods the sources call. *)
Module PyStr.

(** [s.startswith(p)] *)
Definition startswith (s p : string) : bool := String.prefix p s.

(** [needle in hay] *)
Fixpoint contains (needle hay : string) : bool :=
  String.prefix needle hay ||
  match hay with
  | EmptyString => false
  | String _ hay' => contains needle hay'
  end.

(** [len(s)] *)
Definition len (s : string) : Z := Z.of_nat (String.length s).

(** [s[:n]] for a literal [n >= 0] *)
Definition take (n : Z) (s : string) : string := String.substring 0 (Z.to_nat n) s.

(** [sep.join(l)] *)
Definition join (sep : string) (l : list string) : string := String.concat sep l.

(** [hay.count(needle)]: the number of non-overlapping occurrences, scanning
    from the left; the empty needle is found between all characters. *)
Fixpoint count_from (needle hay : string) (skip : nat) : nat :=
  match hay with
  | EmptyString => O
  | String _ hay' =>
      match skip with
      | S k => count_from needle hay' k
      | O => if String.prefix needle hay
             then S (count_from needle hay' (String.length needle - 1))
             else count_from needle hay' O
      end
  end.

Definition count (needle hay : string) : nat :=
  match needle with
  | EmptyString => S (String.length hay)
  | _ => count_from needle hay O
  end.

(** [s.replace(old, new, limit)]; [limit = None] is Python's default of
    replacing every occurrence. *)
Definition spent (limit : option nat) : bool :=
  match limit with Some O => true | _ => false end.

Fixpoint replace_empty (new s : string) (limit : option nat) : string :=
  if spent limit then s else
  match s with
  | EmptyString => new
  | String c s' => new ++ String c (replace_empty new s' (Nat.pred <$> limit))
  end.

Fixpoint replace_from (old new s : string) (skip : nat) (limit : option nat) : string :=
  match s with
  | EmptyString => EmptyString
  | String c s' =>
      match skip with
      | S k => replace_from old new s' k limit
      | O => if negb (spent limit) && String.prefix old s
             then new ++ replace_from old new s' (String.length old - 1) (Nat.pred <$> limit)
             else String c (replace_from old new s' O limit)
      end
  end.

Definition replace (old new s : string) (limit : option nat) : string :=
  match old with
  | EmptyString => replace_empty new s limit
  | _ => replace_from old new s O limit
  end.

(** [c.isspace()] for code points below 256 *)
Definition isspace (c : ascii) : bool :=
  let n := nat_of_ascii c in
  ((9 <=? n) && (n <=? 13) || (28 <=? n) && (n <=? 32) || (n =? 133) || (n =? 160))%nat.

(** [s.split()]: maximal runs of non-whitespace characters *)
Fixpoint split_go (s : string) (cur : option string) : list string :=
  match s with
  | EmptyString => match cur with Some w => [w] | None => [] end
  | String c s' =>
      if isspace c
      then match cur with Some w => w :: split_go s' None | None => split_go s' None end
      else split_go s' (Some (default "" cur ++ String c ""))
  end.

Definition split (s : string) : list string := split_go s None.

(** [s.split(sep)[0]] for a non-empty [sep]: the text before the first
    occurrence of [sep], or all of [s] when there is none. *)
Fixpoint split_head (sep s : string) : string :=
  match s with
  | EmptyString => EmptyString
  | String c s' => if String.prefix sep s then EmptyString else String c (split_head sep s')
  end.

(** [s.strip()] *)
Fixpoint lstrip (s : string) : string :=
  match s with
  | String c s' => if isspace c then lstrip s' else s
  | EmptyString => EmptyString
  end.

Fixpoint rstrip (s : string) : string :=
  match s with
  | EmptyString => EmptyString
  | String c s' =>
      match rstrip s' with
      | EmptyString => if isspace c then EmptyString else String c EmptyString
      | r => String c r
      end
  end.

Definition strip (s : string) : string := rstrip (lstrip s).

(** [s.lower()] for code points below 256 *)
Definition lower_char (c : ascii) : ascii :=
  let n := nat_of_ascii c in
  if ((65 <=? n) && (n <=? 90) || (192 <=? n) && (n <=? 222) && negb (n =? 215))%nat
  then ascii_of_nat (n + 32) else c.

Fixpoint lower (s : string) : string :=
  match s with
  | EmptyString => EmptyString
  | String c s' => String (lower_char c) (lower s')
  end.

(** [str(n)] of an [int] *)
Definition of_Z (n : Z) : string := pretty n.

End PyStr.

(** ** Results of calls that may raise *)

(** A raised exception: its class name and its [str()]. *)
Record exn := Exn { exn_type : string; exn_msg : string }.

Inductive res (A : Type) : Type :=
| Ok (a : A)
| Raise (e : exn).
Arguments Ok {A} a.
Arguments Raise {A} e.

(** [ToolError(msg)], the exception the tools raise on purpose. *)
Definition ToolError (msg : string) : exn := Exn "ToolError" msg.

Definition is_ToolError (e : exn) : bool := String.eqb (exn_type e) "ToolError".

(** ** costs.py *)

Module CostConfig.
Record t := mk { warn : Q; alert : Q; max : Q }.
End CostConfig.

(** Per-million token pricing. *)
Module Pricing.
Record t := mk { input : Q; output : Q }.
End Pricing.

Definition MODEL_MAP : list (string * string) :=
  [ ("haiku", "claude-haiku-4-5-20251001");
    ("sonnet", "claude-sonnet-4-5-20250929");
    ("opus", "claude-opus-4-5-20251101") ].

Definition DEFAULT_MODEL : string := "sonnet".

Definition DEFAULT_PRICING : gmap string Pricing.t :=
  <["haiku" := Pricing.mk 1 5]> (<["sonnet" := Pricing.mk 3 15]> (<["opus" := Pricing.mk 5 25]> ∅)).

Definition in_MODEL_MAP (k : string) : bool :=
  existsb (fun kv => String.eqb (fst kv) k) MODEL_MAP.

Definition MODEL_MAP_get (k : string) : string :=
  default "" (snd <$> List.find (fun kv => String.eqb (fst kv) k) MODEL_MAP).

Definition resolve_model_name (model : string) : string :=
  if in_MODEL_MAP (PyStr.lower model) then MODEL_MAP_get (PyStr.lower model)
  else if PyStr.startswith model "claude-" then model
  else
    let model_lower := PyStr.lower model in
    if PyStr.contains "haiku" model_lower then MODEL_MAP_get "haiku"
    else if PyStr.contains "opus" model_lower then MODEL_MAP_get "opus"
    else MODEL_MAP_get "sonnet".

Definition get_model_short_name (model : string) : string :=
  let model_lower := PyStr.lower model in
  if in_MODEL_MAP model_lower then model_lower
  else if PyStr.contains "haiku" model_lower then "haiku"
  else if PyStr.contains "opus" model_lower then "opus"
  else "sonnet".

(** [ThresholdLevel] *)
Inductive ThresholdLevel := OK | WARNING | ALERT | STOP.

(** A call of one of the two threshold callbacks, with the cost it was
    given. *)
Inductive cost_event :=
| on_warning_called (cost : Q)
| on_alert_called (cost : Q).

Module CostTracker.

(** The float fields are modelled over the rationals.  [on_warning] and
    [on_alert] say whether a callback is installed; [calls] is the trace
    of the callback invocations, latest first. *)
Record t := mk {
  config : CostConfig.t;
  pricing : gmap string Pricing.t;
  on_warning : bool;
  on_alert : bool;
  total_cost : Q;
  input_tokens : Z;
  output_tokens : Z;
  api_calls : Z;
  cost_by_model : gmap string Q;
  tokens_by_model : gmap string (Z * Z);
  warning_acknowledged : bool;
  alert_acknowledged : bool;
  calls : list cost_event
}.

(** [CostTracker.__init__] *)
Definition init (cfg : CostConfig.t) (pr : gmap string Pricing.t) (onw ona : bool) : t :=
  {| config := cfg; pricing := pr; on_warning := onw; on_alert := ona;
     total_cost := 0; input_tokens := 0; output_tokens := 0; api_calls := 0;
     cost_by_model := ∅; tokens_by_model := ∅;
     warning_acknowledged := false; alert_acknowledged := false;
     calls := [] |}.

Definition sonnet_default : Pricing.t := Pricing.mk 3 15.

Definition get_pricing (self : t) (model : string) : Pricing.t :=
  let short_name := get_model_short_name model in
  default (default sonnet_default (DEFAULT_PRICING !! short_name))
          (pricing self !! short_name).

Definition calculate_cost (self : t) (model : string) (input_tokens output_tokens : Z) : Q :=
  let pricing := get_pricing self model in
  let input_cost := ((inject_Z input_tokens / 1000000) * Pricing.input pricing)%Q in
  let output_cost := ((inject_Z output_tokens / 1000000) * Pricing.output pricing)%Q in
  (input_cost + output_cost)%Q.

Definition set_total_cost (c : Q) (self : t) : t :=
  mk (config self) (pricing self) (on_warning self) (on_alert self) c
     (input_tokens self) (output_tokens self) (api_calls self)
     (cost_by_model self) (tokens_by_model self)
     (warning_acknowledged self) (alert_acknowledged self) (calls self).

Definition set_latches (w a : bool) (evs : list cost_event) (self : t) : t :=
  mk (config self) (pricing self) (on_warning self) (on_alert self) (total_cost self)
     (input_tokens self) (output_tokens self) (api_calls self)
     (cost_by_model self) (tokens_by_model self) w a evs.

(** [x >= y] on costs *)
Definition ge (x y : Q) : bool := Qle_bool y x.

Definition _check_warning (self : t) : t :=
  if ge (total_cost self) (CostConfig.warn (config self)) && negb (warning_acknowledged self)
  then set_latches true (alert_acknowledged self)
         (if on_warning self then on_warning_called (total_cost self) :: calls self
          else calls self) self
  else self.

Definition _check_alert (self : t) : t :=
  if ge (total_cost self) (CostConfig.alert (config self)) && negb (alert_acknowledged self)
  then set_latches (warning_acknowledged self) true
         (if on_alert self then on_alert_called (total_cost self) :: calls self
          else calls self) self
  else self.

Definition _check_thresholds (self : t) : t := _check_alert (_check_warning self).

(** [add_usage]; the returned cost of the call is the first component. *)
Definition add_usage (model : string) (input_tokens' output_tokens' : Z) (self : t) : Q * t :=
  let cost := calculate_cost self model input_tokens' output_tokens' in
  let by_model := default 0%Q (cost_by_model self !! model) in
  let toks := default (0, 0) (tokens_by_model self !! model) in
  let self :=
    mk (config self) (pricing self) (on_warning self) (on_alert self)
       (total_cost self + cost)%Q
       (input_tokens self + input_tokens') (output_tokens self + output_tokens')
       (api_calls self + 1)
       (<[model := (by_model + cost)%Q]> (cost_by_model self))
       (<[model := (fst toks + input_tokens', snd toks + output_tokens')]> (tokens_by_model self))
       (warning_acknowledged self) (alert_acknowledged self) (calls self) in
  (cost, _check_thresholds self).

Definition threshold_level (self : t) : ThresholdLevel :=
  if ge (total_cost self) (CostConfig.max (config self)) then STOP
  else if ge (total_cost self) (CostConfig.alert (config self)) then ALERT
  else if ge (total_cost self) (CostConfig.warn (config self)) then WARNING
  else OK.

Definition should_stop (self : t) : bool := ge (total_cost self) (CostConfig.max (config self)).


Definition reset_alerts (self : t) : t := set_latches false false (calls self) self.

Definition set_initial_cost (cost : Q) (self : t) : t :=
  _check_thresholds (set_total_cost cost self).

(** A call made on a tracker from outside. *)
Inductive op :=
| AddUsage (model : string) (input_tokens output_tokens : Z)
| SetInitialCost (cost : Q).

Definition step (self : t) (o : op) : t :=
  match o with
  | AddUsage m i o => snd (add_usage m i o self)
  | SetInitialCost c => set_initial_cost c self
  end.

Definition run (ops : list op) (self : t) : t := fold_left step ops self.

Definition is_warning (e : cost_event) : bool :=
  match e with on_warning_called _ => true | _ => false end.

Definition is_alert (e : cost_event) : bool :=
  match e with on_alert_called _ => true | _ => false end.

Definition warnings (self : t) : nat := List.length (List.filter is_warning (calls self)).
Definition alerts (self : t) : nat := List.length (List.filter is_alert (calls self)).

(** The callback was given a cost at or above its threshold. *)
Definition at_threshold (cfg : CostConfig.t) (e : cost_event) : Prop :=
  match e with
  | on_warning_called c => (CostConfig.warn cfg <= c)%Q
  | on_alert_called c => (CostConfig.alert cfg <= c)%Q
  end.

End CostTracker.

(** ** Python values

    The values that travel through messages, tool inputs and checkpoints:
    JSON-shaped data, and the content-block objects of the model API's
    response ([block.type], [block.text], [block.id], [block.name],
    [block.input] are attributes, not dictionary keys).  A [dict] keeps its
    insertion order and has [str] keys. *)
Inductive pyval :=
| PNone
| PBool (b : bool)
| PInt (n : Z)
| PFloat (q : Q)
| PStr (s : string)
| PList (l : list pyval)
| PDict (d : list (string * pyval))
| PTextBlock (text : string)
| PToolUseBlock (id name : string) (input : list (string * pyval)).

Abbreviation dict := (list (string * pyval)).

Definition nl : string := String (ascii_of_nat 10) "".
Definition tab : string := String (ascii_of_nat 9) "".

Module Py.

(** [d.get(k)] *)
Fixpoint get (k : string) (d : dict) : option pyval :=
  match d with
  | [] => None
  | (k', v) :: d' => if String.eqb k' k then Some v else get k d'
  end.

(** [d.get(k, dflt)] *)
Definition get_default (k : string) (dflt : pyval) (d : dict) : pyval :=
  default dflt (get k d).

(** [bool(v)] *)
Definition truthy (v : pyval) : bool :=
  match v with
  | PNone => false
  | PBool b => b
  | PInt n => negb (n =? 0)
  | PFloat q => negb (Qeq_bool q 0)
  | PStr s => negb (String.eqb s "")
  | PList l => match l with [] => false | _ => true end
  | PDict d => match d with [] => false | _ => true end
  | PTextBlock _ | PToolUseBlock _ _ _ => true
  end.

(** [json.dumps] accepts [v]: the JSON-shaped values; on a content-block
    object of the response it raises a [TypeError] *)
Fixpoint jsonable (v : pyval) : bool :=
  match v with
  | PList l => forallb jsonable l
  | PDict d => forallb (fun kv => let '(_, x) := kv in jsonable x) d
  | PTextBlock _ | PToolUseBlock _ _ _ => false
  | _ => true
  end.

(** [len(l)] *)
Definition len {A} (l : list A) : Z := Z.of_nat (List.length l).

(** [l[:i]] and [l[i:]]; a negative index counts from the end and both
    clamp to the list. *)
Definition slice_to {A} (l : list A) (i : Z) : list A :=
  if i <? 0 then take (Z.to_nat (len l + i)) l else take (Z.to_nat i) l.

Definition slice_from {A} (l : list A) (i : Z) : list A :=
  if i <? 0 then drop (Z.to_nat (len l + i)) l else drop (Z.to_nat i) l.

Definition as_str (v : pyval) : option string :=
  match v with PStr s => Some s | _ => None end.

(** an [int]; [bool] is a subclass of [int] *)
Definition as_int (v : pyval) : option Z :=
  match v with
  | PInt n => Some n
  | PBool b => Some (if b then 1 else 0)
  | _ => None
  end.

Definition as_number (v : pyval) : option Q :=
  match v with
  | PFloat q => Some q
  | PInt n => Some (inject_Z n)
  | _ => None
  end.

Definition as_str_list (v : pyval) : option (list string) :=
  match v with
  | PList l => mapM as_str l
  | _ => None
  end.

End Py.

(** ** State and exceptions

    A method of a mutable object is a function from the object's state to
    the new state and either a value or a raised exception; the state
    reached when the exception was raised is kept. *)
Definition SE (S A : Type) : Type := S → S * res A.

Definition se_ret {S A} (a : A) : SE S A := λ s, (s, Ok a).

Definition raise {S A} (e : exn) : SE S A := λ s, (s, Raise e).

Definition se_bind {S A B} (k : A → SE S B) (m : SE S A) : SE S B :=
  λ s, match m s with
       | (s', Ok a) => k a s'
       | (s', Raise e) => (s', Raise e)
       end.

#[global] Instance SE_ret {S} : MRet (SE S) := λ A, se_ret.
#[global] Instance SE_bind {S} : MBind (SE S) := λ A B, se_bind.

(** [try: m except Exception as e: h e] *)
Definition try_except {S A} (m : SE S A) (h : exn → SE S A) : SE S A :=
  λ s, match m s with
       | (s', Ok a) => (s', Ok a)
       | (s', Raise e) => h e s'
       end.

Definition get_state {S} : SE S S := λ s, (s, Ok s).
Definition put_state {S} (s : S) : SE S unit := λ _, (s, Ok tt).
Definition modify {S} (f : S → S) : SE S unit := λ s, (f s, Ok tt).

(** a pure computation that may raise *)
Definition lift_res {S A} (r : res A) : SE S A := λ s, (s, r).

(** [for x in l: body x] *)
Fixpoint for_each {S A} (l : list A) (body : A → SE S unit) : SE S unit :=
  match l with
  | [] => mret tt
  | x :: l' => body x ;; for_each l' body
  end.

Definition res_bind {A B} (r : res A) (k : A → res B) : res B :=
  match r with Ok a => k a | Raise e => Raise e end.

Definition TypeError (msg : string) : exn := Exn "TypeError" msg.

Definition expect {A} (o : option A) (e : exn) : res A :=
  match o with Some a => Ok a | None => Raise e end.

(** ** Paths

    A [pathlib.Path] is the list of its parts; an absolute path starts
    with the root part ["/"].  What depends on the disk is in [Platform]. *)
Abbreviation Path := (list string).

Module PurePath.

Fixpoint split_slash (s : string) (cur : string) : list string :=
  match s with
  | EmptyString => [cur]
  | String c s' =>
      if Ascii.eqb c "/"%char then cur :: split_slash s' ""
      else split_slash s' (cur ++ String c "")
  end.

(** [os.path.isabs(s)] *)
Definition isabs (s : string) : bool := PyStr.startswith s "/".

Definition keep (part : string) : bool :=
  negb (String.eqb part "") && negb (String.eqb part ".").

(** the root of the text: exactly two leading slashes are kept *)
Definition root_of (s : string) : list string :=
  if PyStr.startswith s "//" && negb (PyStr.startswith s "///") then ["//"]
  else if PyStr.startswith s "/" then ["/"] else [].

(** [Path(s)] *)
Definition of_string (s : string) : Path :=
  root_of s ++ List.filter keep (split_slash s "").

(** [a / s] *)
Definition join (a : Path) (s : string) : Path :=
  if isabs s then of_string s else a ++ of_string s.

Definition is_root (part : string) : bool :=
  String.eqb part "/" || String.eqb part "//".

(** [p.name] *)
Definition name (p : Path) : string :=
  match List.last p "" with
  | part => if is_root part then "" else part
  end.

(** [p.parent] *)
Definition parent (p : Path) : Path :=
  match p with
  | [part] => if is_root part then p else []
  | _ => List.removelast p
  end.

Fixpoint strip_prefix (other p : Path) : option Path :=
  match other, p with
  | [], _ => Some p
  | a :: other', b :: p' => if String.eqb a b then strip_prefix other' p' else None
  | _ :: _, [] => None
  end.

(** [str(p)] *)
Definition to_string (p : Path) : string :=
  match p with
  | [] => "."
  | part :: rest =>
      if is_root part then part ++ PyStr.join "/" rest else PyStr.join "/" p
  end.

(** [p.relative_to(other)]; [ValueError] when [other] is not a prefix *)
Definition relative_to (p other : Path) : res Path :=
  expect (strip_prefix other p)
    (Exn "ValueError"
       ("'" ++ to_string p ++ "' is not in the subpath of '" ++ to_string other ++ "'")).

(** [p.suffix] *)
Fixpoint last_dot (s : string) : option string :=
  match s with
  | EmptyString => None
  | String c s' =>
      match last_dot s' with
      | Some ext => Some ext
      | None => if Ascii.eqb c "."%char then Some s else None
      end
  end.

Definition suffix (p : Path) : string :=
  let n := name p in
  match n with
  | EmptyString => ""
  | String _ rest =>
      match last_dot rest with
      | Some ext => if String.eqb ext "." then "" else ext
      | None => ""
      end
  end.

End PurePath.

(** The outcome of [subprocess.run]. *)
Inductive proc_outcome :=
| Completed (stdout stderr : string) (returncode : Z)
| TimeoutExpired
| ProcFailed (e : exn).

(** ** The platform

    What the sources take from the Python runtime and the operating
    system: [repr] and [json.dumps] as text, pathlib's disk operations,
    [subprocess.run], [re] and [fnmatch].  [fs] is the state of the disk. *)
Class Platform := {
  fs : Type;
  (** [str(v)] of a value that is not a [str] *)
  repr : pyval → string;
  (** the text [json.dumps(v)] of a serialisable value *)
  json_text : pyval → string;
  (** [f"{x:.2f}"] *)
  format_2f : Q → string;
  (** [p.resolve()]: absolute, symlinks and dots resolved *)
  resolve : fs → Path → Path;
  exists_ : fs → Path → bool;
  is_file : fs → Path → bool;
  is_dir : fs → Path → bool;
  (** [p.read_text(encoding="utf-8", errors=...)]; the flag is
      [errors="replace"] *)
  read_text : fs → Path → bool → res string;
  write_text : Path → string → SE fs unit;
  (** [p.mkdir(parents=True, exist_ok=True)] *)
  mkdir_parents : Path → SE fs unit;
  (** [p.iterdir()], in the order of the disk *)
  iterdir : fs → Path → res (list Path);
  (** [p.stat().st_size] *)
  st_size : fs → Path → res Z;
  (** [p.rglob(pattern)] *)
  rglob : fs → Path → string → res (list Path);
  (** [subprocess.run(command, shell=True, cwd=..., timeout=...)] *)
  subprocess_shell : string → Path → pyval → fs → fs * proc_outcome;
  (** [subprocess.run(argv, cwd=..., timeout=30)] *)
  subprocess_argv : list string → Path → fs → fs * proc_outcome;
  (** compiled patterns of [re]; the flag is [re.IGNORECASE] *)
  regex : Type;
  re_compile : string → bool → res regex;
  re_search : regex → string → bool;
  fnmatch : string → string → bool;
  (** [s.splitlines()] *)
  splitlines : string → list string
}.

(** [str(v)] *)
Definition py_str `{Platform} (v : pyval) : string :=
  match v with PStr s => s | _ => repr v end.

(** [json.dumps(v)] *)
Definition json_dumps `{Platform} (v : pyval) : res string :=
  if Py.jsonable v then Ok (json_text v)
  else Raise (TypeError "Object is not JSON serializable").

(** ** context.py *)

Module TokenUsage.

Record t := mk {
  input_tokens : Z;
  output_tokens : Z;
  cache_read_tokens : Z;
  cache_creation_tokens : Z
}.

Definition init : t := mk 0 0 0 0.

(** [usage.get(k, 0)] as the [int] the counter is increased by *)
Definition usage_get (k : string) (usage : dict) : res Z :=
  expect (Py.as_int (Py.get_default k (PInt 0) usage))
         (TypeError "unsupported operand type(s) for +=").

Definition add (usage : dict) : SE t unit :=
  n ← lift_res (usage_get "input_tokens" usage);
  modify (λ u, mk (input_tokens u + n) (output_tokens u)
                  (cache_read_tokens u) (cache_creation_tokens u));;
  n ← lift_res (usage_get "output_tokens" usage);
  modify (λ u, mk (input_tokens u) (output_tokens u + n)
                  (cache_read_tokens u) (cache_creation_tokens u));;
  n ← lift_res (usage_get "cache_read_input_tokens" usage);
  modify (λ u, mk (input_tokens u) (output_tokens u)
                  (cache_read_tokens u + n) (cache_creation_tokens u));;
  n ← lift_res (usage_get "cache_creation_input_tokens" usage);
  modify (λ u, mk (input_tokens u) (output_tokens u)
                  (cache_read_tokens u) (cache_creation_tokens u + n)).

Definition total (self : t) : Z := input_tokens self + output_tokens self.

Definition to_dict (self : t) : dict :=
  [ ("input_tokens", PInt (input_tokens self));
    ("output_tokens", PInt (output_tokens self));
    ("cache_read_tokens", PInt (cache_read_tokens self));
    ("cache_creation_tokens", PInt (cache_creation_tokens self));
    ("total", PInt (total self)) ].

End TokenUsage.

Module ContextManager.

Record t := mk {
  system_prompt : string;
  messages : list pyval;
  max_context_tokens : Z;
  checkpoint_threshold : Q;
  summary_threshold : Q;
  _estimated_tokens : Z
}.

(** The dataclass defaults. *)
Definition default_max_context_tokens : Z := 150000.
Definition default_checkpoint_threshold : Q := 6 # 10.
Definition default_summary_threshold : Q := 8 # 10.

(** [ContextManager(system_prompt=..., max_context_tokens=..., ...)] *)
Definition init (sp : string) (max_tokens : Z) (ckpt summ : Q) : t :=
  mk sp [] max_tokens ckpt summ 0.

Definition set_messages (ms : list pyval) (self : t) : t :=
  mk (system_prompt self) ms (max_context_tokens self)
     (checkpoint_threshold self) (summary_threshold self) (_estimated_tokens self).

Definition set_estimated_tokens (n : Z) (self : t) : t :=
  mk (system_prompt self) (messages self) (max_context_tokens self)
     (checkpoint_threshold self) (summary_threshold self) n.

Definition set_system_prompt (sp : string) (self : t) : t :=
  mk sp (messages self) (max_context_tokens self)
     (checkpoint_threshold self) (summary_threshold self) (_estimated_tokens self).

(** [v == s] for a string literal [s] *)
Definition is_str (s : string) (v : option pyval) : bool :=
  match v with Some (PStr s') => String.eqb s' s | _ => false end.

Section WithPlatform.
Context `{Platform}.

Definition estimate_tokens (text : pyval) : res Z :=
  if negb (Py.truthy text) then Ok 0
  else match text with
       | PStr s => Ok (PyStr.len s / 4)
       | PList l => Ok (Py.len l / 4)
       | PDict d => Ok (Py.len d / 4)
       | _ => Raise (TypeError "object has no len()")
       end.

(** one turn of the loop over the blocks of a list content *)
Definition estimate_block_tokens (block : pyval) : res Z :=
  match block with
  | PDict b =>
      if is_str "text" (Py.get "type" b)
      then estimate_tokens (Py.get_default "text" (PStr "") b)
      else if is_str "tool_use" (Py.get "type" b)
      then res_bind (json_dumps (Py.get_default "input" (PDict []) b))
                    (λ s, estimate_tokens (PStr s))
      else if is_str "tool_result" (Py.get "type" b)
      then estimate_tokens (PStr (py_str (Py.get_default "content" (PStr "") b)))
      else Ok 0
  | _ => Ok 0
  end.

(** [total += f x] over a list, stopping at the first exception *)
Fixpoint sum_res {A} (f : A → res Z) (l : list A) (total : Z) : res Z :=
  match l with
  | [] => Ok total
  | x :: l' => res_bind (f x) (λ n, sum_res f l' (total + n))
  end.

Definition estimate_message_tokens (message : pyval) : res Z :=
  match message with
  | PDict m =>
      match Py.get_default "content" (PStr "") m with
      | PStr s => estimate_tokens (PStr s)
      | PList blocks => sum_res estimate_block_tokens blocks 0
      | _ => Ok 0
      end
  | _ => Raise (Exn "AttributeError" "object has no attribute 'get'")
  end.

(** the value [update_token_estimate] computes *)
Definition token_estimate (sp : string) (ms : list pyval) : res Z :=
  res_bind (estimate_tokens (PStr sp)) (λ total, sum_res estimate_message_tokens ms total).

Definition update_token_estimate : SE t Z :=
  self ← get_state;
  total ← lift_res (token_estimate (system_prompt self) (messages self));
  modify (set_estimated_tokens total);;
  mret total.

Definition context_usage (self : t) : res Q :=
  if max_context_tokens self =? 0
  then Raise (Exn "ZeroDivisionError" "division by zero")
  else Ok (inject_Z (_estimated_tokens self) / inject_Z (max_context_tokens self))%Q.

Definition should_checkpoint (self : t) : res bool :=
  res_bind (context_usage self) (λ u, Ok (Qle_bool (checkpoint_threshold self) u)).

Definition should_summarize (self : t) : res bool :=
  res_bind (context_usage self) (λ u, Ok (Qle_bool (summary_threshold self) u)).

(** [self.messages.append(m)] *)
Definition append_message (m : pyval) : SE t unit :=
  modify (λ self, set_messages (messages self ++ [m]) self).

Definition user_message (content : pyval) : pyval :=
  PDict [("role", PStr "user"); ("content", content)].

Definition add_user_message (content : string) : SE t unit :=
  append_message (user_message (PStr content));;
  update_token_estimate;;
  mret tt.

Definition add_assistant_message (content : pyval) : SE t unit :=
  let content :=
    match content with
    | PStr s => PList [PDict [("type", PStr "text"); ("text", PStr s)]]
    | _ => content
    end in
  append_message (PDict [("role", PStr "assistant"); ("content", content)]);;
  update_token_estimate;;
  mret tt.

Definition tool_result_block (tool_use_id content is_error : pyval) : pyval :=
  PDict [ ("type", PStr "tool_result");
          ("tool_use_id", tool_use_id);
          ("content", content);
          ("is_error", is_error) ].

Definition add_tool_result (tool_use_id result : string) (is_error : bool) : SE t unit :=
  append_message
    (user_message (PList [tool_result_block (PStr tool_use_id) (PStr result) (PBool is_error)]));;
  update_token_estimate;;
  mret tt.

(** [r[k]] *)
Definition subscript (r : pyval) (k : string) : res pyval :=
  match r with
  | PDict d => expect (Py.get k d) (Exn "KeyError" ("'" ++ k ++ "'"))
  | _ => Raise (TypeError "object is not subscriptable")
  end.

(** the block built from one entry of [results] *)
Definition result_block (r : pyval) : res pyval :=
  res_bind (subscript r "tool_use_id") (λ id,
  res_bind (subscript r "content") (λ c,
  match r with
  | PDict d => Ok (tool_result_block id c (Py.get_default "is_error" (PBool false) d))
  | _ => Raise (Exn "AttributeError" "object has no attribute 'get'")
  end)).

Fixpoint result_blocks (results : list pyval) : res (list pyval) :=
  match results with
  | [] => Ok []
  | r :: rs =>
      res_bind (result_block r) (λ b,
      res_bind (result_blocks rs) (λ bs, Ok (b :: bs)))
  end.

Definition add_tool_results (results : list pyval) : SE t unit :=
  content ← lift_res (result_blocks results);
  append_message (user_message (PList content));;
  update_token_estimate;;
  mret tt.

(** [self.messages.copy()] *)
Definition get_messages (self : t) : list pyval := messages self.

Definition summary_message (n_old : Z) (summary : string) : pyval :=
  user_message
    (PStr ("[CONTEXT SUMMARY - " ++ PyStr.of_Z n_old ++ " previous messages]" ++ nl ++ nl
           ++ summary ++ nl ++ nl ++ "[END SUMMARY - Recent conversation follows]")).

Definition summarize_old_context (summary : string) (keep_recent : Z) : SE t unit :=
  self ← get_state;
  if Py.len (messages self) <=? keep_recent * 2 then mret tt
  else
    let cutoff := Py.len (messages self) - keep_recent * 2 in
    let old_messages := Py.slice_to (messages self) cutoff in
    let recent_messages := Py.slice_from (messages self) cutoff in
    let summary_msg := summary_message (Py.len old_messages) summary in
    modify (set_messages ([summary_msg] ++ recent_messages));;
    update_token_estimate;;
    mret tt.

Definition clear : SE t unit :=
  modify (set_messages []);;
  self ← get_state;
  n ← lift_res (estimate_tokens (PStr (system_prompt self)));
  modify (set_estimated_tokens n).

Definition to_dict (self : t) : dict :=
  [ ("system_prompt", PStr (system_prompt self));
    ("messages", PList (messages self));
    ("estimated_tokens", PInt (_estimated_tokens self)) ].

(** [from_dict].  The record is typed, so a document whose
    [system_prompt] is not a [str] or whose [messages] is not a list is
    reported as a [TypeError].  The saved [estimated_tokens] is stored
    and then overwritten by [update_token_estimate]. *)
Definition from_dict (data : dict) (max_context_tokens : Z) : res t :=
  res_bind (expect (Py.as_str (Py.get_default "system_prompt" (PStr "") data))
                   (TypeError "system_prompt is not a str")) (λ sp,
  match Py.get_default "messages" (PList []) data with
  | PList ms =>
      let ctx := mk sp ms max_context_tokens
                    default_checkpoint_threshold default_summary_threshold 0 in
      let saved := default 0 (Py.as_int (Py.get_default "estimated_tokens" (PInt 0) data)) in
      let ctx := set_estimated_tokens saved ctx in
      match update_token_estimate ctx with
      | (ctx', Ok _) => Ok ctx'
      | (_, Raise e) => Raise e
      end
  | _ => Raise (TypeError "messages is not a list")
  end).

End WithPlatform.

End ContextManager.

(** ** checkpoint.py *)

(** A file under [.autopilot]: the text [json.dumps] wrote, represented by
    the value [json.loads] reads back from it, or text that is not JSON. *)
Inductive json_file :=
| JsonText (v : pyval)
| BadText (text : string).

Module CheckpointManager.

(** The files of the checkpoint directory: [checkpoint.json], the lines
    of [history.jsonl], [learnings.json], the archived
    [completed-<stamp>.json] files, and [checkpoint.tmp], the temporary
    file of [save]. *)
Record t := mk {
  checkpoint_file : option json_file;
  history_file : list pyval;
  learnings_file : option json_file;
  completed_files : list (string * json_file);
  temp_file : option json_file
}.

Definition init : t := mk None [] None [] None.

(** What the operating system does with the three file operations of
    [save].  [temp_file.write_text] writes the whole text, or raises and
    leaves [remains] in [checkpoint.tmp] (the file from before when it
    could not be opened, text cut short otherwise); [temp_file.rename]
    and the append to [history.jsonl] happen, or raise and change
    nothing.  A history line cut short by a failing write is outside
    the model: [history_file] holds the decoded lines. *)
Inductive write_outcome :=
| Written
| WriteFails (e : exn) (remains : option json_file).

Inductive step_outcome :=
| Done
| Fails (e : exn).

Record save_io := mkSaveIO {
  io_write : write_outcome;
  io_rename : step_outcome;
  io_append : step_outcome
}.

(** every operation succeeds *)
Definition io_ok : save_io := mkSaveIO Written Done Done.

Section WithPlatform.
Context `{Platform}.

(** [x or []] and [x or {}] for an optional argument *)
Definition or_empty {A} (x : option (list A)) : list A := default [] x.

Definition checkpoint_record (now : string) (context : ContextManager.t)
    (token_usage : TokenUsage.t) (total_cost : Q) (task_description : string)
    (current_phase : option string) (completed_tasks : option (list pyval))
    (extra_state : option dict) : dict :=
  [ ("version", PInt 1);
    ("timestamp", PStr now);
    ("task_description", PStr task_description);
    ("current_phase", from_option PStr PNone current_phase);
    ("completed_tasks", PList (or_empty completed_tasks));
    ("token_usage", PDict (TokenUsage.to_dict token_usage));
    ("total_cost", PFloat total_cost);
    ("context", PDict (ContextManager.to_dict context));
    ("extra_state", PDict (or_empty extra_state)) ].

Definition history_entry (now : string) (token_usage : TokenUsage.t) (total_cost : Q)
    (current_phase : option string) (completed_tasks : option (list pyval)) : pyval :=
  PDict [ ("timestamp", PStr now);
          ("action", PStr "checkpoint");
          ("phase", from_option PStr PNone current_phase);
          ("tasks_completed", PInt (Py.len (or_empty completed_tasks)));
          ("cost", PFloat total_cost);
          ("tokens", PInt (TokenUsage.total token_usage)) ].

(** [save] under the outcomes [io] of its file operations; [now] is
    [datetime.now().isoformat()].  The steps are those of the source, in
    its order: [json.dumps(checkpoint)], [temp_file.write_text],
    [temp_file.rename(self.checkpoint_file)], [json.dumps(history_entry)]
    and the append to the history. *)
Definition save_under (io : save_io) (now : string) (context : ContextManager.t)
    (token_usage : TokenUsage.t) (total_cost : Q) (task_description : string)
    (current_phase : option string) (completed_tasks : option (list pyval))
    (extra_state : option dict) : SE t unit :=
  let checkpoint :=
    checkpoint_record now context token_usage total_cost task_description
                      current_phase completed_tasks extra_state in
  _ ← lift_res (json_dumps (PDict checkpoint));
  match io_write io with
  | WriteFails e remains =>
      modify (λ self, mk (checkpoint_file self) (history_file self)
                         (learnings_file self) (completed_files self) remains);;
      raise e
  | Written =>
      modify (λ self, mk (checkpoint_file self) (history_file self)
                         (learnings_file self) (completed_files self)
                         (Some (JsonText (PDict checkpoint))));;
      match io_rename io with
      | Fails e => raise e
      | Done =>
          modify (λ self, mk (temp_file self) (history_file self)
                             (learnings_file self) (completed_files self) None);;
          let entry :=
            history_entry now token_usage total_cost current_phase completed_tasks in
          _ ← lift_res (json_dumps entry);
          match io_append io with
          | Fails e => raise e
          | Done =>
              modify (λ self, mk (checkpoint_file self) (history_file self ++ [entry])
                                 (learnings_file self) (completed_files self)
                                 (temp_file self))
          end
      end
  end.

(** [save] on a file system whose operations succeed: the only
    exception left is the one of [json.dumps].  [save_under] gives the
    outcomes when an operation raises. *)
Definition save (now : string) (context : ContextManager.t) (token_usage : TokenUsage.t)
    (total_cost : Q) (task_description : string) (current_phase : option string)
    (completed_tasks : option (list pyval)) (extra_state : option dict) : SE t unit :=
  save_under io_ok now context token_usage total_cost task_description
             current_phase completed_tasks extra_state.

(** [load]: the decoded document, or [None] when the file is missing or
    is not JSON (a warning is printed then). *)
Definition load (self : t) : option pyval :=
  match checkpoint_file self with
  | None => None
  | Some (JsonText data) => Some data
  | Some (BadText _) => None
  end.

(** [d.get(k, dflt)] on a value that has to be a dict *)
Definition get_of (v : pyval) (k : string) (dflt : pyval) : res pyval :=
  match v with
  | PDict d => Ok (Py.get_default k dflt d)
  | _ => Raise (Exn "AttributeError" "object has no attribute 'get'")
  end.

Definition int_field (usage_data : pyval) (k : string) : res Z :=
  res_bind (get_of usage_data k (PInt 0)) (λ v,
  expect (Py.as_int v) (TypeError ("token_usage." ++ k ++ " is not an int"))).

(** [restore_context].  [TokenUsage] and the cost are typed, so a
    document whose counters are not [int]s or whose [total_cost] is not
    a number is reported as a [TypeError]. *)
Definition restore_context (self : t) (max_context_tokens : Z)
    : res (option (ContextManager.t * TokenUsage.t * Q * pyval)) :=
  match load self with
  | None => Ok None
  | Some checkpoint =>
      if negb (Py.truthy checkpoint) then Ok None
      else
        res_bind (get_of checkpoint "context" (PDict [])) (λ data,
        res_bind (match data with
                  | PDict d => ContextManager.from_dict d max_context_tokens
                  | _ => Raise (Exn "AttributeError" "object has no attribute 'get'")
                  end) (λ context,
        res_bind (get_of checkpoint "token_usage" (PDict [])) (λ usage_data,
        res_bind (int_field usage_data "input_tokens") (λ i,
        res_bind (int_field usage_data "output_tokens") (λ o,
        res_bind (int_field usage_data "cache_read_tokens") (λ cr,
        res_bind (int_field usage_data "cache_creation_tokens") (λ cc,
        res_bind (get_of checkpoint "total_cost" (PFloat 0)) (λ c,
        res_bind (expect (Py.as_number c) (TypeError "total_cost is not a number")) (λ total_cost,
        Ok (Some (context, TokenUsage.mk i o cr cc, total_cost, checkpoint)))))))))))
  end.

(** [get_history]: the entries of the lines of [history.jsonl], and of
    them [entries[-limit:]] *)
Definition get_history (self : t) (limit : Z) : list pyval :=
  Py.slice_from (history_file self) (- limit).

(** [clear]; [stamp] is [datetime.now().strftime('%Y%m%d-%H%M%S')] *)
Definition clear (stamp : string) (self : t) : t :=
  match checkpoint_file self with
  | Some f =>
      mk None (history_file self) (learnings_file self)
         (completed_files self ++ [("completed-" ++ stamp ++ ".json", f)])
         (temp_file self)
  | None => self
  end.

(** [load_learnings] *)
Definition load_learnings (self : t) : pyval :=
  match learnings_file self with
  | Some (JsonText v) => v
  | _ => PDict []
  end.

(** [existing.update(learnings)]: a key already present keeps its
    place and takes the new value, a new key goes to the end *)
Fixpoint dict_set (k : string) (v : pyval) (d : dict) : dict :=
  match d with
  | [] => [(k, v)]
  | (k', v') :: d' => if String.eqb k' k then (k, v) :: d' else (k', v') :: dict_set k v d'
  end.

Definition dict_update (existing learnings : dict) : dict :=
  fold_left (λ acc kv, dict_set (fst kv) (snd kv) acc) learnings existing.

(** [save_learnings]; an existing file that is JSON but not an object
    makes [update] raise *)
Definition save_learnings (now : string) (learnings : dict) : SE t unit :=
  self ← get_state;
  existing ← lift_res
    (match learnings_file self with
     | Some (JsonText (PDict d)) => Ok d
     | Some (JsonText _) => Raise (Exn "AttributeError" "object has no attribute 'update'")
     | _ => Ok []
     end);
  let existing := dict_set "last_updated" (PStr now) (dict_update existing learnings) in
  _ ← lift_res (json_dumps (PDict existing));
  modify (λ self, mk (checkpoint_file self) (history_file self)
                     (Some (JsonText (PDict existing))) (completed_files self)
                     (temp_file self)).

End WithPlatform.

End CheckpointManager.

(** ** tools.py *)

(** What [subprocess.run] was called with. *)
Inductive spawn :=
| SpawnShell (command : string)
| SpawnArgv (argv : list string).

Module Tools.

(** [tools.bash] of the configuration, with the defaults of the
    [.get] calls that read it. *)
Record BashConfig := mkBash {
  timeout : pyval;
  allowed : list string;
  blocked : list string;
  confirm : list string
}.

Definition default_bash : BashConfig := mkBash (PInt 120) [] [] [].

(** The [git_*] attributes of the orchestrator configuration. *)
Record GitConfig := mkGit {
  git_auto_commit : bool;
  git_commit_prefix : string;
  git_require_verification : bool
}.

Record t := mk {
  project_dir : Path;
  bash_config : BashConfig;
  orchestrator_config : option GitConfig;
  on_confirm_request : option (string → bool)
}.

(** [l[a:b]] *)
Definition norm_index {A} (l : list A) (i : Z) : Z :=
  if i <? 0 then Z.max 0 (Py.len l + i) else Z.min i (Py.len l).

Definition slice {A} (l : list A) (a b : Z) : list A :=
  let a' := norm_index l a in
  let b' := norm_index l b in
  take (Z.to_nat (b' - a')) (drop (Z.to_nat a') l).

(** [f"{i:6}"] *)
Definition pad6 (i : Z) : string :=
  let s := PyStr.of_Z i in
  String.concat "" (replicate (6 - String.length s) " ") ++ s.

(** [[f x for x in enumerate(l, start)]] *)
Fixpoint enumerate_from {A} (start : Z) (l : list A) : list (Z * A) :=
  match l with
  | [] => []
  | x :: l' => (start, x) :: enumerate_from (start + 1) l'
  end.

(** [a in l] for strings *)
Definition str_in (a : string) (l : list string) : bool :=
  existsb (String.eqb a) l.

(** [s.lstrip(chars)] *)
Fixpoint lstrip_chars (chars : list ascii) (s : string) : string :=
  match s with
  | String c s' => if existsb (Ascii.eqb c) chars then lstrip_chars chars s' else s
  | EmptyString => EmptyString
  end.

(** the order of [str] and of [Path]: by code points, then by parts *)
Definition str_le (a b : string) : Prop := Is_true (String.leb a b).

Fixpoint path_leb (p q : Path) : bool :=
  match p, q with
  | [], _ => true
  | _ :: _, [] => false
  | a :: p', b :: q' =>
      match String.compare a b with
      | Lt => true
      | Gt => false
      | Eq => path_leb p' q'
      end
  end.

Definition path_le (p q : Path) : Prop := Is_true (path_leb p q).

(** The disk, of type [D], and the subprocesses started so far, latest
    first. *)
Record world_of (D : Type) := mkWorld {
  disk : D;
  spawned : list spawn
}.

Arguments mkWorld {D} _ _.
Arguments disk {D} _.
Arguments spawned {D} _.

Section WithPlatform.
Context `{Platform}.

Definition world : Type := world_of fs.

(** [Tools.__init__] *)
Definition init (w : world) (project_dir : string) (bash : BashConfig)
    (cfg : option GitConfig) : t :=
  mk (resolve (disk w) (PurePath.of_string project_dir)) bash cfg None.

Definition on_disk {A} (m : SE fs A) : SE world A :=
  λ w, let '(d, r) := m (disk w) in (mkWorld d (spawned w), r).

Definition read_disk {A} (f : fs → A) : SE world A :=
  λ w, (w, Ok (f (disk w))).

Definition read_disk_res {A} (f : fs → res A) : SE world A :=
  λ w, (w, f (disk w)).

Definition run_shell (command : string) (cwd : Path) (timeout : pyval)
    : SE world proc_outcome :=
  λ w, let '(d, r) := subprocess_shell command cwd timeout (disk w) in
       (mkWorld d (SpawnShell command :: spawned w), Ok r).

Definition run_argv (argv : list string) (cwd : Path) : SE world proc_outcome :=
  λ w, let '(d, r) := subprocess_argv argv cwd (disk w) in
       (mkWorld d (SpawnArgv argv :: spawned w), Ok r).

Definition outside_project (path : string) : exn :=
  ToolError ("Path '" ++ path ++ "' is outside project directory").

(** the path [resolve_path] checks and returns: [Path(path)] for an
    absolute [path], [self.project_dir / path] otherwise *)
Definition anchored (self : t) (path : string) : Path :=
  if PurePath.isabs path then PurePath.of_string path
  else PurePath.join (project_dir self) path.

(** [resolve_path] on the disk [d] *)
Definition resolve_path_on (self : t) (path : string) (d : fs) : res Path :=
  let resolved := anchored self path in
  match PurePath.relative_to (resolve d resolved) (resolve d (project_dir self)) with
  | Ok _ => Ok resolved
  | Raise _ => Raise (outside_project path)
  end.

Definition resolve_path (self : t) (path : string) : SE world Path :=
  read_disk_res (resolve_path_on self path).

(** one line of [tool_read_file]'s output *)
Definition numbered_line (il : Z * string) : string :=
  let '(i, line) := il in
  let line :=
    if PyStr.len line >? 2000 then PyStr.take 2000 line ++ "... [truncated]" else line in
  pad6 i ++ tab ++ line.

Definition cannot_read (e : exn) : exn := ToolError ("Cannot read file: " ++ exn_msg e).
Definition cannot_write (e : exn) : exn := ToolError ("Cannot write file: " ++ exn_msg e).

Definition tool_read_file (self : t) (path : string) (offset limit : Z) : SE world string :=
  file_path ← resolve_path self path;
  ex ← read_disk (λ d, exists_ d file_path);
  if negb ex then raise (ToolError ("File not found: " ++ path)) else
  isf ← read_disk (λ d, is_file d file_path);
  if negb isf then raise (ToolError ("Not a file: " ++ path)) else
  content ← try_except (read_disk_res (λ d, read_text d file_path true))
                       (λ e, raise (cannot_read e));
  let lines := splitlines content in
  let total_lines := Py.len lines in
  let start_idx := Z.max 0 (offset - 1) in
  let end_idx := Z.min total_lines (start_idx + limit) in
  let selected_lines := slice lines start_idx end_idx in
  let numbered := numbered_line <$> enumerate_from (start_idx + 1) selected_lines in
  let result := PyStr.join nl numbered in
  mret (if end_idx <? total_lines
        then result ++ nl ++ nl ++ "[... " ++ PyStr.of_Z (total_lines - end_idx) ++ " more lines]"
        else result).

(** [content] is written as it arrives: [write_text] refuses a value
    that is not a [str] inside the [try]. *)
Definition tool_write_file (self : t) (path : string) (content : pyval) : SE world string :=
  file_path ← resolve_path self path;
  on_disk (mkdir_parents (PurePath.parent file_path));;
  text ← try_except
    (text ← lift_res (expect (Py.as_str content) (TypeError "data must be str"));
     on_disk (write_text file_path text);;
     mret text)
    (λ e, raise (cannot_write e));
  mret ("Successfully wrote " ++ PyStr.of_Z (PyStr.len text) ++ " bytes to " ++ path).

Definition tool_edit_file (self : t) (path old_string new_string : string)
    (replace_all : pyval) : SE world string :=
  file_path ← resolve_path self path;
  ex ← read_disk (λ d, exists_ d file_path);
  if negb ex then raise (ToolError ("File not found: " ++ path)) else
  content ← try_except (read_disk_res (λ d, read_text d file_path false))
                       (λ e, raise (cannot_read e));
  if negb (PyStr.contains old_string content)
  then raise (ToolError ("String not found in file: " ++ PyStr.take 100 old_string ++ "..."))
  else
  (if negb (Py.truthy replace_all)
   then
     let count := PyStr.count old_string content in
     if (1 <? count)%nat
     then raise (ToolError ("String appears " ++ PyStr.of_Z (Z.of_nat count)
                            ++ " times. Use replace_all=true or provide more context."))
     else mret tt
   else mret tt);;
  let '(new_content, count) :=
    if Py.truthy replace_all
    then (PyStr.replace old_string new_string content None,
          PyStr.count old_string content)
    else (PyStr.replace old_string new_string content (Some 1%nat), 1%nat) in
  try_except (on_disk (write_text file_path new_content)) (λ e, raise (cannot_write e));;
  mret ("Replaced " ++ PyStr.of_Z (Z.of_nat count) ++ " occurrence(s) in " ++ path).

(** the first of [separators] found in [base_cmd] cuts it *)
Fixpoint first_command (separators : list string) (base_cmd : string) : string :=
  match separators with
  | [] => base_cmd
  | separator :: rest =>
      if PyStr.contains separator base_cmd
      then PyStr.strip (PyStr.split_head separator base_cmd)
      else first_command rest base_cmd
  end.

Definition blocked_error (blocked_cmd : string) : exn :=
  ToolError ("Command '" ++ blocked_cmd ++ "' is blocked for security").

Definition not_allowed_error (base_cmd : string) (allowed : list string) : exn :=
  ToolError ("Command '" ++ base_cmd ++ "' is not in allowed list. "
             ++ "Allowed commands: " ++ PyStr.join ", " (take 10 allowed) ++ "...").

Definition not_confirmed_error (base_cmd : string) : exn :=
  ToolError ("Command '" ++ base_cmd ++ "' was not confirmed by user").

Definition no_handler_error (base_cmd : string) : exn :=
  ToolError ("Command '" ++ base_cmd ++ "' requires confirmation but no confirmation handler is set. "
             ++ "Command blocked for safety.").

(** the text returned for a finished command *)
Definition bash_output (stdout stderr : string) (returncode : Z) : string :=
  let output := "" in
  let output := if negb (String.eqb stdout "") then output ++ stdout else output in
  let output :=
    if negb (String.eqb stderr "")
    then (if negb (String.eqb output "") then output ++ nl else output)
         ++ "[stderr]" ++ nl ++ stderr
    else output in
  let output :=
    if negb (returncode =? 0)
    then output ++ nl ++ "[exit code: " ++ PyStr.of_Z returncode ++ "]"
    else output in
  let output :=
    if PyStr.len output >? 30000
    then PyStr.take 30000 output ++ nl ++ nl ++ "[... output truncated]"
    else output in
  if String.eqb output "" then "[no output]" else output.

(** the [try] block of [tool_bash]: the subprocess and its output *)
Definition run_command (self : t) (command : string) (timeout : pyval) : SE world string :=
  result ← run_shell command (project_dir self) timeout;
  match result with
  | Completed stdout stderr returncode => mret (bash_output stdout stderr returncode)
  | TimeoutExpired =>
      raise (ToolError ("Command timed out after " ++ py_str timeout ++ "s"))
  | ProcFailed e => raise (ToolError ("Command failed: " ++ exn_msg e))
  end.

Definition tool_bash (self : t) (command : string) (timeout : pyval) : SE world string :=
  let timeout :=
    match timeout with PNone => Tools.timeout (bash_config self) | _ => timeout end in
  let parts := PyStr.split command in
  match parts with
  | [] => raise (ToolError "Empty command")
  | part0 :: _ =>
      let base_cmd := first_command ["|"; "&&"; "||"; ";"] part0 in
      match List.find (λ blocked_cmd, str_in blocked_cmd parts) (blocked (bash_config self)) with
      | Some blocked_cmd => raise (blocked_error blocked_cmd)
      | None =>
          let allowed := allowed (bash_config self) in
          if negb (Nat.eqb (List.length allowed) 0) && negb (str_in base_cmd allowed)
          then raise (not_allowed_error base_cmd allowed)
          else
            let needs_confirm :=
              existsb (λ cmd, str_in cmd parts) (confirm (bash_config self)) in
            (if needs_confirm
             then match on_confirm_request self with
                  | Some ask =>
                      if negb (ask ("Command requires confirmation: " ++ command ++ nl
                                    ++ "This command may modify or delete files."))
                      then raise (not_confirmed_error base_cmd)
                      else mret tt
                  | None => raise (no_handler_error base_cmd)
                  end
             else mret tt);;
            run_command self command timeout
      end
  end.

End WithPlatform.

Section WithPlatform.
Context `{Platform}.

(** [f"{path}"] of an optional argument *)
Definition show_opt (path : option string) : string := default "None" path.

(** [if path] *)
Definition given (path : option string) : option string :=
  match path with
  | Some s => if String.eqb s "" then None else Some s
  | None => None
  end.

(** [self.resolve_path(path) if path else self.project_dir] *)
Definition path_or_project (self : t) (path : option string) : SE world Path :=
  match given path with
  | Some s => resolve_path self s
  | None => mret (project_dir self)
  end.

(** the matches [tool_glob] collects on the disk [d] *)
Fixpoint glob_matches (self : t) (d : fs) (found : list Path) : list string :=
  match found with
  | [] => []
  | file_path :: rest =>
      if is_file d file_path
      then match PurePath.relative_to file_path (project_dir self) with
           | Ok rel_path => PurePath.to_string rel_path :: glob_matches self d rest
           | Raise _ => glob_matches self d rest
           end
      else glob_matches self d rest
  end.

Definition tool_glob (self : t) (pattern : string) (path : option string) : SE world string :=
  search_dir ← path_or_project self path;
  isd ← read_disk (λ d, is_dir d search_dir);
  if negb isd then raise (ToolError ("Not a directory: " ++ show_opt path)) else
  found ← read_disk_res (λ d, rglob d search_dir (lstrip_chars ["*"; "/"]%char pattern));
  matches ← read_disk (λ d, glob_matches self d found);
  match matches with
  | [] => mret ("No files matching '" ++ pattern ++ "'")
  | _ =>
      let matches := merge_sort str_le matches in
      if Py.len matches >? 100
      then mret (PyStr.join nl (take 100 matches) ++ nl ++ nl ++ "[... "
                 ++ PyStr.of_Z (Py.len matches - 100) ++ " more files]")
      else mret (PyStr.join nl matches)
  end.

(** the loop over the lines of one file; [Some] is the early [return] *)
Fixpoint grep_lines (rx : regex) (rel_path : string) (lines : list (Z * string))
    (results : list string) : list string :=
  match lines with
  | [] => results
  | (line_num, line) :: rest =>
      if re_search rx line
      then
        let results :=
          app results [rel_path ++ ":" ++ PyStr.of_Z line_num ++ ": " ++ PyStr.take 200 line] in
        if Py.len results >=? 100 then results else grep_lines rx rel_path rest results
      else grep_lines rx rel_path rest results
  end.

(** [search_file]; the state is [(results, files_searched)] *)
Definition search_file (self : t) (d : fs) (rx : regex) (file_path : Path)
    (st : list string * Z) : res (list string * Z) :=
  let '(results, files_searched) := st in
  let files_searched := files_searched + 1 in
  match read_text d file_path true with
  | Raise _ => Ok (results, files_searched)
  | Ok content =>
      res_bind (PurePath.relative_to file_path (project_dir self)) (λ rel_path,
      Ok (grep_lines rx (PurePath.to_string rel_path)
                     (enumerate_from 1 (splitlines content)) results,
          files_searched))
  end.

Definition binary_suffixes : list string :=
  [".pyc"; ".so"; ".o"; ".a"; ".png"; ".jpg"; ".gif"; ".ico";
   ".woff"; ".woff2"; ".ttf"; ".eot"].

Fixpoint grep_walk (self : t) (d : fs) (rx : regex) (glob_filter : option string)
    (found : list Path) (st : list string * Z) : res (list string * Z) :=
  match found with
  | [] => Ok st
  | file_path :: rest =>
      if Py.len (fst st) >=? 100 then Ok st
      else if negb (is_file d file_path) then grep_walk self d rx glob_filter rest st
      else if match given glob_filter with
              | Some g => negb (fnmatch (PurePath.name file_path) g)
              | None => false
              end
      then grep_walk self d rx glob_filter rest st
      else if str_in (PurePath.suffix file_path) binary_suffixes
      then grep_walk self d rx glob_filter rest st
      else res_bind (search_file self d rx file_path st)
                    (grep_walk self d rx glob_filter rest)
  end.

Definition tool_grep (self : t) (pattern : string) (path glob_filter : option string)
    (case_insensitive : pyval) : SE world string :=
  search_path ← path_or_project self path;
  rx ← try_except (lift_res (re_compile pattern (Py.truthy case_insensitive)))
                  (λ e, raise (ToolError ("Invalid regex: " ++ exn_msg e)));
  isf ← read_disk (λ d, is_file d search_path);
  st ← (if isf : bool
        then read_disk_res (λ d, search_file self d rx search_path ([], 0))
        else found ← read_disk_res (λ d, rglob d search_path "*");
             read_disk_res (λ d, grep_walk self d rx glob_filter found ([], 0)));
  let '(results, files_searched) := st in
  match results with
  | [] => mret ("No matches for '" ++ pattern ++ "' in "
                ++ PyStr.of_Z files_searched ++ " files")
  | _ =>
      let output := PyStr.join nl results in
      mret (if Py.len results >=? 100
            then output ++ nl ++ nl ++ "[... results limited to 100 matches]"
            else output)
  end.

(** [entry.name.startswith(".")] *)
Definition hidden (entry : Path) : bool := PyStr.startswith (PurePath.name entry) ".".

(** the loop of [tool_list_dir] over the sorted entries *)
Fixpoint list_entries (d : fs) (sorted : list Path) : res (list string) :=
  match sorted with
  | [] => Ok []
  | entry :: rest =>
      if hidden entry then list_entries d rest
      else if is_dir d entry
      then res_bind (list_entries d rest) (λ es, Ok ((PurePath.name entry ++ "/") :: es))
      else res_bind (st_size d entry) (λ size,
           res_bind (list_entries d rest) (λ es,
           Ok ((PurePath.name entry ++ " (" ++ PyStr.of_Z size ++ " bytes)") :: es)))
  end.

Definition tool_list_dir (self : t) (path : option string) : SE world string :=
  dir_path ← path_or_project self path;
  ex ← read_disk (λ d, exists_ d dir_path);
  if negb ex then raise (ToolError ("Directory not found: " ++ show_opt path)) else
  isd ← read_disk (λ d, is_dir d dir_path);
  if negb isd then raise (ToolError ("Not a directory: " ++ show_opt path)) else
  listing ← read_disk_res (λ d, iterdir d dir_path);
  entries ← read_disk_res (λ d, list_entries d (merge_sort path_le listing));
  match entries with
  | [] => mret "[empty directory]"
  | _ => mret (PyStr.join nl entries)
  end.

(** a [subprocess.run] of git that raises what [subprocess.run] raises *)
Definition git (self : t) (argv : list string) : SE world (string * string * Z) :=
  r ← run_argv argv (project_dir self);
  match r with
  | Completed out err rc => mret (out, err, rc)
  | TimeoutExpired => raise (Exn "TimeoutExpired" "Command timed out")
  | ProcFailed e => raise e
  end.

Definition commit_message (commit_prefix phase_name summary : string)
    (verification : option string) (files_changed : option (list string)) : string :=
  let commit_msg := commit_prefix ++ "(" ++ phase_name ++ "): " ++ summary ++ nl ++ nl in
  let commit_msg :=
    match given verification with
    | Some v => commit_msg ++ "Verification: " ++ v ++ nl
    | None => commit_msg
    end in
  match files_changed with
  | Some (f0 :: fs') =>
      let files := f0 :: fs' in
      let commit_msg := commit_msg ++ nl ++ "Files changed:" ++ nl in
      let commit_msg :=
        fold_left (λ msg f, msg ++ "  - " ++ f ++ nl) (take 20 files) commit_msg in
      if Py.len files >? 20
      then commit_msg ++ "  ... and " ++ PyStr.of_Z (Py.len files - 20) ++ " more" ++ nl
      else commit_msg
  | _ => commit_msg
  end.

Definition tool_phase_complete (self : t) (phase_name summary : string)
    (verification : option string) (files_changed : option (list string))
    (tests_passed : pyval) : SE world string :=
  let result_lines := ["Phase '" ++ phase_name ++ "' completed: " ++ summary] in
  let '(auto_commit, commit_prefix, require_verification) :=
    match orchestrator_config self with
    | Some c => (git_auto_commit c, git_commit_prefix c, git_require_verification c)
    | None => (true, "feat", true)
    end in
  if require_verification && negb (bool_decide (is_Some (given verification)))
  then mret (PyStr.join nl
               (app result_lines ["⚠ Verification required but not provided - skipping commit"]))
  else
    let result_lines :=
      match given verification with
      | Some v => app result_lines ["Verification: " ++ v]
      | None => result_lines
      end in
    let result_lines :=
      match tests_passed with
      | PNone => result_lines
      | _ => app result_lines
                 ["Tests: " ++ (if Py.truthy tests_passed then "✓ Passed" else "✗ Failed")]
      end in
    if negb auto_commit
    then mret (PyStr.join nl
                 (app result_lines [nl ++ "Auto-commit disabled - changes not committed."]))
    else
      line ← try_except
        ('(out, _, _) ← git self ["git"; "status"; "--porcelain"];
         if negb (String.eqb (PyStr.strip out) "")
         then
           git self ["git"; "add"; "-A"];;
           let commit_msg :=
             commit_message commit_prefix phase_name summary verification files_changed in
           '(_, err, rc) ← git self ["git"; "commit"; "-m"; commit_msg];
           if rc =? 0
           then mret (nl ++ "✓ Committed: " ++ commit_prefix ++ "(" ++ phase_name ++ "): "
                      ++ summary)
           else mret (nl ++ "⚠ Commit failed: " ++ err)
         else mret (nl ++ "No uncommitted changes to commit."))
        (λ e,
           if String.eqb (exn_type e) "TimeoutExpired"
           then mret (nl ++ "⚠ Git operation timed out")
           else if String.eqb (exn_type e) "FileNotFoundError"
           then mret (nl ++ "⚠ Git not found - skipping commit")
           else mret (nl ++ "⚠ Git error: " ++ exn_msg e));
      mret (PyStr.join nl (app result_lines [line])).

(** ["\n".join(f"- {s}" for s in l)] *)
Definition bullets (l : list string) : string :=
  PyStr.join nl ((λ s, "- " ++ s) <$> l).

Definition tool_task_complete (summary : string) (next_steps : option (list string)) : string :=
  let result := "Task completed: " ++ summary in
  match next_steps with
  | Some (s :: l) => result ++ nl ++ nl ++ "Suggested next steps:" ++ nl ++ bullets (s :: l)
  | _ => result
  end.

Definition tool_request_help (question : string) (context : option string)
    (options : option (list string)) : string :=
  let result := "HELP REQUESTED: " ++ question in
  let result :=
    match given context with
    | Some c => result ++ nl ++ nl ++ "Context: " ++ c
    | None => result
    end in
  match options with
  | Some (o :: l) => result ++ nl ++ nl ++ "Options:" ++ nl ++ bullets (o :: l)
  | _ => result
  end.

End WithPlatform.

(** *** Dispatch

    [execute] looks the method up by name and calls it with the input
    dict as keyword arguments.  The arguments are taken with the JSON
    types of the tool's input schema; a value of another type is
    reported as the [TypeError] its use raises. *)
Section WithPlatform.
Context `{Platform}.

(** the keyword arguments name parameters of the method *)
Definition check_keywords (method : string) (params : list string) (kwargs : dict)
    : res unit :=
  match List.find (λ kv, negb (str_in (fst kv) params)) kwargs with
  | Some (k, _) =>
      Raise (TypeError ("Tools." ++ method ++ "() got an unexpected keyword argument '"
                        ++ k ++ "'"))
  | None => Ok tt
  end.

Definition missing (method k : string) : exn :=
  TypeError ("Tools." ++ method ++ "() missing 1 required positional argument: '" ++ k ++ "'").

Definition wrong_type (k : string) : exn :=
  TypeError ("argument '" ++ k ++ "' has the wrong type").

Definition required (method k : string) (kwargs : dict) : res pyval :=
  expect (Py.get k kwargs) (missing method k).

Definition required_str (method k : string) (kwargs : dict) : res string :=
  res_bind (required method k kwargs) (λ v, expect (Py.as_str v) (wrong_type k)).

Definition optional (k : string) (dflt : pyval) (kwargs : dict) : pyval :=
  Py.get_default k dflt kwargs.

Definition optional_int (k : string) (dflt : Z) (kwargs : dict) : res Z :=
  expect (Py.as_int (optional k (PInt dflt) kwargs)) (wrong_type k).

Definition optional_str (k : string) (kwargs : dict) : res (option string) :=
  match optional k PNone kwargs with
  | PNone => Ok None
  | PStr s => Ok (Some s)
  | _ => Raise (wrong_type k)
  end.

Definition optional_str_list (k : string) (kwargs : dict) : res (option (list string)) :=
  match optional k PNone kwargs with
  | PNone => Ok None
  | v => res_bind (expect (Py.as_str_list v) (wrong_type k)) (λ l, Ok (Some l))
  end.

Definition method := dict → SE world string.

Definition call_read_file (self : t) : method := λ kwargs,
  lift_res (check_keywords "tool_read_file" ["path"; "offset"; "limit"] kwargs);;
  path ← lift_res (required_str "tool_read_file" "path" kwargs);
  offset ← lift_res (optional_int "offset" 1 kwargs);
  limit ← lift_res (optional_int "limit" 2000 kwargs);
  tool_read_file self path offset limit.

Definition call_write_file (self : t) : method := λ kwargs,
  lift_res (check_keywords "tool_write_file" ["path"; "content"] kwargs);;
  path ← lift_res (required_str "tool_write_file" "path" kwargs);
  content ← lift_res (required "tool_write_file" "content" kwargs);
  tool_write_file self path content.

Definition call_edit_file (self : t) : method := λ kwargs,
  lift_res (check_keywords "tool_edit_file"
              ["path"; "old_string"; "new_string"; "replace_all"] kwargs);;
  path ← lift_res (required_str "tool_edit_file" "path" kwargs);
  old_string ← lift_res (required_str "tool_edit_file" "old_string" kwargs);
  new_string ← lift_res (required_str "tool_edit_file" "new_string" kwargs);
  tool_edit_file self path old_string new_string (optional "replace_all" (PBool false) kwargs).

Definition call_bash (self : t) : method := λ kwargs,
  lift_res (check_keywords "tool_bash" ["command"; "timeout"] kwargs);;
  command ← lift_res (required_str "tool_bash" "command" kwargs);
  tool_bash self command (optional "timeout" PNone kwargs).

Definition call_glob (self : t) : method := λ kwargs,
  lift_res (check_keywords "tool_glob" ["pattern"; "path"] kwargs);;
  pattern ← lift_res (required_str "tool_glob" "pattern" kwargs);
  path ← lift_res (optional_str "path" kwargs);
  tool_glob self pattern path.

Definition call_grep (self : t) : method := λ kwargs,
  lift_res (check_keywords "tool_grep"
              ["pattern"; "path"; "glob_filter"; "case_insensitive"] kwargs);;
  pattern ← lift_res (required_str "tool_grep" "pattern" kwargs);
  path ← lift_res (optional_str "path" kwargs);
  glob_filter ← lift_res (optional_str "glob_filter" kwargs);
  tool_grep self pattern path glob_filter (optional "case_insensitive" (PBool false) kwargs).

Definition call_list_dir (self : t) : method := λ kwargs,
  lift_res (check_keywords "tool_list_dir" ["path"] kwargs);;
  path ← lift_res (optional_str "path" kwargs);
  tool_list_dir self path.

Definition call_phase_complete (self : t) : method := λ kwargs,
  lift_res (check_keywords "tool_phase_complete"
              ["phase_name"; "summary"; "verification"; "files_changed"; "tests_passed"]
              kwargs);;
  phase_name ← lift_res (required_str "tool_phase_complete" "phase_name" kwargs);
  summary ← lift_res (required_str "tool_phase_complete" "summary" kwargs);
  verification ← lift_res (optional_str "verification" kwargs);
  files_changed ← lift_res (optional_str_list "files_changed" kwargs);
  tool_phase_complete self phase_name summary verification files_changed
                      (optional "tests_passed" PNone kwargs).

Definition call_task_complete : method := λ kwargs,
  lift_res (check_keywords "tool_task_complete" ["summary"; "next_steps"] kwargs);;
  summary ← lift_res (required_str "tool_task_complete" "summary" kwargs);
  next_steps ← lift_res (optional_str_list "next_steps" kwargs);
  mret (tool_task_complete summary next_steps).

Definition call_request_help : method := λ kwargs,
  lift_res (check_keywords "tool_request_help" ["question"; "context"; "options"] kwargs);;
  question ← lift_res (required_str "tool_request_help" "question" kwargs);
  context ← lift_res (optional_str "context" kwargs);
  options ← lift_res (optional_str_list "options" kwargs);
  mret (tool_request_help question context options).

(** The methods of the class whose name starts with [tool_]. *)
Definition tool_methods (self : t) : list (string * method) :=
  [ ("read_file", call_read_file self);
    ("write_file", call_write_file self);
    ("edit_file", call_edit_file self);
    ("bash", call_bash self);
    ("glob", call_glob self);
    ("grep", call_grep self);
    ("list_dir", call_list_dir self);
    ("phase_complete", call_phase_complete self);
    ("task_complete", call_task_complete);
    ("request_help", call_request_help) ].

Definition tool_names : list string :=
  [ "read_file"; "write_file"; "edit_file"; "bash"; "glob"; "grep"; "list_dir";
    "phase_complete"; "task_complete"; "request_help" ].

(** [getattr(self, f"tool_{tool_name}", None)] *)
Definition getattr_tool (self : t) (tool_name : string) : option method :=
  snd <$> List.find (λ nm, String.eqb (fst nm) tool_name) (tool_methods self).

(** [execute]: the pair [(result, is_error)] and the world after the
    call. *)
Definition execute (self : t) (tool_name : string) (tool_input : dict) (w : world)
    : world * (string * bool) :=
  match getattr_tool self tool_name with
  | None => (w, ("Unknown tool: " ++ tool_name, true))
  | Some method =>
      match method tool_input w with
      | (w', Ok result) => (w', (result, false))
      | (w', Raise e) =>
          if is_ToolError e then (w', (exn_msg e, true))
          else (w', ("Tool error: " ++ exn_type e ++ ": " ++ exn_msg e, true))
      end
  end.

End WithPlatform.

(** [get_tool_definitions]: the tools offered to the model, with the
    JSON schema of their input *)
Definition get_tool_definitions : list pyval :=
  [ PDict
      [ ("name", PStr "read_file");
        ("description",
         PStr "Read contents of a file. Returns file content with line numbers.");
        ("input_schema",
         PDict
           [ ("type", PStr "object");
             ("properties",
              PDict
                [ ("path",
                   PDict
                     [ ("type", PStr "string");
                       ("description", PStr "Path to file (relative to project root)") ]);
                  ("offset",
                   PDict
                     [ ("type", PStr "integer");
                       ("description", PStr "Line number to start reading from (1-indexed)") ]);
                  ("limit",
                   PDict
                     [ ("type", PStr "integer");
                       ("description", PStr "Maximum number of lines to read") ]) ]);
             ("required", PList [PStr "path"]) ]) ];
    PDict
      [ ("name", PStr "write_file");
        ("description",
         PStr "Write content to a file. Creates parent directories if needed.");
        ("input_schema",
         PDict
           [ ("type", PStr "object");
             ("properties",
              PDict
                [ ("path",
                   PDict
                     [ ("type", PStr "string");
                       ("description", PStr "Path to file (relative to project root)") ]);
                  ("content",
                   PDict
                     [ ("type", PStr "string");
                       ("description", PStr "Content to write") ]) ]);
             ("required", PList [PStr "path"; PStr "content"]) ]) ];
    PDict
      [ ("name", PStr "edit_file");
        ("description", PStr "Replace a specific string in a file with new content.");
        ("input_schema",
         PDict
           [ ("type", PStr "object");
             ("properties",
              PDict
                [ ("path",
                   PDict
                     [ ("type", PStr "string");
                       ("description", PStr "Path to file (relative to project root)") ]);
                  ("old_string",
                   PDict
                     [ ("type", PStr "string");
                       ("description", PStr "Exact string to find and replace") ]);
                  ("new_string",
                   PDict
                     [ ("type", PStr "string");
                       ("description", PStr "Replacement string") ]);
                  ("replace_all",
                   PDict
                     [ ("type", PStr "boolean");
                       ("description", PStr "Replace all occurrences (default: false)") ]) ]);
             ("required", PList [PStr "path"; PStr "old_string"; PStr "new_string"]) ]) ];
    PDict
      [ ("name", PStr "bash");
        ("description", PStr "Execute a bash command. Use for git, npm, tests, etc.");
        ("input_schema",
         PDict
           [ ("type", PStr "object");
             ("properties",
              PDict
                [ ("command",
                   PDict
                     [ ("type", PStr "string");
                       ("description", PStr "Command to execute") ]);
                  ("timeout",
                   PDict
                     [ ("type", PStr "integer");
                       ("description", PStr "Timeout in seconds (default: 120)") ]) ]);
             ("required", PList [PStr "command"]) ]) ];
    PDict
      [ ("name", PStr "glob");
        ("description", PStr "Find files matching a glob pattern.");
        ("input_schema",
         PDict
           [ ("type", PStr "object");
             ("properties",
              PDict
                [ ("pattern",
                   PDict
                     [ ("type", PStr "string");
                       ("description", PStr "Glob pattern (e.g., '**/*.ts', 'src/**/*.py')") ]);
                  ("path",
                   PDict
                     [ ("type", PStr "string");
                       ("description",
                        PStr "Directory to search in (default: project root)") ]) ]);
             ("required", PList [PStr "pattern"]) ]) ];
    PDict
      [ ("name", PStr "grep");
        ("description", PStr "Search file contents using regex.");
        ("input_schema",
         PDict
           [ ("type", PStr "object");
             ("properties",
              PDict
                [ ("pattern",
                   PDict
                     [ ("type", PStr "string");
                       ("description", PStr "Regex pattern to search for") ]);
                  ("path",
                   PDict
                     [ ("type", PStr "string");
                       ("description", PStr "File or directory to search") ]);
                  ("glob_filter",
                   PDict
                     [ ("type", PStr "string");
                       ("description", PStr "Only search files matching this glob") ]);
                  ("case_insensitive",
                   PDict
                     [ ("type", PStr "boolean");
                       ("description", PStr "Case insensitive search") ]) ]);
             ("required", PList [PStr "pattern"]) ]) ];
    PDict
      [ ("name", PStr "list_dir");
        ("description", PStr "List contents of a directory.");
        ("input_schema",
         PDict
           [ ("type", PStr "object");
             ("properties",
              PDict
                [ ("path",
                   PDict
                     [ ("type", PStr "string");
                       ("description", PStr "Directory path (default: project root)") ]) ]) ]) ];
    PDict
      [ ("name", PStr "phase_complete");
        ("description",
         PStr "Signal that a phase is complete and verified. Commits all changes with a descriptive message.");
        ("input_schema",
         PDict
           [ ("type", PStr "object");
             ("properties",
              PDict
                [ ("phase_name",
                   PDict
                     [ ("type", PStr "string");
                       ("description",
                        PStr "Name of the completed phase (e.g., 'authentication', 'api-endpoints')") ]);
                  ("summary",
                   PDict
                     [ ("type", PStr "string");
                       ("description",
                        PStr "Brief summary of what was accomplished in this phase") ]);
                  ("files_changed",
                   PDict
                     [ ("type", PStr "array");
                       ("items",
                        PDict
                          [ ("type", PStr "string") ]);
                       ("description", PStr "List of files created or modified") ]);
                  ("tests_passed",
                   PDict
                     [ ("type", PStr "boolean");
                       ("description", PStr "Whether tests were run and passed") ]);
                  ("verification",
                   PDict
                     [ ("type", PStr "string");
                       ("description",
                        PStr "How the phase was verified (e.g., 'unit tests pass', 'manual testing', 'type check passes')") ]) ]);
             ("required", PList [PStr "phase_name"; PStr "summary"; PStr "verification"]) ]) ];
    PDict
      [ ("name", PStr "task_complete");
        ("description", PStr "Signal that the entire task is complete (all phases done).");
        ("input_schema",
         PDict
           [ ("type", PStr "object");
             ("properties",
              PDict
                [ ("summary",
                   PDict
                     [ ("type", PStr "string");
                       ("description", PStr "Brief summary of what was accomplished") ]);
                  ("next_steps",
                   PDict
                     [ ("type", PStr "array");
                       ("items",
                        PDict
                          [ ("type", PStr "string") ]);
                       ("description", PStr "Suggested next steps (if any)") ]) ]);
             ("required", PList [PStr "summary"]) ]) ];
    PDict
      [ ("name", PStr "request_help");
        ("description", PStr "Request human intervention when stuck or need clarification.");
        ("input_schema",
         PDict
           [ ("type", PStr "object");
             ("properties",
              PDict
                [ ("question",
                   PDict
                     [ ("type", PStr "string");
                       ("description", PStr "What you need help with") ]);
                  ("context",
                   PDict
                     [ ("type", PStr "string");
                       ("description", PStr "Relevant context") ]);
                  ("options",
                   PDict
                     [ ("type", PStr "array");
                       ("items",
                        PDict
                          [ ("type", PStr "string") ]);
                       ("description", PStr "Possible options if applicable") ]) ]);
             ("required", PList [PStr "question"]) ]) ] ].
End Tools.

(** ** orchestrator.py *)

(** The model API's reply: [response.content], [response.stop_reason] and
    the two counters of [response.usage]. *)
Record Response := mkResponse {
  content : list pyval;
  stop_reason : string;
  usage_input_tokens : Z;
  usage_output_tokens : Z
}.

Inductive api_reply :=
| Reply (r : Response)
| APIError (msg : string).

(** What the orchestrator shows to the outside through its callbacks. *)
Inductive event :=
| Output (text : string)
| ToolStart (tool_name : string) (tool_input : dict)
| ToolEnd (tool_name : string) (result : string) (is_error : bool)
| CheckpointSaved.

Module OrchestratorConfig.

Record t := mk {
  model : string;
  max_tokens : Z;
  max_context_tokens : Z;
  checkpoint_threshold : Q;
  summary_threshold : Q;
  cost_config : CostConfig.t;
  pricing : gmap string Pricing.t;
  max_iterations : Z;
  max_tool_calls_per_turn : Z;
  cooldown_on_error : Z;
  git : Tools.GitConfig;
  tools_bash : Tools.BashConfig
}.

End OrchestratorConfig.

Module Orchestrator.

Import OrchestratorConfig.

(** A tool-use block of the response: [block.id], [block.name],
    [block.input]. *)
Record ToolUse := mkToolUse { id : string; name : string; input : dict }.

(** [block.type] and [block.text] of a content block object *)
Definition block_type (block : pyval) : res string :=
  match block with
  | PTextBlock _ => Ok "text"
  | PToolUseBlock _ _ _ => Ok "tool_use"
  | _ => Raise (Exn "AttributeError" "object has no attribute 'type'")
  end.

Definition block_text (block : pyval) : string :=
  match block with PTextBlock text => text | _ => "" end.

Definition as_tool_use (block : pyval) : option ToolUse :=
  match block with
  | PToolUseBlock i n inp => Some (mkToolUse i n inp)
  | _ => None
  end.

(** the two lists the loop over [assistant_content] fills *)
Fixpoint extract (blocks : list pyval) : res (list string * list ToolUse) :=
  match blocks with
  | [] => Ok ([], [])
  | block :: rest =>
      res_bind (block_type block) (λ _,
      res_bind (extract rest) (λ '(text_blocks, tool_uses),
      match block with
      | PTextBlock text => Ok (text :: text_blocks, tool_uses)
      | PToolUseBlock i n inp => Ok (text_blocks, mkToolUse i n inp :: tool_uses)
      | _ => Ok (text_blocks, tool_uses)
      end))
  end.

(** what the loop body ends with *)
Inductive flow :=
| Continue
| Return (completed : bool).

Section State.
Context {D : Type}.

(** The orchestrator and what it owns, over a disk of type [D].
    [client] is the model API: the reply to the request number [n]
    with the given system prompt and messages; [requests] counts the
    requests sent.  [clock] is the reading of [datetime.now()]. *)
Record state := mk {
  project_dir : string;
  config : OrchestratorConfig.t;
  on_tool_start : bool;
  on_tool_end : bool;
  on_checkpoint : bool;
  on_help_requested : option (string → string);
  client : Z → string → list pyval → api_reply;
  requests : Z;
  clock : string;
  tools : Tools.t;
  world : Tools.world_of D;
  checkpoint_mgr : CheckpointManager.t;
  cost_tracker : CostTracker.t;
  context : option ContextManager.t;
  token_usage : TokenUsage.t;
  task_description : string;
  completed_tasks : list pyval;
  is_complete : bool;
  needs_human_input : bool;
  human_input_request : string;
  events : list event
}.

(** field updates *)
Definition set_context (c : option ContextManager.t) (o : state) : state :=
  mk (project_dir o) (config o) (on_tool_start o) (on_tool_end o) (on_checkpoint o)
     (on_help_requested o) (client o) (requests o) (clock o) (tools o) (world o)
     (checkpoint_mgr o) (cost_tracker o) c (token_usage o) (task_description o)
     (completed_tasks o) (is_complete o) (needs_human_input o) (human_input_request o)
     (events o).

Definition set_world (w : Tools.world_of D) (o : state) : state :=
  mk (project_dir o) (config o) (on_tool_start o) (on_tool_end o) (on_checkpoint o)
     (on_help_requested o) (client o) (requests o) (clock o) (tools o) w
     (checkpoint_mgr o) (cost_tracker o) (context o) (token_usage o) (task_description o)
     (completed_tasks o) (is_complete o) (needs_human_input o) (human_input_request o)
     (events o).

Definition set_checkpoint_mgr (c : CheckpointManager.t) (o : state) : state :=
  mk (project_dir o) (config o) (on_tool_start o) (on_tool_end o) (on_checkpoint o)
     (on_help_requested o) (client o) (requests o) (clock o) (tools o) (world o)
     c (cost_tracker o) (context o) (token_usage o) (task_description o)
     (completed_tasks o) (is_complete o) (needs_human_input o) (human_input_request o)
     (events o).

Definition set_cost_tracker (c : CostTracker.t) (o : state) : state :=
  mk (project_dir o) (config o) (on_tool_start o) (on_tool_end o) (on_checkpoint o)
     (on_help_requested o) (client o) (requests o) (clock o) (tools o) (world o)
     (checkpoint_mgr o) c (context o) (token_usage o) (task_description o)
     (completed_tasks o) (is_complete o) (needs_human_input o) (human_input_request o)
     (events o).

Definition set_token_usage (u : TokenUsage.t) (o : state) : state :=
  mk (project_dir o) (config o) (on_tool_start o) (on_tool_end o) (on_checkpoint o)
     (on_help_requested o) (client o) (requests o) (clock o) (tools o) (world o)
     (checkpoint_mgr o) (cost_tracker o) (context o) u (task_description o)
     (completed_tasks o) (is_complete o) (needs_human_input o) (human_input_request o)
     (events o).

Definition set_task (task : string) (done : list pyval) (o : state) : state :=
  mk (project_dir o) (config o) (on_tool_start o) (on_tool_end o) (on_checkpoint o)
     (on_help_requested o) (client o) (requests o) (clock o) (tools o) (world o)
     (checkpoint_mgr o) (cost_tracker o) (context o) (token_usage o) task
     done (is_complete o) (needs_human_input o) (human_input_request o)
     (events o).

Definition set_flags (complete needs_human : bool) (request : string) (o : state) : state :=
  mk (project_dir o) (config o) (on_tool_start o) (on_tool_end o) (on_checkpoint o)
     (on_help_requested o) (client o) (requests o) (clock o) (tools o) (world o)
     (checkpoint_mgr o) (cost_tracker o) (context o) (token_usage o) (task_description o)
     (completed_tasks o) complete needs_human request (events o).

Definition set_requests (n : Z) (o : state) : state :=
  mk (project_dir o) (config o) (on_tool_start o) (on_tool_end o) (on_checkpoint o)
     (on_help_requested o) (client o) n (clock o) (tools o) (world o)
     (checkpoint_mgr o) (cost_tracker o) (context o) (token_usage o) (task_description o)
     (completed_tasks o) (is_complete o) (needs_human_input o) (human_input_request o)
     (events o).

Definition set_events (es : list event) (o : state) : state :=
  mk (project_dir o) (config o) (on_tool_start o) (on_tool_end o) (on_checkpoint o)
     (on_help_requested o) (client o) (requests o) (clock o) (tools o) (world o)
     (checkpoint_mgr o) (cost_tracker o) (context o) (token_usage o) (task_description o)
     (completed_tasks o) (is_complete o) (needs_human_input o) (human_input_request o)
     es.

End State.

Arguments state : clear implicits.

Section WithPlatform.
Context `{Platform}.

Definition t : Type := state fs.

(** [Orchestrator.__init__] *)
Definition init (project_dir : string) (config : OrchestratorConfig.t)
    (on_tool_start on_tool_end on_checkpoint on_cost_warning on_cost_alert : bool)
    (on_help_requested : option (string → string))
    (on_confirm_request : option (string → bool))
    (client : Z → string → list pyval → api_reply) (clock : string)
    (w : Tools.world) (files : CheckpointManager.t) : t :=
  let tools := Tools.init w project_dir (tools_bash config) (Some (git config)) in
  let tools := Tools.mk (Tools.project_dir tools) (Tools.bash_config tools)
                        (Tools.orchestrator_config tools) on_confirm_request in
  {| project_dir := project_dir; config := config;
     on_tool_start := on_tool_start; on_tool_end := on_tool_end;
     on_checkpoint := on_checkpoint; on_help_requested := on_help_requested;
     client := client; requests := 0; clock := clock;
     tools := tools; world := w; checkpoint_mgr := files;
     cost_tracker := CostTracker.init (cost_config config) (pricing config)
                                      on_cost_warning on_cost_alert;
     context := None; token_usage := TokenUsage.init;
     task_description := ""; completed_tasks := [];
     is_complete := false; needs_human_input := false; human_input_request := "";
     events := [] |}.

Definition emit (e : event) : SE t unit :=
  modify (λ o, set_events (events o ++ [e]) o).

Definition on_output (text : string) : SE t unit := emit (Output text).

(** a method of [self.context]; [self.context] is [None] before
    [initialize] or [resume] *)
Definition with_context {A} (m : SE ContextManager.t A) : SE t A :=
  λ o, match context o with
       | None => (o, Raise (Exn "AttributeError" "'NoneType' object has no attribute"))
       | Some c => let '(c', r) := m c in (set_context (Some c') o, r)
       end.

Definition with_checkpoint_mgr {A} (m : SE CheckpointManager.t A) : SE t A :=
  λ o, let '(c', r) := m (checkpoint_mgr o) in (set_checkpoint_mgr c' o, r).

Definition with_token_usage {A} (m : SE TokenUsage.t A) : SE t A :=
  λ o, let '(u', r) := m (token_usage o) in (set_token_usage u' o, r).

(** [f"- {t}"] for each completed task, joined by newlines *)
Definition completed_lines (done : list pyval) : string :=
  PyStr.join nl ((λ t, "- " ++ py_str t) <$> done).

(** the text [_build_system_prompt] composes *)
Definition system_prompt_text (project_dir task_description : string)
    (learnings : pyval) (done : list pyval) : string :=
  let prompt :=
    "You are an expert software engineer working on a project.

PROJECT DIRECTORY: " ++ project_dir ++ "

TASK: " ++ task_description ++ "

INSTRUCTIONS:
1. Break down the task into phases (logical units of work)
2. For each phase:
   a. Implement the changes
   b. Verify it works (run tests, check syntax, manual verification)
   c. Call phase_complete with summary and verification details
   d. This will automatically commit the changes
3. If stuck or need clarification, use request_help tool
4. When ALL phases are done, use task_complete tool

CONSTRAINTS:
- Only modify files within the project directory
- Follow existing code style and patterns
- Write tests for new functionality
- Keep changes minimal and focused

" in
  let prompt :=
    if Py.truthy learnings
    then prompt ++ "
PROJECT LEARNINGS (from previous sessions):
" ++ py_str learnings ++ "

"
    else prompt in
  match done with
  | [] => prompt
  | _ => prompt ++ "
COMPLETED SO FAR:
" ++ completed_lines done ++ "

Continue from where you left off.
"
  end.

Definition _build_system_prompt (o : t) : string :=
  system_prompt_text (project_dir o) (task_description o)
    (CheckpointManager.load_learnings (checkpoint_mgr o)) (completed_tasks o).

Definition initialize (task : string) : SE t unit :=
  modify (λ o, set_task task (completed_tasks o) o);;
  o ← get_state;
  modify (set_context
            (Some (ContextManager.init (_build_system_prompt o)
                     (max_context_tokens (config o))
                     (checkpoint_threshold (config o))
                     (summary_threshold (config o)))));;
  modify (λ o, set_task (task_description o) [] o);;
  modify (λ o, set_flags false (needs_human_input o) (human_input_request o) o).

(** [checkpoint_data.get(k, dflt)] read into a typed field *)
Definition checkpoint_get (checkpoint_data : pyval) (k : string) (dflt : pyval) : res pyval :=
  CheckpointManager.get_of checkpoint_data k dflt.

(** [resume].  [task_description] is a [str] and [completed_tasks] a
    list in the record, so a document with other types there is
    reported as a [TypeError]. *)
Definition resume : SE t bool :=
  o ← get_state;
  result ← lift_res (CheckpointManager.restore_context (checkpoint_mgr o)
                       (max_context_tokens (config o)));
  match result with
  | None => mret false
  | Some (context, token_usage, total_cost, checkpoint_data) =>
      modify (set_context (Some context));;
      modify (set_token_usage token_usage);;
      modify (λ o, set_cost_tracker
                     (CostTracker.set_initial_cost total_cost (cost_tracker o)) o);;
      task ← lift_res (res_bind (checkpoint_get checkpoint_data "task_description" (PStr ""))
                         (λ v, expect (Py.as_str v) (TypeError "task_description is not a str")));
      modify (λ o, set_task task (completed_tasks o) o);;
      done ← lift_res (res_bind (checkpoint_get checkpoint_data "completed_tasks" (PList []))
                         (λ v, match v with
                               | PList l => Ok l
                               | _ => Raise (TypeError "completed_tasks is not a list")
                               end));
      modify (λ o, set_task (task_description o) done o);;
      o ← get_state;
      with_context (modify (ContextManager.set_system_prompt (_build_system_prompt o)));;
      on_output "Resumed from checkpoint";;
      on_output ("  Task: " ++ task);;
      on_output ("  Completed: " ++ PyStr.of_Z (Py.len done) ++ " tasks");;
      on_output ("  Cost so far: $" ++ format_2f total_cost);;
      mret true
  end.

Definition save_checkpoint (reason : string) : SE t unit :=
  o ← get_state;
  context ← lift_res (expect (context o)
                        (Exn "AttributeError" "'NoneType' object has no attribute 'to_dict'"));
  with_checkpoint_mgr
    (CheckpointManager.save (clock o) context (token_usage o)
       (CostTracker.total_cost (cost_tracker o)) (task_description o)
       None (Some (completed_tasks o)) None);;
  (if on_checkpoint o then emit CheckpointSaved else mret tt);;
  on_output ("[Checkpoint saved: " ++ reason ++ "]").

(** [_call_api]; an [anthropic.APIError] is the raised exception *)
Definition _call_api : SE t Response :=
  o ← get_state;
  context ← lift_res (expect (context o)
                        (Exn "AttributeError" "'NoneType' object has no attribute"));
  modify (set_requests (requests o + 1));;
  match client o (requests o) (ContextManager.system_prompt context)
                 (ContextManager.get_messages context) with
  | APIError msg => raise (Exn "APIError" msg)
  | Reply response =>
      with_token_usage
        (TokenUsage.add [ ("input_tokens", PInt (usage_input_tokens response));
                          ("output_tokens", PInt (usage_output_tokens response)) ]);;
      modify (λ o, set_cost_tracker
                     (snd (CostTracker.add_usage (model (config o))
                             (usage_input_tokens response) (usage_output_tokens response)
                             (cost_tracker o))) o);;
      mret response
  end.

End WithPlatform.

Section WithPlatform.
Context `{Platform}.

(** [[f x for x in l]] with effects, in order *)
Fixpoint map_se {S A B} (f : A → SE S B) (l : list A) : SE S (list B) :=
  match l with
  | [] => mret []
  | x :: l' => y ← f x; ys ← map_se f l'; mret (y :: ys)
  end.

Definition tool_result (tool_id result : string) (is_error : bool) : pyval :=
  PDict [ ("tool_use_id", PStr tool_id);
          ("content", PStr result);
          ("is_error", PBool is_error) ].

(** the body of the loop of [_execute_tools] *)
Definition execute_tool_use (tool_use : ToolUse) : SE t pyval :=
  let tool_name := name tool_use in
  let tool_input := input tool_use in
  let tool_id := id tool_use in
  o ← get_state;
  (if on_tool_start o then emit (ToolStart tool_name tool_input) else mret tt);;
  o ← get_state;
  let '(w, (result, is_error)) := Tools.execute (tools o) tool_name tool_input (world o) in
  modify (set_world w);;
  (if on_tool_end o then emit (ToolEnd tool_name (PyStr.take 200 result) is_error)
   else mret tt);;
  result ←
    (if String.eqb tool_name "task_complete"
     then
       modify (λ o, set_flags true (needs_human_input o) (human_input_request o) o);;
       modify (λ o, set_task (task_description o)
                      (completed_tasks o
                       ++ [Py.get_default "summary" (PStr "Task completed") tool_input]) o);;
       mret result
     else if String.eqb tool_name "request_help"
     then
       modify (λ o, set_flags (is_complete o) true result o);;
       match on_help_requested o with
       | Some ask =>
           let human_response := ask result in
           if negb (String.eqb human_response "")
           then
             modify (λ o, set_flags (is_complete o) false (human_input_request o) o);;
             mret ("Human response: " ++ human_response)
           else mret result
       | None => mret result
       end
     else mret result);
  mret (tool_result tool_id result is_error).

Definition _execute_tools (tool_uses : list ToolUse) : SE t (list pyval) :=
  o ← get_state;
  let max_tools := max_tool_calls_per_turn (config o) in
  tool_uses ←
    (if Py.len tool_uses >? max_tools
     then
       on_output ("⚠️  Limiting tool calls from " ++ PyStr.of_Z (Py.len tool_uses)
                  ++ " to " ++ PyStr.of_Z max_tools ++ " per turn");;
       mret (Py.slice_to tool_uses max_tools)
     else mret tool_uses);
  map_se execute_tool_use tool_uses.

(** the first text block of the reply, or [""] *)
Fixpoint first_text (blocks : list pyval) : res string :=
  match blocks with
  | [] => Ok ""
  | block :: rest =>
      res_bind (block_type block) (λ ty,
      if String.eqb ty "text" then Ok (block_text block) else first_text rest)
  end.

Definition _handle_context_pressure : SE t unit :=
  o ← get_state;
  context ← lift_res (expect (context o)
                        (Exn "AttributeError" "'NoneType' object has no attribute"));
  b ← lift_res (ContextManager.should_checkpoint context);
  (if b : bool then save_checkpoint "context_threshold" else mret tt);;
  b ← lift_res (ContextManager.should_summarize context);
  if b : bool
  then
    on_output "[Context pressure - requesting summary]";;
    with_context
      (ContextManager.add_user_message
         ("Please provide a brief summary of what has been accomplished so far, "
          ++ "including key decisions and current state. This will be used to compress context."));;
    response ← _call_api;
    summary ← lift_res (first_text (content response));
    if negb (String.eqb summary "")
    then
      with_context (ContextManager.summarize_old_context summary 6);;
      on_output "[Context summarized]"
    else mret tt
  else mret tt.

Definition task_completed : SE t flow :=
  on_output (nl ++ "✓ Task completed!");;
  o ← get_state;
  modify (set_checkpoint_mgr (CheckpointManager.clear (clock o) (checkpoint_mgr o)));;
  mret (Return true).

(** the loop body of [run] from "Process response" on *)
Definition process_response (response : Response) : SE t flow :=
  let assistant_content := content response in
  with_context (ContextManager.add_assistant_message (PList assistant_content));;
  '(text_blocks, tool_uses) ← lift_res (extract assistant_content);
  for_each text_blocks on_output;;
  o ← get_state;
  if String.eqb (stop_reason response) "end_turn"
     && bool_decide (tool_uses = [])
  then
    if is_complete o then task_completed
    else
      with_context
        (ContextManager.add_user_message
           ("Are you finished with the task? If so, use the task_complete tool. "
            ++ "If not, continue working."));;
      mret Continue
  else
    match tool_uses with
    | [] => mret Continue
    | _ =>
        results ← _execute_tools tool_uses;
        with_context (ContextManager.add_tool_results results);;
        o ← get_state;
        if is_complete o then task_completed
        else if needs_human_input o
        then save_checkpoint "human_input_needed";; mret (Return false)
        else mret Continue
    end.

(** one turn of the [while] loop *)
Definition iteration : SE t flow :=
  o ← get_state;
  if CostTracker.should_stop (cost_tracker o)
  then
    on_output (nl ++ "🛑 Cost limit reached: $"
               ++ format_2f (CostTracker.total_cost (cost_tracker o)));;
    save_checkpoint "cost_limit";;
    mret (Return false)
  else
    _handle_context_pressure;;
    reply ← try_except (response ← _call_api; mret (Some response))
              (λ e, if String.eqb (exn_type e) "APIError"
                    then on_output (nl ++ "⚠️ API error: " ++ exn_msg e);; mret None
                    else raise e);
    match reply with
    | None => mret Continue
    | Some response => process_response response
    end.

(** [while iterations < max_iterations], by the turns that are left *)
Fixpoint loop (turns : nat) : SE t bool :=
  match turns with
  | O =>
      o ← get_state;
      on_output (nl ++ "⚠️ Max iterations (" ++ PyStr.of_Z (max_iterations (config o))
                 ++ ") reached");;
      save_checkpoint "max_iterations";;
      mret false
  | S turns' =>
      f ← iteration;
      match f with
      | Continue => loop turns'
      | Return completed => mret completed
      end
  end.

Definition run : SE t bool :=
  o ← get_state;
  match context o with
  | None => raise (Exn "RuntimeError" "Call initialize() or resume() first")
  | Some _ =>
      with_context
        (ContextManager.add_user_message
           ("Please begin working on the task. Start by exploring the project structure "
            ++ "and understanding what needs to be done, then proceed with implementation."));;
      loop (Z.to_nat (max_iterations (config o)))
  end.

End WithPlatform.
End Orchestrator.

(** ** An in-memory platform

    A small disk for running the tools on concrete inputs: a table from
    resolved paths to files, directories and symbolic links, a shell that
    runs nothing and prints nothing, and substring matching for [re]. *)
Module MemDisk.

Inductive node :=
| File (text : string)
| Dir
| Link (target : Path).

Definition disk_t := list (Path * node).

Definition path_eqb (p q : Path) : bool := bool_decide (p = q).

Fixpoint lookup (d : disk_t) (p : Path) : option node :=
  match d with
  | [] => None
  | (q, n) :: d' => if path_eqb q p then Some n else lookup d' p
  end.

Fixpoint store (d : disk_t) (p : Path) (n : node) : disk_t :=
  match d with
  | [] => [(p, n)]
  | (q, m) :: d' => if path_eqb q p then (q, n) :: d' else (q, m) :: store d' p n
  end.

(** follow the parts of [rest] from [done], popping on [..] and jumping
    to the target of a link *)
Fixpoint walk (d : disk_t) (done : Path) (rest : list string) : Path :=
  match rest with
  | [] => done
  | part :: rest' =>
      if String.eqb part ".." then
        walk d (match done with [_] => done | _ => List.removelast done end) rest'
      else
        let next := (done ++ [part])%list in
        match lookup d next with
        | Some (Link target) => walk d target rest'
        | _ => walk d next rest'
        end
  end.

Definition realpath (d : disk_t) (p : Path) : Path :=
  match p with
  | root :: rest => if PurePath.is_root root then walk d ["/"] rest else walk d ["/"] p
  | [] => ["/"]
  end.

Definition node_at (d : disk_t) (p : Path) : option node :=
  match realpath d p with
  | ["/"] => Some Dir
  | q => lookup d q
  end.

Definition present (d : disk_t) (p : Path) : bool := bool_decide (is_Some (node_at d p)).

Definition isfile (d : disk_t) (p : Path) : bool :=
  match node_at d p with Some (File _) => true | _ => false end.

Definition isdir (d : disk_t) (p : Path) : bool :=
  match node_at d p with Some Dir => true | _ => false end.

Definition read (d : disk_t) (p : Path) (replace : bool) : res string :=
  match node_at d p with
  | Some (File s) => Ok s
  | Some _ => Raise (Exn "IsADirectoryError" ("Is a directory: " ++ PurePath.to_string p))
  | None => Raise (Exn "FileNotFoundError" ("No such file or directory: " ++ PurePath.to_string p))
  end.

Definition write (p : Path) (s : string) : SE disk_t unit :=
  λ d, match node_at d p with
       | Some Dir => (d, Raise (Exn "IsADirectoryError" ("Is a directory: " ++ PurePath.to_string p)))
       | _ =>
           if isdir d (PurePath.parent (realpath d p))
           then (store d (realpath d p) (File s), Ok tt)
           else (d, Raise (Exn "FileNotFoundError"
                             ("No such file or directory: " ++ PurePath.to_string p)))
       end.

(** create the missing directories along [parts], starting below [done] *)
Fixpoint mkdirs (done : Path) (parts : list string) : SE disk_t unit :=
  match parts with
  | [] => mret tt
  | part :: rest =>
      let next := (done ++ [part])%list in
      λ d, match lookup d next with
           | None => mkdirs next rest (store d next Dir)
           | Some Dir => mkdirs next rest d
           | Some _ => (d, Raise (Exn "FileExistsError" ("File exists: " ++ PurePath.to_string next)))
           end
  end.

Definition mkdir_p (p : Path) : SE disk_t unit :=
  λ d, mkdirs ["/"] (List.tl (realpath d p)) d.

Definition children (d : disk_t) (dir : Path) : list string :=
  omap (λ '(q, _), match PurePath.strip_prefix dir q with
                   | Some [name] => Some name
                   | _ => None
                   end) d.

Definition listdir (d : disk_t) (p : Path) : res (list Path) :=
  if isdir d p then Ok ((λ name, (p ++ [name])%list) <$> children d (realpath d p))
  else Raise (Exn "NotADirectoryError" ("Not a directory: " ++ PurePath.to_string p)).

Definition size_of (d : disk_t) (p : Path) : res Z :=
  match node_at d p with
  | Some (File s) => Ok (PyStr.len s)
  | Some _ => Ok 4096
  | None => Raise (Exn "FileNotFoundError" ("No such file or directory: " ++ PurePath.to_string p))
  end.

(** the files and directories below [p] whose name is [pattern], or all
    of them for ["*"] *)
Definition find_all (d : disk_t) (p : Path) (pattern : string) : res (list Path) :=
  if String.eqb pattern "" then Raise (Exn "ValueError" "Unacceptable pattern: ''")
  else Ok (omap (λ '(q, _),
                   match PurePath.strip_prefix (realpath d p) q with
                   | Some (part :: rest) =>
                       if String.eqb pattern "*" || String.eqb (PurePath.name q) pattern
                       then Some (p ++ part :: rest)%list else None
                   | _ => None
                   end) d).

Fixpoint split_lines (s : string) (cur : string) : list string :=
  match s with
  | EmptyString => if String.eqb cur "" then [] else [cur]
  | String c s' =>
      if Ascii.eqb c (ascii_of_nat 10) then cur :: split_lines s' ""
      else split_lines s' (cur ++ String c "")
  end.

Definition show (v : pyval) : string :=
  match v with
  | PNone => "None"
  | PBool true => "True"
  | PBool false => "False"
  | PInt n => PyStr.of_Z n
  | PStr s => "'" ++ s ++ "'"
  | PList [] => "[]"
  | PDict [] => "{}"
  | _ => "<object>"
  end.

(** two decimals, rounding half up *)
Definition two_decimals (q : Q) : string :=
  let cents := Qfloor (Qplus (Qmult q (inject_Z 100)) (Qmake 1 2)) in
  let frac := Z.abs cents mod 100 in
  (if cents <? 0 then "-" else "") ++ PyStr.of_Z (Z.abs cents / 100) ++ "."
  ++ (if frac <? 10 then "0" else "") ++ PyStr.of_Z frac.

Definition run_nothing (d : disk_t) : disk_t * proc_outcome := (d, Completed "" "" 0).

#[global] Instance platform : Platform := {|
  fs := disk_t;
  repr := show;
  json_text := show;
  format_2f := two_decimals;
  resolve := realpath;
  exists_ := present;
  is_file := isfile;
  is_dir := isdir;
  read_text := read;
  write_text := write;
  mkdir_parents := mkdir_p;
  iterdir := listdir;
  st_size := size_of;
  rglob := find_all;
  subprocess_shell := λ _ _ _, run_nothing;
  subprocess_argv := λ _ _, run_nothing;
  regex := string;
  re_compile := λ pattern _, Ok pattern;
  re_search := PyStr.contains;
  fnmatch := λ name pattern, String.eqb pattern "*" || String.eqb name pattern;
  splitlines := λ s, split_lines s ""
|}.

End MemDisk.

(** ** A project to run the model on

    The project [/tmp/proj] of the specification's scenarios on the
    in-memory platform: a file [x.py] with the line [x = 1] twice, the
    hidden checkpoint directory, a directory with only a dotfile, and a
    symbolic link [out] that leaves the project. *)
Module Example.

Import MemDisk.

Definition files : disk_t :=
  [ (["/"; "tmp"], Dir);
    (["/"; "tmp"; "proj"], Dir);
    (["/"; "tmp"; "proj"; "x.py"], File ("x = 1" ++ nl ++ "x = 1" ++ nl));
    (["/"; "tmp"; "proj"; ".autopilot"], Dir);
    (["/"; "tmp"; "proj"; "src"], Dir);
    (["/"; "tmp"; "proj"; "cfg"], Dir);
    (["/"; "tmp"; "proj"; "cfg"; ".env"], File "KEY=1");
    (["/"; "tmp"; "proj"; "out"], Link ["/"; "etc"]);
    (["/"; "etc"], Dir);
    (["/"; "etc"; "passwd"], File "root") ].

Definition w0 : Tools.world := Tools.mkWorld files [].

(** [allowed=[ls, cat]], [blocked=[rm]], [confirm=[mv]] *)
Definition bash : Tools.BashConfig := Tools.mkBash (PInt 120) ["ls"; "cat"] ["rm"] ["mv"].

Definition tools0 : Tools.t := Tools.init w0 "/tmp/proj" bash None.

Definition config (max_tool_calls : Z) : OrchestratorConfig.t :=
  OrchestratorConfig.mk (resolve_model_name DEFAULT_MODEL) 8192 150000 (6 # 10) (8 # 10)
    (CostConfig.mk 10 25 50) DEFAULT_PRICING 500 max_tool_calls 5
    (Tools.mkGit true "feat" true) bash.

(** a model that always ends its turn *)
Definition client (n : Z) (system : string) (messages : list pyval) : api_reply :=
  Reply (mkResponse [PTextBlock "done"] "end_turn" 10 10).

(** a fresh orchestrator over the given checkpoint directory, with both
    cost callbacks installed and no human at hand *)
Definition fresh (max_tool_calls : Z) (dir : CheckpointManager.t) : Orchestrator.t :=
  Orchestrator.init "/tmp/proj" (config max_tool_calls) false false false true true
    None None client "2026-01-01T00:00:00" w0 dir.

(** an orchestrator after [initialize] and the first user message *)
Definition started (max_tool_calls : Z) : Orchestrator.t :=
  let o := fresh max_tool_calls CheckpointManager.init in
  let o := fst (Orchestrator.initialize "tidy the project" o) in
  fst (Orchestrator.with_context (ContextManager.add_user_message "Please begin.") o).

(** a response asking for two tools *)
Definition two_tools : Response :=
  mkResponse [ PTextBlock "Looking around.";
               PToolUseBlock "toolu_1" "list_dir" [];
               PToolUseBlock "toolu_2" "read_file" [("path", PStr "x.py")] ]
             "tool_use" 100 20.

(** the conversation of a run that was checkpointed at a total cost of
    12 dollars, and the checkpoint directory after that [save] *)
Definition saved_context : ContextManager.t :=
  ContextManager.mk "old prompt" [ContextManager.user_message (PStr "Please begin.")]
                    150000 (6 # 10) (8 # 10) 5.

Definition saved_usage : TokenUsage.t := TokenUsage.mk 4000000 0 0 0.

Definition saved_tasks : list pyval := [PStr "phase one"].

Definition saved_dir : CheckpointManager.t :=
  fst (CheckpointManager.save "2026-01-01T00:00:00" saved_context saved_usage 12
         "tidy the project" None (Some saved_tasks) None CheckpointManager.init).

End Example.

(** * The vocabulary of the properties *)

(** ** Cost thresholds *)

Section CostVocabulary.

Import CostTracker.

(** What the two latches guarantee about the trace of callback calls. *)
Definition latched (self : t) : Prop :=
  (warnings self ≤ (if warning_acknowledged self then 1 else 0))%nat
  ∧ (alerts self ≤ (if alert_acknowledged self then 1 else 0))%nat
  ∧ Forall (at_threshold (config self)) (calls self).

End CostVocabulary.

(** ** Conversations *)

(** the last [n] elements of a list *)
Definition last_n {A} (n : Z) (l : list A) : list A := drop (Z.to_nat (Py.len l - n)) l.

(** the number of offsets of [hay] at which [needle] occurs: every
    occurrence is counted, also one that overlaps another *)
Fixpoint occurrences (needle hay : string) : nat :=
  ((if String.prefix needle hay then 1 else 0)
   + match hay with
     | EmptyString => 0
     | String _ hay' => occurrences needle hay'
     end)%nat.

(** [message["role"]], and the ids a message carries: those of the
    tool-use blocks of an assistant message and those of the tool-result
    blocks of a user message, in the order of the blocks *)
Definition role (message : pyval) : option string :=
  match message with
  | PDict m => Py.get "role" m ≫= Py.as_str
  | _ => None
  end.

Definition blocks_of (message : pyval) : list pyval :=
  match message with
  | PDict m => match Py.get "content" m with Some (PList blocks) => blocks | _ => [] end
  | _ => []
  end.

Definition tool_use_id (block : pyval) : option string :=
  match block with
  | PToolUseBlock i _ _ => Some i
  | _ => None
  end.

Definition tool_result_id (block : pyval) : option string :=
  match block with
  | PDict b =>
      if ContextManager.is_str "tool_result" (Py.get "type" b)
      then Py.get "tool_use_id" b ≫= Py.as_str
      else None
  | _ => None
  end.

Definition tool_use_ids (message : pyval) : list string := omap tool_use_id (blocks_of message).
Definition tool_result_ids (message : pyval) : list string := omap tool_result_id (blocks_of message).

(** ** Tools *)

Section ToolVocabulary.
Context `{Platform}.

Import Tools.

(** [root] is [p] or one of its ancestors, part by part *)
Definition under (root p : Path) : Prop := is_Some (PurePath.strip_prefix root p).

(** the resolved form of the path a tool was given lies in the resolved
    project directory *)
Definition confined (self : t) (d : fs) (path : string) : Prop :=
  under (resolve d (project_dir self)) (resolve d (anchored self path)).

(** the configuration of the shell policy example *)
Definition policy_example (self : t) : Prop :=
  allowed (bash_config self) = ["ls"; "cat"]
  ∧ blocked (bash_config self) = ["rm"]
  ∧ confirm (bash_config self) = ["mv"]
  ∧ on_confirm_request self = None.

End ToolVocabulary.

(** ** The orchestrator *)

Section OrchestratorVocabulary.
Context `{Platform}.

Import Orchestrator.

(** the conversation and the configuration are the same in both states *)
Definition same_context (o o' : t) : Prop :=
  context o' = context o ∧ config o' = config o.

(** a call that returns a value satisfying [P] and leaves the
    conversation alone *)
Definition returns {A} (m : SE t A) (P : A → Prop) : Prop :=
  ∀ o, ∃ o' a, m o = (o', Ok a) ∧ same_context o o' ∧ P a.

(** a call that leaves the conversation alone, also when it raises *)
Definition keeps {A} (m : SE t A) : Prop := ∀ o, same_context o (fst (m o)).

(** the results of a list of tool uses carry their ids, one by one *)
Definition results_of (tool_uses : list ToolUse) (results : list pyval) : Prop :=
  Forall2 (λ tool_use r, ∃ result is_error,
             r = tool_result (id tool_use) result is_error) tool_uses results.

(** the tool uses that are dispatched: all of them, or the head of the
    list when there are more than [max_tool_calls_per_turn] *)
Definition kept {A} (max_tools : Z) (l : list A) : list A :=
  if Py.len l >? max_tools then Py.slice_to l max_tools else l.

(** the assistant message [add_assistant_message] appends for a list of
    blocks *)
Definition assistant_message (blocks : list pyval) : pyval :=
  PDict [("role", PStr "assistant"); ("content", PList blocks)].

End OrchestratorVocabulary.

(** * Further vocabulary *)

(** ** Cost accounts *)

Section CostAccounts.

Import CostTracker.

(** the sums of the per-model token counters *)
Definition model_input_total (self : t) : Z :=
  map_fold (λ _ (io : Z * Z) acc, fst io + acc) 0 (tokens_by_model self).

Definition model_output_total (self : t) : Z :=
  map_fold (λ _ (io : Z * Z) acc, snd io + acc) 0 (tokens_by_model self).

Definition is_add_usage (o : op) : bool :=
  match o with AddUsage _ _ _ => true | SetInitialCost _ => false end.

(** the number of [add_usage] calls in a sequence of calls *)
Definition usage_calls (ops : list op) : Z := Py.len (List.filter is_add_usage ops).

(** the models named in the [add_usage] calls of a sequence of calls *)
Definition models_used (ops : list op) : gset string :=
  list_to_set (omap (λ o, match o with AddUsage m _ _ => Some m | _ => None end) ops).

(** the callbacks and the thresholds do not change, and each callback
    has been called once if its latch is set and it is installed, and
    not at all otherwise *)
Definition counted (cfg : CostConfig.t) (onw ona : bool) (self : t) : Prop :=
  config self = cfg ∧ on_warning self = onw ∧ on_alert self = ona
  ∧ warnings self = (if warning_acknowledged self && onw then 1 else 0)%nat
  ∧ alerts self = (if alert_acknowledged self && ona then 1 else 0)%nat.

(** a latch is set when the total is at or above its threshold *)
Definition caught_up (self : t) : Prop :=
  (ge (total_cost self) (CostConfig.warn (config self)) = true →
   warning_acknowledged self = true)
  ∧ (ge (total_cost self) (CostConfig.alert (config self)) = true →
     alert_acknowledged self = true).

(** what the accounts of a tracker say about the calls made on it *)
Definition balanced (calls_before : Z) (models_before : gset string) (self : t) : Prop :=
  input_tokens self = model_input_total self
  ∧ output_tokens self = model_output_total self
  ∧ api_calls self = calls_before
  ∧ dom (tokens_by_model self) = models_before
  ∧ dom (cost_by_model self) = models_before.

End CostAccounts.

(** ** Token estimates *)

Section EstimateVocabulary.
Context `{Platform}.

Import ContextManager.

(** the stored estimate is the one [update_token_estimate] would compute *)
Definition estimate_current (self : t) : Prop :=
  token_estimate (system_prompt self) (messages self) = Ok (_estimated_tokens self).

End EstimateVocabulary.

(** ** Tools *)

Section ToolFrameVocabulary.
Context `{Platform}.

Import Tools.

(** a call that leaves the disk and the list of subprocesses as they
    were, whether it returns or raises *)
Definition leaves_world {A} (m : SE world A) : Prop := ∀ w, fst (m w) = w.

(** the separators [tool_bash] cuts the first word at *)
Definition separators : list string := ["|"; "&&"; "||"; ";"].

(** the [git] configuration [tool_phase_complete] works with *)
Definition auto_commit_of (self : t) : bool :=
  match orchestrator_config self with Some c => git_auto_commit c | None => true end.

Definition require_verification_of (self : t) : bool :=
  match orchestrator_config self with Some c => git_require_verification c | None => true end.

Definition commit_prefix_of (self : t) : string :=
  match orchestrator_config self with Some c => git_commit_prefix c | None => "feat" end.

(** the three git commands of [tool_phase_complete] *)
Definition git_status : spawn := SpawnArgv ["git"; "status"; "--porcelain"].
Definition git_add : spawn := SpawnArgv ["git"; "add"; "-A"].
Definition git_commit (commit_msg : string) : spawn :=
  SpawnArgv ["git"; "commit"; "-m"; commit_msg].

End ToolFrameVocabulary.

(** ** Tool definitions *)

(** the name of a tool definition, and the property names and the
    required names of its input schema *)
Definition definition_name (d : pyval) : string :=
  match d with
  | PDict l => default "" (Py.get "name" l ≫= Py.as_str)
  | _ => ""
  end.

Definition input_schema (d : pyval) : dict :=
  match d with
  | PDict l => match Py.get "input_schema" l with Some (PDict s) => s | _ => [] end
  | _ => []
  end.

Definition schema_properties (d : pyval) : list string :=
  match Py.get "properties" (input_schema d) with
  | Some (PDict properties) => properties.*1
  | _ => []
  end.

Definition schema_required (d : pyval) : list string :=
  match Py.get "required" (input_schema d) with
  | Some v => default [] (Py.as_str_list v)
  | None => []
  end.

(** ** The orchestrator *)

Section OrchestratorFrameVocabulary.
Context `{Platform}.

Import Orchestrator.

(** a call that leaves [f] of the orchestrator as it was, whether it
    returns or raises *)
Definition preserves {X A} (f : t → X) (m : SE t A) : Prop := ∀ o, f (fst (m o)) = f o.

(** a call that sends at most [k] requests to the model API *)
Definition requests_within {A} (k : Z) (m : SE t A) : Prop :=
  ∀ o, requests o ≤ requests (fst (m o)) ≤ requests o + k.

(** a call whose value, when it returns, satisfies [P] *)
Definition yields {A} (P : A → Prop) (m : SE t A) : Prop :=
  ∀ o a, snd (m o) = Ok a → P a.

(** a call that keeps [I] of the orchestrator, whether it returns or
    raises, and whose value, when it returns, satisfies [P] *)
Definition ensures {A} (I : t → Prop) (P : A → Prop) (m : SE t A) : Prop :=
  ∀ o, I o → I (fst (m o)) ∧ ∀ a, snd (m o) = Ok a → P a.

(** a request for help is waiting for its answer *)
Definition help_pending (o : t) : Prop := needs_human_input o = true.

End OrchestratorFrameVocabulary.

(** * Properties *)

(** ** Cost thresholds *)

Section CostLatches.

Import CostTracker.

Lemma ge_spec (x y : Q) : ge x y = true → (y <= x)%Q.
Proof. unfold ge. apply Qle_bool_imp_le. Qed.

Lemma latched_init cfg pr onw ona : latched (init cfg pr onw ona).
Proof. repeat split; simpl; auto. Qed.

Lemma check_warning_config self : config (_check_warning self) = config self.
Proof. unfold _check_warning. by destruct (_ && _). Qed.

Lemma check_alert_config self : config (_check_alert self) = config self.
Proof. unfold _check_alert. by destruct (_ && _). Qed.

Lemma latched_check_warning self : latched self → latched (_check_warning self).
Proof.
  intros (Hw & Ha & Hc). unfold _check_warning.
  destruct (ge _ _) eqn:Hge; simpl; [|by repeat split].
  unfold latched, warnings, alerts in *.
  destruct (warning_acknowledged self) eqn:Hack; simpl; rewrite ?Hack; [by repeat split|].
  destruct (on_warning self); simpl; repeat split; try lia; auto.
  constructor; [apply ge_spec, Hge | exact Hc].
Qed.

Lemma latched_check_alert self : latched self → latched (_check_alert self).
Proof.
  intros (Hw & Ha & Hc). unfold _check_alert.
  destruct (ge _ _) eqn:Hge; simpl; [|by repeat split].
  unfold latched, warnings, alerts in *.
  destruct (alert_acknowledged self) eqn:Hack; simpl; rewrite ?Hack; [by repeat split|].
  destruct (on_alert self); simpl; repeat split; try lia; auto.
  constructor; [apply ge_spec, Hge | exact Hc].
Qed.

Lemma latched_check_thresholds self : latched self → latched (_check_thresholds self).
Proof. intros. by apply latched_check_alert, latched_check_warning. Qed.

Lemma check_thresholds_config self : config (_check_thresholds self) = config self.
Proof. unfold _check_thresholds. by rewrite check_alert_config, check_warning_config. Qed.

Lemma latched_step self o : latched self → latched (step self o).
Proof.
  intros (Hw & Ha & Hc).
  destruct o; unfold step, add_usage, set_initial_cost; cbn [snd];
    apply latched_check_thresholds; repeat split; assumption.
Qed.

Lemma step_config self o : config (step self o) = config self.
Proof.
  destruct o; unfold step, add_usage, set_initial_cost; cbn [snd];
    by rewrite check_thresholds_config.
Qed.

Lemma latched_run ops self : latched self → latched (run ops self).
Proof.
  revert self. induction ops as [|o ops IH]; intros self Hl; [exact Hl|].
  simpl. apply IH, latched_step, Hl.
Qed.

Lemma run_config ops self : config (run ops self) = config self.
Proof.
  revert self. induction ops as [|o ops IH]; intros self; [done|].
  simpl. by rewrite IH, step_config.
Qed.

Lemma latch_bound (b : bool) (n : nat) : (n ≤ (if b then 1 else 0))%nat → (n ≤ 1)%nat.
Proof. destruct b; lia. Qed.

(** C6.  On a tracker fresh from its constructor, after any sequence of
    [add_usage] and [set_initial_cost] calls (whatever the costs given
    to [set_initial_cost], at or above [warn] included), [on_warning]
    was called at most once and [on_alert] at most once, and each call
    received a total cost at or above the threshold of its callback. *)
Theorem threshold_latches (cfg : CostConfig.t) (pr : gmap string Pricing.t)
    (onw ona : bool) (ops : list op) :
  let self := run ops (init cfg pr onw ona) in
  (warnings self ≤ 1)%nat
  ∧ (alerts self ≤ 1)%nat
  ∧ Forall (at_threshold cfg) (calls self).
Proof.
  intros self.
  destruct (latched_run ops _ (latched_init cfg pr onw ona)) as (Hw & Ha & Hc).
  fold self in Hw, Ha, Hc.
  repeat split; [by eapply latch_bound | by eapply latch_bound |].
  replace cfg with (config self); [exact Hc|].
  unfold self. by rewrite run_config.
Qed.

(** The latch is not vacuous: a resume at or above [warn] does call the
    installed callback, once, with the restored total. *)
Lemma set_initial_cost_fires cfg pr ona (c : Q) :
  (CostConfig.warn cfg <= c)%Q →
  List.filter is_warning (calls (set_initial_cost c (init cfg pr true ona)))
  = [on_warning_called c].
Proof.
  intros Hc. unfold set_initial_cost, _check_thresholds, _check_warning. simpl.
  unfold ge. rewrite (proj2 (Qle_bool_iff _ _) Hc). simpl.
  unfold _check_alert. simpl. destruct (ge c _); simpl; [destruct ona|]; done.
Qed.

End CostLatches.

(** ** Summarisation and checkpoints *)

Section ContextProps.
Context `{Platform}.

Import ContextManager.

Lemma update_token_estimate_fields (self : t) :
  let self' := fst (update_token_estimate self) in
  messages self' = messages self ∧ system_prompt self' = system_prompt self.
Proof.
  unfold update_token_estimate, mbind, SE_bind, se_bind, get_state, lift_res, modify.
  simpl. by destruct (token_estimate _ _).
Qed.

Lemma update_token_estimate_ok (self : t) (n : Z) :
  token_estimate (system_prompt self) (messages self) = Ok n →
  update_token_estimate self = (set_estimated_tokens n self, Ok n).
Proof.
  intros Hn.
  unfold update_token_estimate, mbind, SE_bind, se_bind, get_state, lift_res, modify.
  simpl. by rewrite Hn.
Qed.

(** what [summarize_old_context] leaves in [messages] when it does not
    return early *)
Lemma summarize_messages (self : t) (summary : string) (k : Z) :
  0 ≤ k → 2 * k < Py.len (messages self) →
  let self' := fst (summarize_old_context summary k self) in
  messages self'
  = summary_message (Py.len (messages self) - 2 * k) summary
      :: drop (Z.to_nat (Py.len (messages self) - 2 * k)) (messages self)
  ∧ system_prompt self' = system_prompt self.
Proof.
  intros Hk HN.
  unfold summarize_old_context, mbind, SE_bind, se_bind, get_state. simpl.
  destruct (Z.leb_spec (Py.len (messages self)) (k * 2)) as [Hle|_]; [lia|].
  set (self1 := set_messages _ self).
  destruct (update_token_estimate_fields self1) as [Hm Hs].
  destruct (update_token_estimate self1) as [self2 [n|e]]; simpl in *;
    rewrite Hm, Hs; unfold self1; simpl; split; try done.
  all: unfold Py.slice_to, Py.slice_from;
    destruct (Z.ltb_spec (Py.len (messages self) - k * 2) 0) as [Hlt|_]; [lia|];
    replace (k * 2) with (2 * k) by lia;
    do 2 f_equal; unfold Py.len in *; rewrite length_take; lia.
Qed.

(** C5, for [keep_recent >= 0].  After [summarize_old_context(S, k)] on
    [N > 2k] messages with [k >= 0]: the last [2k] messages are the
    last [2k] messages from before, in the same order; there are
    exactly [2k + 1] messages; the first one is the user message that
    holds the summary between its two marker lines; the system prompt
    is the one from before. *)
Theorem summarize_preserves_tail (self : t) (summary : string) (k : Z) :
  0 ≤ k → 2 * k < Py.len (messages self) →
  let self' := fst (summarize_old_context summary k self) in
  last_n (2 * k) (messages self') = last_n (2 * k) (messages self)
  ∧ Py.len (messages self') = 2 * k + 1
  ∧ head (messages self')
    = Some (PDict [ ("role", PStr "user");
                    ("content",
                     PStr ("[CONTEXT SUMMARY - "
                           ++ PyStr.of_Z (Py.len (messages self) - 2 * k)
                           ++ " previous messages]" ++ nl ++ nl ++ summary ++ nl ++ nl
                           ++ "[END SUMMARY - Recent conversation follows]")) ])
  ∧ system_prompt self' = system_prompt self.
Proof.
  intros Hk HN self'.
  destruct (summarize_messages self summary k Hk HN) as [Hm Hs].
  fold self' in Hm, Hs. rewrite Hm, Hs.
  assert (Hlen : Py.len (drop (Z.to_nat (Py.len (messages self) - 2 * k)) (messages self))
                 = 2 * k).
  { unfold Py.len in *. rewrite length_drop. lia. }
  repeat split.
  - unfold last_n. unfold Py.len in *. simpl length.
    rewrite length_drop in *.
    replace (Z.to_nat (Z.of_nat (S (length (messages self)
               - Z.to_nat (Z.of_nat (length (messages self)) - 2 * k))) - 2 * k))
      with 1%nat by lia.
    reflexivity.
  - unfold Py.len in *. simpl length. lia.
Qed.

End ContextProps.

(** C5 as stated fails for a negative [k]: with one message and
    [k = -1], [N > 2k] holds and the call leaves one message, not
    [2k + 1 = -1]. *)
Lemma summarize_negative_keep :
  let self := ContextManager.mk "" [ContextManager.user_message (PStr "hello")]
                                150000 (6 # 10) (8 # 10) 1 in
  2 * (-1) < Py.len (ContextManager.messages self)
  ∧ Py.len (ContextManager.messages
              (fst (ContextManager.summarize_old_context "S" (-1) self)))
    ≠ 2 * (-1) + 1.
Proof. split; [reflexivity | vm_compute; discriminate]. Qed.

(** A use of [summarize_preserves_tail]: four messages, [k = 1]. *)
Lemma summarize_preserves_tail_witness :
  let m (s : string) := ContextManager.user_message (PStr s) in
  let self := ContextManager.mk "sys" [m "a"; m "b"; m "c"; m "d"] 150000 (6 # 10) (8 # 10) 0 in
  let self' := fst (ContextManager.summarize_old_context "S" 1 self) in
  last_n 2 (ContextManager.messages self') = [m "c"; m "d"]
  ∧ Py.len (ContextManager.messages self') = 3.
Proof.
  intros m self self'.
  destruct (summarize_preserves_tail self "S" 1) as (Ht & Hl & _); [lia | reflexivity |].
  split; [exact Ht | exact Hl].
Defined.

Section CheckpointProps.
Context `{Platform}.

Import CheckpointManager.

Lemma jsonable_list (l : list pyval) : Py.jsonable (PList l) = forallb Py.jsonable l.
Proof. reflexivity. Qed.

Lemma jsonable_record now ctx usage cost task phase done extra :
  Py.jsonable (PList (ContextManager.messages ctx)) = true →
  Py.jsonable (PList (or_empty done)) = true →
  Py.jsonable (PDict (or_empty extra)) = true →
  Py.jsonable (PDict (checkpoint_record now ctx usage cost task phase done extra)) = true.
Proof.
  intros Hm Hd He. unfold checkpoint_record.
  cbn [Py.jsonable forallb ContextManager.to_dict TokenUsage.to_dict andb] in *.
  rewrite Hm, Hd, He. by destruct phase.
Qed.

Lemma save_ok files now ctx usage cost task phase done extra :
  Py.jsonable (PList (ContextManager.messages ctx)) = true →
  Py.jsonable (PList (or_empty done)) = true →
  Py.jsonable (PDict (or_empty extra)) = true →
  save now ctx usage cost task phase done extra files
  = (mk (Some (JsonText (PDict (checkpoint_record now ctx usage cost task phase done extra))))
        (history_file files ++ [history_entry now usage cost phase done])
        (learnings_file files) (completed_files files) None,
     Ok tt).
Proof.
  intros Hm Hd He.
  unfold save, save_under, mbind, SE_bind, se_bind, lift_res, modify, json_dumps.
  rewrite (jsonable_record now ctx usage cost task phase done extra Hm Hd He).
  by destruct phase.
Qed.

Lemma from_dict_to_dict (ctx : ContextManager.t) (max_tokens n : Z) :
  ContextManager.token_estimate (ContextManager.system_prompt ctx)
                                (ContextManager.messages ctx) = Ok n →
  ContextManager.from_dict (ContextManager.to_dict ctx) max_tokens
  = Ok (ContextManager.mk (ContextManager.system_prompt ctx) (ContextManager.messages ctx)
          max_tokens ContextManager.default_checkpoint_threshold
          ContextManager.default_summary_threshold n).
Proof.
  intros Hn. unfold ContextManager.from_dict, ContextManager.to_dict.
  cbn -[ContextManager.update_token_estimate].
  rewrite (update_token_estimate_ok _ n); [reflexivity | exact Hn].
Qed.

(** [restore_context] on the document [save] writes *)
Lemma restore_saved (files : CheckpointManager.t) (now : string)
    (ctx : ContextManager.t) (usage : TokenUsage.t) (cost : Q) (task : string)
    (phase : option string) (done : option (list pyval)) (extra : option dict)
    (max_tokens n : Z) :
  let record := PDict (checkpoint_record now ctx usage cost task phase done extra) in
  checkpoint_file files = Some (JsonText record) →
  ContextManager.token_estimate (ContextManager.system_prompt ctx)
                                (ContextManager.messages ctx) = Ok n →
  restore_context files max_tokens
  = Ok (Some (ContextManager.mk (ContextManager.system_prompt ctx)
                (ContextManager.messages ctx) max_tokens
                ContextManager.default_checkpoint_threshold
                ContextManager.default_summary_threshold n,
              usage, cost, record)).
Proof.
  intros record Hf Hn.
  unfold restore_context, load. rewrite Hf. unfold record, checkpoint_record.
  cbn -[ContextManager.from_dict ContextManager.to_dict].
  rewrite (from_dict_to_dict ctx max_tokens n Hn).
  destruct usage as [i o cr cc]. reflexivity.
Qed.


End CheckpointProps.


(** [save] needs messages that [json.dumps] accepts: on a conversation
    that holds a content-block object of a response it raises and writes
    nothing. *)
Lemma save_refuses_block_objects :
  let ctx :=
    ContextManager.mk "system prompt" [assistant_message [PTextBlock "Looking around."]]
                      150000 (6 # 10) (8 # 10) 3 in
  CheckpointManager.save "2026-01-01T00:00:00" ctx TokenUsage.init 0 "task"
    None None None CheckpointManager.init
  = (CheckpointManager.init, Raise (TypeError "Object is not JSON serializable")).
Proof. vm_compute. reflexivity. Qed.


(** ** The tool executor *)

Section ToolProps.
Context `{Platform}.

Import Tools.

Lemma bind_raised {S A B} (m : SE S A) (k : A → SE S B) (s s' : S) (e : exn) :
  m s = (s', Raise e) → (m ≫= k) s = (s', Raise e).
Proof. intros Hm. unfold mbind, SE_bind, se_bind. by rewrite Hm. Qed.

Lemma bind_returned {S A B} (m : SE S A) (k : A → SE S B) (s s' : S) (a : A) :
  m s = (s', Ok a) → (m ≫= k) s = k a s'.
Proof. intros Hm. unfold mbind, SE_bind, se_bind. by rewrite Hm. Qed.

Lemma bind_modify {S B} (f : S → S) (k : unit → SE S B) (s : S) :
  (modify f ≫= k) s = k () (f s).
Proof. reflexivity. Qed.

Lemma bind_get_state {S B} (k : S → SE S B) (s : S) : (get_state ≫= k) s = k s s.
Proof. reflexivity. Qed.

Lemma bind_lift_res {S A B} (r : res A) (a : A) (k : A → SE S B) (s : S) :
  r = Ok a → (lift_res r ≫= k) s = k a s.
Proof. by intros ->. Qed.

Lemma strip_prefix_refl (p : Path) : PurePath.strip_prefix p p = Some [].
Proof. induction p as [|a p IH]; [done|]. simpl. by rewrite String.eqb_refl. Qed.

Lemma confined_empty (self : t) (d : fs) : confined self d "".
Proof.
  unfold confined, under, anchored. cbn. rewrite app_nil_r, strip_prefix_refl. by eexists.
Qed.

Lemma resolve_path_outside (self : t) (w : world) (path : string) :
  ¬ confined self (disk w) path →
  resolve_path self path w = (w, Raise (outside_project path)).
Proof.
  intros Hout. unfold resolve_path, read_disk_res, resolve_path_on, PurePath.relative_to.
  destruct (PurePath.strip_prefix _ _) eqn:Hs; [|done].
  exfalso. apply Hout. unfold confined, under. rewrite Hs. by eexists.
Qed.

Lemma resolve_path_inside (self : t) (w : world) (path : string) :
  confined self (disk w) path →
  resolve_path self path w = (w, Ok (anchored self path)).
Proof.
  intros [rest Hs]. unfold resolve_path, read_disk_res, resolve_path_on, PurePath.relative_to.
  by rewrite Hs.
Qed.

Lemma given_outside (self : t) (d : fs) (path : string) :
  ¬ confined self d path → given (Some path) = Some path.
Proof.
  intros Hout. unfold given. destruct (String.eqb_spec path "") as [->|_]; [|done].
  destruct Hout. apply confined_empty.
Qed.

(** C2.  The check is made on the resolved form of the path the tool
    was given (joined to the project directory when relative), against
    the resolved project directory.  When it fails, each of the six
    tools that take a path raises the "outside project directory" tool
    error and leaves the disk and the process list as they were. *)
Theorem path_confinement (self : t) (w : world) (path : string) :
  ¬ under (resolve (disk w) (project_dir self)) (resolve (disk w) (anchored self path)) →
  let refused := (w, Raise (ToolError ("Path '" ++ path ++ "' is outside project directory"))) in
  (∀ offset limit, tool_read_file self path offset limit w = refused)
  ∧ (∀ content, tool_write_file self path content w = refused)
  ∧ (∀ old_string new_string replace_all,
       tool_edit_file self path old_string new_string replace_all w = refused)
  ∧ (∀ pattern, tool_glob self pattern (Some path) w = refused)
  ∧ (∀ pattern glob_filter case_insensitive,
       tool_grep self pattern (Some path) glob_filter case_insensitive w = refused)
  ∧ tool_list_dir self (Some path) w = refused.
Proof.
  intros Hout refused.
  pose proof (resolve_path_outside self w path Hout) as Hr.
  pose proof (given_outside self (disk w) path Hout) as Hg.
  repeat split; intros.
  - by apply bind_raised.
  - by apply bind_raised.
  - by apply bind_raised.
  - apply bind_raised. unfold path_or_project. by rewrite Hg.
  - apply bind_raised. unfold path_or_project. by rewrite Hg.
  - apply bind_raised. unfold path_or_project. by rewrite Hg.
Qed.

(** The refusal reaches the model as an error result. *)
Lemma execute_read_file_outside (self : t) (w : world) (path : string) :
  ¬ confined self (disk w) path →
  execute self "read_file" [("path", PStr path)] w
  = (w, ("Path '" ++ path ++ "' is outside project directory", true)).
Proof.
  intros Hout. unfold execute. cbn [getattr_tool tool_methods List.find fst snd String.eqb
    Ascii.eqb Bool.eqb fmap option_fmap option_map].
  unfold call_read_file.
  erewrite bind_returned; [|reflexivity].
  erewrite bind_returned; [|reflexivity].
  erewrite bind_returned; [|reflexivity].
  erewrite bind_returned; [|reflexivity].
  unfold tool_read_file.
  rewrite (bind_raised _ _ w w (outside_project path)); [reflexivity|].
  by apply resolve_path_outside.
Qed.

Lemma count_from_contains (needle hay : string) (skip : nat) :
  (0 < PyStr.count_from needle hay skip)%nat → PyStr.contains needle hay = true.
Proof.
  revert skip. induction hay as [|c hay IH]; intros skip; cbn [PyStr.count_from]; [lia|].
  cbn [PyStr.contains].
  destruct skip as [|skip].
  - destruct (String.prefix needle (String c hay)) eqn:Hp; [done|].
    intros Hc. cbn [orb]. by apply (IH 0%nat).
  - intros Hc. rewrite (IH _ Hc). apply orb_true_r.
Qed.

Lemma count_contains (needle hay : string) :
  (0 < PyStr.count needle hay)%nat → PyStr.contains needle hay = true.
Proof.
  destruct needle as [|a needle]; [by destruct hay|].
  apply count_from_contains.
Qed.

(** what [str.count] counts are occurrences, but not all of them: it
    skips those that overlap one it has counted *)
Lemma count_from_le_occurrences (needle hay : string) (skip : nat) :
  (PyStr.count_from needle hay skip ≤ occurrences needle hay)%nat.
Proof.
  revert skip. induction hay as [|c hay IH]; intros skip; [cbn; lia|].
  cbn [PyStr.count_from occurrences]. destruct skip as [|k].
  - destruct (String.prefix needle (String c hay)).
    + specialize (IH (String.length needle - 1)%nat). lia.
    + specialize (IH O). lia.
  - specialize (IH k). lia.
Qed.

Lemma count_le_occurrences (needle hay : string) :
  (PyStr.count needle hay ≤ occurrences needle hay)%nat.
Proof.
  destruct needle as [|a needle]; [|apply count_from_le_occurrences].
  cbn [PyStr.count]. induction hay as [|c hay IH]; cbn [occurrences String.prefix String.length];
    lia.
Qed.

(** C3, for occurrences as the code counts them.  When the file can be
    read and [content.count(old_string)] is more than one, that is,
    when [old_string] has more than one occurrence that does not
    overlap an earlier counted one, [edit_file] without [replace_all]
    raises the "String appears n times" tool error, and the disk and
    the process list are the ones from before the call; [execute]
    returns the message with [is_error] set. *)
Theorem edit_ambiguity (self : t) (w : world) (path old_string new_string content : string)
    (replace_all : pyval) (file_path : Path) :
  resolve_path_on self path (disk w) = Ok file_path →
  exists_ (disk w) file_path = true →
  read_text (disk w) file_path false = Ok content →
  Py.truthy replace_all = false →
  (1 < PyStr.count old_string content)%nat →
  let msg := "String appears " ++ PyStr.of_Z (Z.of_nat (PyStr.count old_string content))
             ++ " times. Use replace_all=true or provide more context." in
  tool_edit_file self path old_string new_string replace_all w = (w, Raise (ToolError msg))
  ∧ execute self "edit_file"
      [ ("path", PStr path); ("old_string", PStr old_string);
        ("new_string", PStr new_string); ("replace_all", replace_all) ] w
    = (w, (msg, true)).
Proof.
  intros Hp He Hr Ht Hc msg.
  assert (Hedit : tool_edit_file self path old_string new_string replace_all w
                  = (w, Raise (ToolError msg))).
  { unfold tool_edit_file.
    erewrite bind_returned; [|unfold resolve_path, read_disk_res; by rewrite Hp].
    erewrite bind_returned; [|reflexivity].
    rewrite He. cbn [negb].
    erewrite bind_returned;
      [|unfold try_except, read_disk_res; by rewrite Hr].
    rewrite count_contains by lia. cbn [negb].
    rewrite Ht. cbn [negb].
    apply bind_raised.
    destruct (Nat.ltb_spec 1 (PyStr.count old_string content)); [done|lia]. }
  split; [exact Hedit|].
  unfold execute. cbn [getattr_tool tool_methods List.find fst snd String.eqb
    Ascii.eqb Bool.eqb fmap option_fmap option_map].
  unfold call_edit_file.
  erewrite bind_returned; [|reflexivity].
  erewrite bind_returned; [|reflexivity].
  erewrite bind_returned; [|reflexivity].
  erewrite bind_returned; [|reflexivity].
  unfold optional. cbn [Py.get_default Py.get String.eqb Ascii.eqb Bool.eqb default].
  unfold id. by rewrite Hedit.
Qed.

Lemma run_command_spawns (self : t) (w : world) (command : string) (timeout : pyval) :
  spawned (fst (run_command self command timeout w)) = SpawnShell command :: spawned w.
Proof.
  unfold run_command, mbind, SE_bind, se_bind, run_shell.
  by destruct (subprocess_shell _ _ _ _) as [d [out err rc| |e]].
Qed.

Lemma bash_runs (self : t) (w : world) (command : string) :
  policy_example self → command = "ls" ∨ command = "cat" →
  spawned (fst (tool_bash self command PNone w)) = SpawnShell command :: spawned w.
Proof.
  intros (Ha & Hb & Hc & Hn) Hcmd.
  rewrite <- (run_command_spawns self w command (Tools.timeout (bash_config self))).
  unfold tool_bash. rewrite Ha, Hb, Hc.
  by destruct Hcmd as [-> | ->].
Qed.

(** C4, with the outcome the code gives to [mv a b].  With
    [allowed=[ls, cat]], [blocked=[rm]], [confirm=[mv]] and no
    confirmation callback: [ls] and [cat] are handed to
    [subprocess.run]; [rm -rf .] raises the blocked-command error;
    [echo hi] and [mv a b] raise the not-allowed error, [mv] not being
    in the allowed list, which is checked before the confirm list.
    The three refused commands leave the disk and the process list
    untouched. *)
Theorem shell_policy (self : t) (w : world) :
  policy_example self →
  spawned (fst (tool_bash self "ls" PNone w)) = SpawnShell "ls" :: spawned w
  ∧ spawned (fst (tool_bash self "cat" PNone w)) = SpawnShell "cat" :: spawned w
  ∧ tool_bash self "rm -rf ." PNone w
    = (w, Raise (ToolError "Command 'rm' is blocked for security"))
  ∧ tool_bash self "echo hi" PNone w
    = (w, Raise (ToolError
                   "Command 'echo' is not in allowed list. Allowed commands: ls, cat..."))
  ∧ tool_bash self "mv a b" PNone w
    = (w, Raise (ToolError
                   "Command 'mv' is not in allowed list. Allowed commands: ls, cat...")).
Proof.
  intros Hex. split; [by apply bash_runs; [|left]|]. split; [by apply bash_runs; [|right]|].
  destruct Hex as (Ha & Hb & Hc & Hn).
  repeat split; unfold tool_bash; rewrite Ha, Hb; reflexivity.
Qed.

(** With [mv] allowed as well, the third layer decides: no callback,
    so the command is refused as unconfirmed, before any subprocess. *)
Lemma shell_policy_unconfirmed (self : t) (w : world) :
  allowed (bash_config self) = ["ls"; "cat"; "mv"] →
  blocked (bash_config self) = ["rm"] →
  confirm (bash_config self) = ["mv"] →
  on_confirm_request self = None →
  tool_bash self "mv a b" PNone w = (w, Raise (no_handler_error "mv")).
Proof.
  intros Ha Hb Hc Hn. unfold tool_bash. rewrite Ha, Hb, Hc, Hn. reflexivity.
Qed.

(** a lookup by name in a table of methods *)
Lemma find_unknown {A} (table : list (string * A)) (tool_name : string) :
  tool_name ∉ table.*1 →
  List.find (λ nm, String.eqb (fst nm) tool_name) table = None.
Proof.
  induction table as [|[k m] table IH]; [done|]. cbn [List.find fst fmap list_fmap].
  intros Hnot. destruct (String.eqb_spec k tool_name) as [->|_].
  - destruct Hnot. by left.
  - apply IH. intros Hin. apply Hnot. by right.
Qed.

Lemma find_known {A} (table : list (string * A)) (tool_name : string) :
  tool_name ∈ table.*1 →
  is_Some (List.find (λ nm, String.eqb (fst nm) tool_name) table).
Proof.
  induction table as [|[k m] table IH]; cbn [List.find fst fmap list_fmap].
  - intros Hin. by apply elem_of_nil in Hin.
  - intros Hin. destruct (String.eqb_spec k tool_name) as [->|Hne]; [by eexists|].
    apply IH. apply elem_of_cons in Hin as [->|Hin]; [done|exact Hin].
Qed.

Lemma tool_methods_names (self : t) : (tool_methods self).*1 = tool_names.
Proof. reflexivity. Qed.

Lemma getattr_unknown (self : t) (tool_name : string) :
  tool_name ∉ tool_names → getattr_tool self tool_name = None.
Proof.
  intros Hnot. unfold getattr_tool.
  rewrite find_unknown; [done|]. by rewrite tool_methods_names.
Qed.

Lemma getattr_known (self : t) (tool_name : string) :
  tool_name ∈ tool_names → is_Some (getattr_tool self tool_name).
Proof.
  intros Hin. unfold getattr_tool.
  destruct (find_known (tool_methods self) tool_name) as [nm ->]; [|by eexists].
  by rewrite tool_methods_names.
Qed.

(** C9.  [execute] gives a pair for every tool name and every input:
    a name without a [tool_] method gives [("Unknown tool: <name>", true)]
    and leaves the world alone; for the ten tools, a result the method
    returns comes back with [is_error] unset, and whatever the method
    raises, a [ToolError] or any other exception, comes back as a
    message with [is_error] set. *)
Theorem execute_total (self : t) (tool_name : string) (tool_input : dict) (w : world) :
  (tool_name ∉ tool_names →
   execute self tool_name tool_input w = (w, ("Unknown tool: " ++ tool_name, true)))
  ∧ (tool_name ∈ tool_names →
     ∃ method, getattr_tool self tool_name = Some method
       ∧ match method tool_input w with
         | (w', Ok result) => execute self tool_name tool_input w = (w', (result, false))
         | (w', Raise e) =>
             ∃ content, execute self tool_name tool_input w = (w', (content, true))
         end).
Proof.
  split.
  - intros Hnot. unfold execute. by rewrite getattr_unknown.
  - intros Hin. destruct (getattr_known self tool_name Hin) as [method Hm].
    exists method. split; [exact Hm|]. unfold execute. rewrite Hm.
    destruct (method tool_input w) as [w' [result|e]]; [done|].
    destruct (is_ToolError e); by eexists.
Qed.

Lemma starts_with_dot (name rest : string) (c : ascii) :
  PyStr.startswith name "." = false → c ≠ "."%char →
  PyStr.startswith (name ++ String c rest) "." = false.
Proof.
  unfold PyStr.startswith.
  destruct name as [|a name]; unfold String.append; cbn [String.prefix].
  - intros _ Hc. destruct (ascii_dec "." c); [congruence|done].
  - destruct (ascii_dec "." a); [|done]. by destruct name.
Qed.

Lemma starts_with_app (name rest : string) : PyStr.startswith (name ++ rest) name = true.
Proof.
  unfold PyStr.startswith.
  induction name as [|a name IH]; unfold String.append; cbn [String.prefix];
    [by destruct rest|].
  destruct (ascii_dec a a); [exact IH|done].
Qed.

(** what the loop of [tool_list_dir] appends *)
Lemma list_entries_shown (d : fs) (sorted : list Path) (lines : list string) :
  list_entries d sorted = Ok lines →
  Forall (λ line, PyStr.startswith line "." = false) lines
  ∧ Forall2 (λ entry line, PyStr.startswith line (PurePath.name entry) = true)
            (List.filter (λ entry, negb (hidden entry)) sorted) lines.
Proof.
  revert lines. induction sorted as [|entry rest IH]; intros lines; cbn [list_entries List.filter].
  - intros [= <-]. split; constructor.
  - destruct (hidden entry) eqn:Hh; cbn [negb]; [apply IH|].
    destruct (is_dir d entry).
    + destruct (list_entries d rest) as [es|e]; [|done]. intros [= <-].
      destruct (IH es eq_refl) as [Hdot Hall]. split; constructor; try done.
      * by apply starts_with_dot.
      * apply starts_with_app.
    + destruct (st_size d entry) as [size|e]; [|done]. cbn [res_bind].
      destruct (list_entries d rest) as [es|e]; [|done]. intros [= <-].
      destruct (IH es eq_refl) as [Hdot Hall]. split; constructor; try done.
      * by apply starts_with_dot.
      * apply starts_with_app.
Qed.

Lemma list_entries_hidden (d : fs) (sorted : list Path) :
  Forall (λ entry, hidden entry = true) sorted → list_entries d sorted = Ok [].
Proof.
  induction 1 as [|entry rest Hh _ IH]; [done|]. cbn [list_entries]. by rewrite Hh.
Qed.

(** C10.  In a directory that [list_dir] can list, the lines of the
    result are made, in order, from the sorted entries whose name does
    not start with a dot, each line starting with the name of its
    entry, and no line starts with a dot; an entry named [.autopilot]
    is among the skipped ones; when every entry is skipped the result
    is ["[empty directory]"]. *)
Theorem list_dir_hides_dotfiles (self : t) (w : world) (path : option string)
    (dir_path : Path) (listing : list Path) :
  path_or_project self path w = (w, Ok dir_path) →
  exists_ (disk w) dir_path = true →
  is_dir (disk w) dir_path = true →
  iterdir (disk w) dir_path = Ok listing →
  (∀ lines, list_entries (disk w) (merge_sort path_le listing) = Ok lines →
     tool_list_dir self path w
     = (w, Ok (match lines with [] => "[empty directory]" | _ => PyStr.join nl lines end))
     ∧ Forall (λ line, PyStr.startswith line "." = false) lines
     ∧ Forall2 (λ entry line, PyStr.startswith line (PurePath.name entry) = true)
               (List.filter (λ entry, negb (hidden entry)) (merge_sort path_le listing))
               lines)
  ∧ (∀ entry, PurePath.name entry = ".autopilot" → hidden entry = true)
  ∧ (Forall (λ entry, hidden entry = true) listing →
     tool_list_dir self path w = (w, Ok "[empty directory]")).
Proof.
  intros Hp He Hd Hl.
  assert (Hrun : ∀ lines, list_entries (disk w) (merge_sort path_le listing) = Ok lines →
            tool_list_dir self path w
            = (w, Ok (match lines with
                      | [] => "[empty directory]" | _ => PyStr.join nl lines end))).
  { intros lines Hlines. unfold tool_list_dir.
    erewrite bind_returned; [|exact Hp].
    erewrite bind_returned; [|reflexivity]. rewrite He. cbn [negb].
    erewrite bind_returned; [|reflexivity]. rewrite Hd. cbn [negb].
    erewrite bind_returned; [|unfold read_disk_res; by rewrite Hl].
    erewrite bind_returned; [|unfold read_disk_res; by rewrite Hlines].
    by destruct lines. }
  split; [|split].
  - intros lines Hlines. split; [by apply Hrun|]. by apply list_entries_shown with (d := disk w).
  - intros entry Hn. unfold hidden. by rewrite Hn.
  - intros Hall. apply (Hrun []). apply list_entries_hidden.
    rewrite merge_sort_Permutation. exact Hall.
Qed.

End ToolProps.

(** ** The orchestrator *)

Section OrchestratorProps.
Context `{Platform}.

Import Orchestrator.

Lemma same_context_trans (o1 o2 o3 : t) :
  same_context o1 o2 → same_context o2 o3 → same_context o1 o3.
Proof. intros [? ?] [? ?]. split; congruence. Qed.

Lemma returns_keeps {A} (m : SE t A) (P : A → Prop) : returns m P → keeps m.
Proof. intros Hm o. destruct (Hm o) as (o' & a & -> & Hc & _). exact Hc. Qed.

Lemma keeps_bind {A B} (m : SE t A) (k : A → SE t B) :
  keeps m → (∀ a, keeps (k a)) → keeps (m ≫= k).
Proof.
  intros Hm Hk o. specialize (Hm o). unfold mbind, SE_bind, se_bind.
  destruct (m o) as [o1 [a|e]]; [|exact Hm].
  eapply same_context_trans; [exact Hm | apply Hk].
Qed.

Lemma keeps_get_state : keeps (get_state (S := t)).
Proof. by intros o. Qed.

Lemma keeps_lift_res {A} (r : res A) : keeps (lift_res r).
Proof. by intros o. Qed.

Lemma keeps_with_checkpoint_mgr {A} (m : SE CheckpointManager.t A) :
  keeps (with_checkpoint_mgr m).
Proof. intros o. unfold with_checkpoint_mgr. by destruct (m _). Qed.

Lemma returns_ret {A} (a : A) (P : A → Prop) : P a → returns (mret a) P.
Proof. intros HP o. by eexists _, _. Qed.

Lemma returns_bind {A B} (m : SE t A) (k : A → SE t B) (P : A → Prop) (Q : B → Prop) :
  returns m P → (∀ a, P a → returns (k a) Q) → returns (m ≫= k) Q.
Proof.
  intros Hm Hk o. destruct (Hm o) as (o1 & a & Hr & Hc & HP).
  destruct (Hk a HP o1) as (o2 & b & Hr2 & Hc2 & HQ).
  exists o2, b. split; [|split; [by eapply same_context_trans|done]].
  unfold mbind, SE_bind, se_bind. by rewrite Hr.
Qed.

Lemma returns_get_state {B} (k : t → SE t B) (Q : B → Prop) :
  (∀ o, returns (k o) Q) → returns (get_state ≫= k) Q.
Proof. intros Hk o. destruct (Hk o o) as (o' & b & Hr & Hc & HQ). by exists o', b. Qed.

Lemma returns_modify (f : t → t) :
  (∀ o, same_context o (f o)) → returns (modify f) (λ _, True).
Proof. intros Hf o. by exists (f o), (). Qed.

Lemma returns_emit (e : event) : returns (emit e) (λ _, True).
Proof. by apply returns_modify. Qed.

Lemma returns_for_each (texts : list string) : returns (for_each texts on_output) (λ _, True).
Proof.
  induction texts as [|text texts IH]; [by apply returns_ret|].
  cbn [for_each]. eapply returns_bind; [apply returns_emit | by intros _ _].
Qed.

Lemma returns_when (b : bool) (m : SE t unit) :
  returns m (λ _, True) → returns (if b then m else mret ()) (λ _, True).
Proof. intros Hm. destruct b; [exact Hm | by apply returns_ret]. Qed.

(** one tool use gives one result, under the id of the tool use *)
Lemma execute_tool_use_result (tool_use : ToolUse) :
  returns (execute_tool_use tool_use)
          (λ r, ∃ result is_error, r = tool_result (id tool_use) result is_error).
Proof.
  unfold execute_tool_use.
  apply returns_get_state; intros o.
  eapply returns_bind; [apply returns_when, returns_emit|]. intros _ _.
  apply returns_get_state; intros o1.
  destruct (Tools.execute _ _ _ _) as [w [result is_error]].
  eapply returns_bind; [by apply returns_modify|]. intros _ _.
  eapply returns_bind; [apply returns_when, returns_emit|]. intros _ _.
  eapply returns_bind with (P := λ _, True); [|intros r _; apply returns_ret; by eexists _, _].
  destruct (String.eqb (name tool_use) "task_complete").
  { eapply returns_bind; [by apply returns_modify|]. intros _ _.
    eapply returns_bind; [by apply returns_modify|]. intros _ _.
    by apply returns_ret. }
  destruct (String.eqb (name tool_use) "request_help"); [|by apply returns_ret].
  eapply returns_bind; [by apply returns_modify|]. intros _ _.
  destruct (on_help_requested o1) as [ask|]; [|by apply returns_ret].
  destruct (negb _); [|by apply returns_ret].
  eapply returns_bind; [by apply returns_modify|]. intros _ _.
  by apply returns_ret.
Qed.

Lemma map_execute_results (tool_uses : list ToolUse) :
  returns (map_se execute_tool_use tool_uses) (results_of tool_uses).
Proof.
  induction tool_uses as [|tool_use rest IH]; [apply returns_ret; constructor|].
  cbn [map_se].
  eapply returns_bind; [apply execute_tool_use_result|]. intros r Hr.
  eapply returns_bind; [apply IH|]. intros rs Hrs.
  apply returns_ret. by constructor.
Qed.

Lemma execute_tools_results (tool_uses : list ToolUse) (o : t) :
  ∃ o' results,
    _execute_tools tool_uses o = (o', Ok results)
    ∧ same_context o o'
    ∧ results_of (kept (OrchestratorConfig.max_tool_calls_per_turn (config o)) tool_uses)
                 results.
Proof.
  unfold _execute_tools, kept.
  unfold mbind at 1, SE_bind, se_bind at 1, get_state. cbn beta iota.
  set (max_tools := OrchestratorConfig.max_tool_calls_per_turn (config o)).
  destruct (Py.len tool_uses >? max_tools).
  - eapply (returns_bind _ _ (λ l, l = Py.slice_to tool_uses max_tools)).
    + eapply returns_bind; [apply returns_emit|]. intros _ _. by apply returns_ret.
    + intros l ->. apply map_execute_results.
  - eapply (returns_bind _ _ (λ l, l = tool_uses)).
    + by apply returns_ret.
    + intros l ->. apply map_execute_results.
Qed.

(** the blocks [add_tool_results] builds from the results *)
Lemma result_blocks_of (tool_uses : list ToolUse) (results : list pyval) :
  results_of tool_uses results →
  ∃ blocks, ContextManager.result_blocks results = Ok blocks
            ∧ omap tool_result_id blocks = id <$> tool_uses.
Proof.
  induction 1 as [|tool_use r tool_uses results (result & is_error & ->) _ (blocks & Hb & Hids)].
  - by exists [].
  - eexists. cbn [ContextManager.result_blocks]. rewrite Hb.
    split; [reflexivity|]. cbn. by rewrite Hids.
Qed.

(** the content blocks of a response are block objects when [extract]
    accepts them, and a block object counts for no token *)
Lemma extract_blocks (blocks : list pyval) texts tool_uses :
  extract blocks = Ok (texts, tool_uses) →
  ContextManager.sum_res ContextManager.estimate_block_tokens blocks 0 = Ok 0
  ∧ omap tool_use_id blocks = id <$> tool_uses.
Proof.
  revert texts tool_uses. induction blocks as [|block blocks IH]; intros texts tool_uses.
  - by intros [= <- <-].
  - cbn [extract].
    destruct block; cbn [block_type res_bind]; try done;
      destruct (extract blocks) as [[texts' tool_uses']|e]; cbn [res_bind]; try done;
      intros [= <- <-]; destruct (IH _ _ eq_refl) as [Hsum Hids];
      cbn [ContextManager.sum_res ContextManager.estimate_block_tokens res_bind Z.add];
      (split; [exact Hsum|]); cbn; by rewrite Hids.
Qed.

Lemma sum_res_app {A} (f : A → res Z) (l1 l2 : list A) (total : Z) :
  ContextManager.sum_res f (l1 ++ l2) total
  = res_bind (ContextManager.sum_res f l1 total) (ContextManager.sum_res f l2).
Proof.
  revert total. induction l1 as [|x l1 IH]; intros total; [done|].
  cbn [app ContextManager.sum_res]. destruct (f x) as [n|e]; [apply IH | done].
Qed.

(** [add_assistant_message] with the content of a response *)
Lemma add_assistant_blocks (o : t) (c : ContextManager.t) (blocks : list pyval) (n : Z) :
  context o = Some c →
  ContextManager.token_estimate (ContextManager.system_prompt c)
                                (ContextManager.messages c) = Ok n →
  ContextManager.sum_res ContextManager.estimate_block_tokens blocks 0 = Ok 0 →
  ∃ c1, with_context (ContextManager.add_assistant_message (PList blocks)) o
        = (set_context (Some c1) o, Ok ())
        ∧ ContextManager.messages c1
          = (ContextManager.messages c ++ [assistant_message blocks])%list.
Proof.
  intros Hc Hn Hb. unfold with_context. rewrite Hc.
  unfold ContextManager.add_assistant_message, ContextManager.append_message.
  erewrite bind_returned; [|reflexivity].
  erewrite bind_returned.
  2: { apply (update_token_estimate_ok _ (n + 0)). cbn [ContextManager.set_messages
         ContextManager.system_prompt ContextManager.messages].
       unfold ContextManager.token_estimate in *.
       destruct (ContextManager.estimate_tokens _) as [t0|e]; [|done].
       cbn [res_bind] in *. rewrite sum_res_app, Hn. cbn [res_bind ContextManager.sum_res].
       unfold ContextManager.estimate_message_tokens.
       cbn [Py.get_default Py.get String.eqb Ascii.eqb Bool.eqb default from_option id].
       unfold Datatypes.id. by rewrite Hb. }
  eexists. split; [reflexivity|]. reflexivity.
Qed.

(** [add_tool_results]: the user message is appended whether or not the
    new estimate can be computed *)
Lemma add_tool_results_blocks (o : t) (c : ContextManager.t) (results blocks : list pyval) :
  context o = Some c →
  ContextManager.result_blocks results = Ok blocks →
  ∃ c2 r, with_context (ContextManager.add_tool_results results) o
          = (set_context (Some c2) o, r)
          ∧ ContextManager.messages c2
            = (ContextManager.messages c ++ [ContextManager.user_message (PList blocks)])%list.
Proof.
  intros Hc Hb. unfold with_context. rewrite Hc.
  unfold ContextManager.add_tool_results, ContextManager.append_message.
  erewrite bind_returned; [|unfold lift_res; by rewrite Hb].
  erewrite bind_returned; [|reflexivity].
  set (c1 := ContextManager.set_messages _ c).
  destruct (update_token_estimate_fields c1) as [Hm _].
  unfold mbind, SE_bind, se_bind.
  destruct (ContextManager.update_token_estimate c1) as [c2 [k|e]]; cbn in Hm |- *;
    eexists _, _; (split; [reflexivity|]); exact Hm.
Qed.

Lemma keeps_save_checkpoint (reason : string) : keeps (save_checkpoint reason).
Proof.
  unfold save_checkpoint.
  apply keeps_bind; [apply keeps_get_state|]. intros o.
  apply keeps_bind; [apply keeps_lift_res|]. intros c.
  apply keeps_bind; [apply keeps_with_checkpoint_mgr|]. intros _.
  apply keeps_bind; [|intros _; eapply returns_keeps, returns_emit].
  eapply returns_keeps, returns_when, returns_emit.
Qed.

Lemma keeps_task_completed : keeps task_completed.
Proof.
  unfold task_completed.
  apply keeps_bind; [eapply returns_keeps, returns_emit|]. intros _.
  apply keeps_bind; [apply keeps_get_state|]. intros o.
  apply keeps_bind; [by eapply returns_keeps, returns_modify|]. intros _.
  by eapply returns_keeps, (returns_ret _ (λ _, True)).
Qed.

Lemma omap_take {A B} (f : A → option B) (l : list A) (n : nat) :
  (∀ x, x ∈ l → is_Some (f x)) → omap f (take n l) = take n (omap f l).
Proof.
  revert n. induction l as [|x l IH]; intros n Hf; [by destruct n|].
  destruct n as [|n]; [done|].
  destruct (Hf x) as [y Hy]; [left|]. cbn. rewrite Hy. cbn.
  f_equal. apply IH. intros z Hz. apply Hf. by right.
Qed.

Lemma kept_fmap {A B} (f : A → B) (max_tools : Z) (l : list A) :
  f <$> kept max_tools l = kept max_tools (f <$> l).
Proof.
  unfold kept, Py.slice_to, Py.len. rewrite length_fmap.
  destruct (_ >? _); [|done]. destruct (_ <? _); by rewrite fmap_take.
Qed.

Lemma kept_all {A} (max_tools : Z) (l : list A) : Py.len l ≤ max_tools → kept max_tools l = l.
Proof. intros Hle. unfold kept. destruct (Z.gtb_spec (Py.len l) max_tools); [lia|done]. Qed.

(** C1, as the code behaves.  When a response carries tool-use blocks,
    the loop body appends two messages: the assistant message with the
    blocks of the response, whose tool-use ids are [i1..in], and next a
    single user message whose tool-result ids are, in the same order,
    those of the tool uses that were dispatched: all of [i1..in] when
    [n] is at most [max_tool_calls_per_turn], and only the first
    [max_tool_calls_per_turn] of them otherwise.  The pairing the
    specification demands therefore holds up to the limit and is broken
    above it: the assistant message is appended before the list is cut,
    so the tool uses cut off stay in the conversation without a result.
    This is a defect of the code, not a property to specify. *)
Theorem tool_result_pairing (o : t) (c : ContextManager.t) (response : Response) (n : Z)
    (texts : list string) (tool_uses : list ToolUse) :
  context o = Some c →
  ContextManager.token_estimate (ContextManager.system_prompt c)
                                (ContextManager.messages c) = Ok n →
  extract (content response) = Ok (texts, tool_uses) →
  tool_uses ≠ [] →
  let max_tools := OrchestratorConfig.max_tool_calls_per_turn (config o) in
  ∃ c' assistant user,
    context (fst (process_response response o)) = Some c'
    ∧ ContextManager.messages c' = (ContextManager.messages c ++ [assistant; user])%list
    ∧ role assistant = Some "assistant"
    ∧ role user = Some "user"
    ∧ tool_use_ids assistant = id <$> tool_uses
    ∧ tool_result_ids user = kept max_tools (tool_use_ids assistant)
    ∧ (Py.len tool_uses ≤ max_tools → tool_result_ids user = tool_use_ids assistant).
Proof.
  intros Hc Hn Hx Hne max_tools.
  destruct (extract_blocks _ _ _ Hx) as [Hsum Huse].
  destruct (add_assistant_blocks o c (content response) n Hc Hn Hsum) as (c1 & Hadd & Hm1).
  set (o1 := set_context (Some c1) o) in *.
  destruct (returns_for_each texts o1) as (o2 & [] & Hout & [Hc2 Hcfg2] & _).
  destruct (execute_tools_results tool_uses o2) as (o3 & results & Hexec & [Hc3 Hcfg3] & Hres).
  destruct (result_blocks_of _ _ Hres) as (blocks & Hblocks & Hids).
  assert (Hctx3 : context o3 = Some c1) by (rewrite Hc3, Hc2; reflexivity).
  destruct (add_tool_results_blocks o3 c1 results blocks Hctx3 Hblocks)
    as (c2 & r & Hres2 & Hm2).
  assert (Hcfg : OrchestratorConfig.max_tool_calls_per_turn (config o2) = max_tools).
  { unfold max_tools. by rewrite Hcfg2. }
  rewrite Hcfg in Hids.
  exists c2, (assistant_message (content response)),
    (ContextManager.user_message (PList blocks)).
  split; [|split; [|repeat split]].
  - unfold process_response.
    erewrite bind_returned; [|exact Hadd].
    erewrite bind_returned; [|unfold lift_res; by rewrite Hx].
    cbv beta iota.
    erewrite bind_returned; [|exact Hout].
    erewrite bind_returned; [|reflexivity].
    rewrite bool_decide_eq_false_2 by done. rewrite andb_false_r.
    destruct tool_uses as [|tool_use rest]; [done|].
    erewrite bind_returned; [|exact Hexec].
    destruct r as [[]|e].
    + erewrite bind_returned; [|exact Hres2].
      match goal with
      | |- Orchestrator.context (fst (?m ?s)) = _ =>
          assert (Hk : keeps m); [|destruct (Hk s) as [-> _]; reflexivity]
      end.
      apply keeps_bind; [apply keeps_get_state|]. intros o4.
      destruct (is_complete o4); [apply keeps_task_completed|].
      destruct (needs_human_input o4); [|by eapply returns_keeps, (returns_ret _ (λ _, True))].
      apply keeps_bind; [apply keeps_save_checkpoint|]. intros _.
      by eapply returns_keeps, (returns_ret _ (λ _, True)).
    + erewrite bind_raised; [|exact Hres2]. reflexivity.
  - rewrite Hm2, Hm1, <- app_assoc. reflexivity.
  - exact Huse.
  - unfold tool_result_ids, tool_use_ids. cbn [blocks_of ContextManager.user_message
      assistant_message Py.get String.eqb Ascii.eqb Bool.eqb].
    rewrite Hids, Huse. apply kept_fmap.
  - intros Hle. unfold tool_result_ids, tool_use_ids. cbn [blocks_of ContextManager.user_message
      assistant_message Py.get String.eqb Ascii.eqb Bool.eqb].
    rewrite Hids, Huse. by rewrite kept_all.
Qed.

Lemma set_initial_cost_latches (cost : Q) (tracker : CostTracker.t) :
  let tracker' := CostTracker.set_initial_cost cost tracker in
  CostTracker.total_cost tracker' = cost
  ∧ CostTracker.warning_acknowledged tracker'
    = CostTracker.warning_acknowledged tracker
      || CostTracker.ge cost (CostConfig.warn (CostTracker.config tracker))
  ∧ CostTracker.alert_acknowledged tracker'
    = CostTracker.alert_acknowledged tracker
      || CostTracker.ge cost (CostConfig.alert (CostTracker.config tracker)).
Proof.
  unfold CostTracker.set_initial_cost, CostTracker._check_thresholds,
    CostTracker._check_alert, CostTracker._check_warning. cbn.
  destruct (CostTracker.ge cost (CostConfig.warn _)),
    (CostTracker.warning_acknowledged tracker) eqn:Ew; cbn;
    destruct (CostTracker.ge cost (CostConfig.alert _)),
      (CostTracker.alert_acknowledged tracker) eqn:Ea; cbn; rewrite ?Ew, ?Ea; done.
Qed.

Lemma with_context_modify {B} (f : ContextManager.t → ContextManager.t)
    (k : unit → SE t B) (o : t) (c : ContextManager.t) :
  context o = Some c →
  (with_context (modify f) ≫= k) o = k () (set_context (Some (f c)) o).
Proof.
  intros Hc. unfold with_context, mbind, SE_bind, se_bind, modify. by rewrite Hc.
Qed.

(** C7, with what the code does to the latches.  On a checkpoint
    written by [save], [resume] returns [True]; the messages, the token
    usage and the total cost are the checkpointed ones; the task and
    the completed tasks are the checkpointed ones and the system prompt
    is composed anew from them and from the learnings on disk; the
    cost latches are not cleared: the thresholds are evaluated on the
    restored total, so each latch is set when it was set before or
    when the total is at or above its threshold. *)
Theorem resume_restores (o : t) (now : string) (ctx : ContextManager.t)
    (usage : TokenUsage.t) (cost : Q) (task : string) (phase : option string)
    (done : list pyval) (extra : option dict) (n : Z) :
  CheckpointManager.checkpoint_file (checkpoint_mgr o)
  = Some (JsonText (PDict (CheckpointManager.checkpoint_record
                             now ctx usage cost task phase (Some done) extra))) →
  ContextManager.token_estimate (ContextManager.system_prompt ctx)
                                (ContextManager.messages ctx) = Ok n →
  ∃ o' c',
    resume o = (o', Ok true)
    ∧ context o' = Some c'
    ∧ ContextManager.messages c' = ContextManager.messages ctx
    ∧ token_usage o' = usage
    ∧ CostTracker.total_cost (cost_tracker o') = cost
    ∧ task_description o' = task
    ∧ completed_tasks o' = done
    ∧ ContextManager.system_prompt c'
      = system_prompt_text (project_dir o) task
          (CheckpointManager.load_learnings (checkpoint_mgr o)) done
    ∧ CostTracker.warning_acknowledged (cost_tracker o')
      = CostTracker.warning_acknowledged (cost_tracker o)
        || CostTracker.ge cost (CostConfig.warn (CostTracker.config (cost_tracker o)))
    ∧ CostTracker.alert_acknowledged (cost_tracker o')
      = CostTracker.alert_acknowledged (cost_tracker o)
        || CostTracker.ge cost (CostConfig.alert (CostTracker.config (cost_tracker o))).
Proof.
  intros Hf Hn.
  destruct (set_initial_cost_latches cost (cost_tracker o)) as (Hcost & Hw & Ha).
  pose proof (restore_saved (checkpoint_mgr o) now ctx usage cost task phase (Some done)
                extra (OrchestratorConfig.max_context_tokens (config o)) n Hf Hn) as Hrestore.
  unfold resume. rewrite bind_get_state, (bind_lift_res _ _ _ _ Hrestore).
  cbv beta iota. rewrite !bind_modify.
  erewrite bind_lift_res; [|reflexivity]. rewrite bind_modify.
  erewrite bind_lift_res; [|reflexivity]. rewrite bind_modify, bind_get_state.
  erewrite with_context_modify; [|reflexivity].
  unfold on_output, emit. rewrite !bind_modify.
  eexists _, _. split; [reflexivity|].
  unfold _build_system_prompt.
  cbn [context set_context set_task set_token_usage set_cost_tracker set_events token_usage
       cost_tracker task_description completed_tasks project_dir checkpoint_mgr
       ContextManager.set_system_prompt ContextManager.system_prompt
       ContextManager.messages].
  repeat split; try reflexivity; assumption.
Qed.

End OrchestratorProps.

(** ** The properties on the example project *)

Section Examples.

Import Example.

(** The failing input of C1: with [max_tool_calls_per_turn = 1] and a
    response with the tool uses [toolu_1] and [toolu_2], the
    conversation is the first user message, the assistant message with
    both tool uses, and a user message that holds the result of
    [toolu_1] alone; [toolu_2] has no result. *)
Lemma truncated_results_unpaired :
  let o := fst (Orchestrator.process_response two_tools (started 1)) in
  let messages := from_option ContextManager.messages [] (Orchestrator.context o) in
  role <$> messages = [Some "user"; Some "assistant"; Some "user"]
  ∧ tool_use_ids <$> messages !! 1%nat = Some ["toolu_1"; "toolu_2"]
  ∧ tool_result_ids <$> messages !! 2%nat = Some ["toolu_1"]
  ∧ tool_result_ids <$> messages !! 2%nat ≠ tool_use_ids <$> messages !! 1%nat.
Proof. vm_compute. repeat split; discriminate. Qed.

(** A use of [tool_result_pairing]: the same response under the default
    limit of 20 tool calls. *)
Lemma tool_result_pairing_witness :
  ∃ c assistant user,
    Orchestrator.context (fst (Orchestrator.process_response two_tools (started 20))) = Some c
    ∧ ContextManager.messages c
      = [ContextManager.user_message (PStr "Please begin."); assistant; user]
    ∧ tool_use_ids assistant = ["toolu_1"; "toolu_2"]
    ∧ tool_result_ids user = ["toolu_1"; "toolu_2"].
Proof.
  destruct (tool_result_pairing (started 20)
              (default (ContextManager.init "" 0 0 0) (Orchestrator.context (started 20)))
              two_tools 178 ["Looking around."]
              [ Orchestrator.mkToolUse "toolu_1" "list_dir" [];
                Orchestrator.mkToolUse "toolu_2" "read_file" [("path", PStr "x.py")] ])
    as (c & assistant & user & Hc & Hm & _ & _ & Hu & _ & Hr);
    [reflexivity | reflexivity | reflexivity | discriminate |].
  exists c, assistant, user.
  split; [exact Hc|]. split; [exact Hm|]. split; [exact Hu|].
  rewrite Hr, Hu; [reflexivity | vm_compute; discriminate].
Defined.


Lemma escapes (path : string) :
  PurePath.strip_prefix (resolve (Tools.disk w0) (Tools.project_dir tools0))
                        (resolve (Tools.disk w0) (Tools.anchored tools0 path)) = None →
  ¬ under (resolve (Tools.disk w0) (Tools.project_dir tools0))
          (resolve (Tools.disk w0) (Tools.anchored tools0 path)).
Proof. intros Hs [p Hp]. rewrite Hs in Hp. discriminate. Defined.

(** A use of [path_confinement]: the path of scenario S6, which climbs
    out of the project, and a path through the link [out], which lies
    in the project as written and outside once resolved. *)
Lemma path_confinement_witness :
  Tools.tool_read_file tools0 "../../etc/passwd" 1 2000 w0
  = (w0, Raise (ToolError "Path '../../etc/passwd' is outside project directory"))
  ∧ Tools.tool_write_file tools0 "out/passwd" (PStr "nobody") w0
    = (w0, Raise (ToolError "Path 'out/passwd' is outside project directory")).
Proof.
  split.
  - destruct (path_confinement tools0 w0 "../../etc/passwd") as (Hread & _);
      [apply escapes; reflexivity|]. apply Hread.
  - destruct (path_confinement tools0 w0 "out/passwd") as (_ & Hwrite & _);
      [apply escapes; reflexivity|]. apply Hwrite.
Defined.

(** A use of [edit_ambiguity]: scenario S2. *)
Lemma edit_ambiguity_witness :
  Tools.execute tools0 "edit_file"
    [ ("path", PStr "x.py"); ("old_string", PStr "x = 1");
      ("new_string", PStr "x = 2"); ("replace_all", PBool false) ] w0
  = (w0, ("String appears 2 times. Use replace_all=true or provide more context.", true)).
Proof.
  destruct (edit_ambiguity tools0 w0 "x.py" "x = 1" "x = 2"
              ("x = 1" ++ nl ++ "x = 1" ++ nl) (PBool false)
              ["/"; "tmp"; "proj"; "x.py"]) as [_ Hexec];
    [reflexivity | reflexivity | reflexivity | reflexivity | vm_compute; lia |].
  exact Hexec.
Defined.

(** C3 as stated fails when the occurrences overlap.  In a file that
    holds [aaa] the string [aa] occurs twice, at the offsets 0 and 1,
    but [str.count] counts it once: [edit_file] without [replace_all]
    returns, and the file holds [ba] afterwards. *)
Lemma edit_overlapping_occurrences :
  let w := Tools.mkWorld [ (["/"; "tmp"], MemDisk.Dir);
                           (["/"; "tmp"; "proj"], MemDisk.Dir);
                           (["/"; "tmp"; "proj"; "a.txt"], MemDisk.File "aaa") ] [] in
  let result := Tools.tool_edit_file tools0 "a.txt" "aa" "b" (PBool false) w in
  read_text (Tools.disk w) ["/"; "tmp"; "proj"; "a.txt"] false = Ok "aaa"
  ∧ occurrences "aa" "aaa" = 2%nat
  ∧ PyStr.count "aa" "aaa" = 1%nat
  ∧ snd result = Ok "Replaced 1 occurrence(s) in a.txt"
  ∧ read_text (Tools.disk (fst result)) ["/"; "tmp"; "proj"; "a.txt"] false = Ok "ba"
  ∧ Tools.disk (fst result) ≠ Tools.disk w.
Proof. vm_compute. repeat split; discriminate. Qed.

(** C4 as stated fails on [mv a b]: the error raised is the one of the
    allowed list, not one of the two confirmation errors. *)
Lemma mv_is_not_allowed :
  let e := Tools.not_allowed_error "mv" ["ls"; "cat"] in
  Tools.tool_bash tools0 "mv a b" PNone w0 = (w0, Raise e)
  ∧ e ≠ Tools.no_handler_error "mv"
  ∧ e ≠ Tools.not_confirmed_error "mv".
Proof. vm_compute. repeat split; discriminate. Qed.

(** A use of [shell_policy] on the example project. *)
Lemma shell_policy_witness :
  Tools.spawned (fst (Tools.tool_bash tools0 "ls" PNone w0)) = [SpawnShell "ls"]
  ∧ Tools.tool_bash tools0 "rm -rf ." PNone w0
    = (w0, Raise (ToolError "Command 'rm' is blocked for security")).
Proof.
  destruct (shell_policy tools0 w0) as (Hls & _ & Hrm & _);
    [repeat split; reflexivity|].
  split; [exact Hls | exact Hrm].
Defined.

(** C7 as stated fails on the latches: an orchestrator whose latches
    are both clear resumes a checkpoint whose total cost, 12, is above
    [warn = 10]; afterwards the warning latch is set and the warning
    callback has been called. *)
Lemma resume_sets_warning_latch :
  let before := fresh 20 saved_dir in
  let after := fst (Orchestrator.resume before) in
  CostTracker.warning_acknowledged (Orchestrator.cost_tracker before) = false
  ∧ CostTracker.alert_acknowledged (Orchestrator.cost_tracker before) = false
  ∧ snd (Orchestrator.resume before) = Ok true
  ∧ CostTracker.warning_acknowledged (Orchestrator.cost_tracker after) = true
  ∧ CostTracker.calls (Orchestrator.cost_tracker after) = [on_warning_called 12]
  ∧ ¬ (CostTracker.warning_acknowledged (Orchestrator.cost_tracker after) = false
       ∧ CostTracker.alert_acknowledged (Orchestrator.cost_tracker after) = false).
Proof. vm_compute. repeat split. intros [Hw _]. discriminate. Qed.

(** A use of [resume_restores] on the same checkpoint. *)
Lemma resume_restores_witness :
  ∃ o c, Orchestrator.resume (fresh 20 saved_dir) = (o, Ok true)
         ∧ Orchestrator.context o = Some c
         ∧ ContextManager.messages c = ContextManager.messages saved_context
         ∧ Orchestrator.token_usage o = saved_usage
         ∧ CostTracker.total_cost (Orchestrator.cost_tracker o) = 12%Q.
Proof.
  destruct (resume_restores (fresh 20 saved_dir) "2026-01-01T00:00:00" saved_context
              saved_usage 12 "tidy the project" None saved_tasks None 5)
    as (o & c & Hr & Hc & Hm & Hu & Ht & _); [reflexivity | reflexivity |].
  exists o, c. by repeat split.
Defined.

Lemma unknown_name : "frobnicate" ∉ Tools.tool_names.
Proof.
  unfold Tools.tool_names. intros Hin.
  repeat (apply elem_of_cons in Hin as [Heq|Hin]; [discriminate|]).
  by apply elem_of_nil in Hin.
Defined.

(** A use of [execute_total]: a name with no method, and a method that
    raises a [TypeError] on a misspelt key. *)
Lemma execute_total_witness :
  Tools.execute tools0 "frobnicate" [] w0 = (w0, ("Unknown tool: frobnicate", true))
  ∧ snd (snd (Tools.execute tools0 "task_complete" [("summry", PStr "done")] w0)) = true.
Proof.
  split.
  - apply (proj1 (execute_total tools0 "frobnicate" [] w0)), unknown_name.
  - destruct (proj2 (execute_total tools0 "task_complete" [("summry", PStr "done")] w0))
      as (method & Hm & Hexec); [unfold Tools.tool_names; set_solver|].
    injection Hm as <-. destruct Hexec as [content ->]. reflexivity.
Defined.

(** A use of [list_dir_hides_dotfiles]: the project directory, whose
    [.autopilot] entry is not listed, and a directory with only a
    dotfile. *)
Lemma list_dir_hides_dotfiles_witness :
  Tools.tool_list_dir tools0 None w0
  = (w0, Ok ("cfg/" ++ nl ++ "out/" ++ nl ++ "src/" ++ nl ++ "x.py (12 bytes)"))
  ∧ Tools.tool_list_dir tools0 (Some "cfg") w0 = (w0, Ok "[empty directory]").
Proof.
  split.
  - destruct (list_dir_hides_dotfiles tools0 w0 None ["/"; "tmp"; "proj"]
                [ ["/"; "tmp"; "proj"; "x.py"]; ["/"; "tmp"; "proj"; ".autopilot"];
                  ["/"; "tmp"; "proj"; "src"]; ["/"; "tmp"; "proj"; "cfg"];
                  ["/"; "tmp"; "proj"; "out"] ]) as (Hlines & _);
      [reflexivity | reflexivity | reflexivity | reflexivity |].
    destruct (Hlines ["cfg/"; "out/"; "src/"; "x.py (12 bytes)"]) as [Hrun _];
      [reflexivity | exact Hrun].
  - destruct (list_dir_hides_dotfiles tools0 w0 (Some "cfg") ["/"; "tmp"; "proj"; "cfg"]
                [ ["/"; "tmp"; "proj"; "cfg"; ".env"] ]) as (_ & _ & Hempty);
      [reflexivity | reflexivity | reflexivity | reflexivity |].
    apply Hempty. repeat constructor.
Defined.

End Examples.

(** * Further properties *)

(** ** Model names and prices *)

Section ModelNames.

Lemma in_MODEL_MAP_keys (k : string) :
  in_MODEL_MAP k = true → k = "haiku" ∨ k = "sonnet" ∨ k = "opus".
Proof.
  unfold in_MODEL_MAP, MODEL_MAP. cbn [existsb fst].
  destruct (String.eqb_spec "haiku" k) as [<-|_]; [by left|].
  destruct (String.eqb_spec "sonnet" k) as [<-|_]; [by right; left|].
  destruct (String.eqb_spec "opus" k) as [<-|_]; [by right; right|done].
Qed.

Lemma startswith_claude (model : string) :
  PyStr.startswith model "claude-" = true → in_MODEL_MAP (PyStr.lower model) = false.
Proof.
  unfold PyStr.startswith. destruct model as [|c model]; [done|].
  cbn [String.prefix]. destruct (ascii_dec "c" c) as [<-|_]; [|done]. intros _. reflexivity.
Qed.

Lemma resolve_model_name_claude (model : string) :
  PyStr.startswith model "claude-" = true → resolve_model_name model = model.
Proof.
  intros Hs. unfold resolve_model_name. by rewrite (startswith_claude model Hs), Hs.
Qed.

(** X1.  [resolve_model_name] gives, for every input, a name that starts
    with ["claude-"], and resolving a resolved name changes nothing. *)
Theorem resolve_model_name_full (model : string) :
  PyStr.startswith (resolve_model_name model) "claude-" = true
  ∧ resolve_model_name (resolve_model_name model) = resolve_model_name model.
Proof.
  assert (Hfull : PyStr.startswith (resolve_model_name model) "claude-" = true).
  { unfold resolve_model_name.
    destruct (in_MODEL_MAP (PyStr.lower model)) eqn:Hin.
    { destruct (in_MODEL_MAP_keys _ Hin) as [-> | [-> | ->]]; reflexivity. }
    destruct (PyStr.startswith model "claude-") eqn:Hs; [exact Hs|].
    destruct (PyStr.contains "haiku" _); [reflexivity|].
    destruct (PyStr.contains "opus" _); reflexivity. }
  split; [exact Hfull | by apply resolve_model_name_claude].
Qed.

(** X2.  The short name of a model is one of the three keys of the model
    map, and it is the same before and after [resolve_model_name]; so
    [get_pricing] and [calculate_cost] give the same result for a model
    given by its short name, by any other spelling, or by the resolved
    name the orchestrator passes on. *)
Theorem short_name_of_resolved (model : string) :
  in_MODEL_MAP (get_model_short_name model) = true
  ∧ get_model_short_name (resolve_model_name model) = get_model_short_name model
  ∧ ∀ (self : CostTracker.t) (input_tokens output_tokens : Z),
      CostTracker.calculate_cost self (resolve_model_name model) input_tokens output_tokens
      = CostTracker.calculate_cost self model input_tokens output_tokens.
Proof.
  assert (Hshort : get_model_short_name (resolve_model_name model)
                   = get_model_short_name model).
  { destruct (PyStr.startswith model "claude-") eqn:Hs;
      [by rewrite resolve_model_name_claude|].
    unfold resolve_model_name, get_model_short_name at 2. rewrite Hs.
    destruct (in_MODEL_MAP (PyStr.lower model)) eqn:Hin.
    { destruct (in_MODEL_MAP_keys _ Hin) as [-> | [-> | ->]]; reflexivity. }
    destruct (PyStr.contains "haiku" _); [reflexivity|].
    destruct (PyStr.contains "opus" _); reflexivity. }
  split; [|split; [exact Hshort|]].
  - unfold get_model_short_name.
    destruct (in_MODEL_MAP (PyStr.lower model)) eqn:Hin; [exact Hin|].
    destruct (PyStr.contains "haiku" _); [reflexivity|].
    destruct (PyStr.contains "opus" _); reflexivity.
  - intros self input_tokens output_tokens.
    unfold CostTracker.calculate_cost, CostTracker.get_pricing. by rewrite Hshort.
Qed.

End ModelNames.

(** ** Thresholds and accounts over a run of calls *)

Section CostRuns.

Import CostTracker.

Lemma counted_check_warning cfg onw ona self :
  counted cfg onw ona self → counted cfg onw ona (_check_warning self).
Proof.
  intros Hcnt. pose proof Hcnt as (Hc & Hw & Ha & Hnw & Hna). unfold _check_warning.
  destruct (ge _ _); cbn [andb]; [|done].
  destruct (warning_acknowledged self) eqn:Hack; cbn [negb]; [done|].
  unfold counted, warnings, alerts in *. cbn. cbn in Hnw.
  rewrite Hw. repeat split; try done.
  - destruct onw; cbn; [by rewrite Hnw | done].
  - destruct onw; cbn; done.
Qed.

Lemma counted_check_alert cfg onw ona self :
  counted cfg onw ona self → counted cfg onw ona (_check_alert self).
Proof.
  intros Hcnt. pose proof Hcnt as (Hc & Hw & Ha & Hnw & Hna). unfold _check_alert.
  destruct (ge _ _); cbn [andb]; [|done].
  destruct (alert_acknowledged self) eqn:Hack; cbn [negb]; [done|].
  unfold counted, warnings, alerts in *. cbn. cbn in Hna.
  rewrite Ha. repeat split; try done.
  - destruct ona; cbn; done.
  - destruct ona; cbn; [by rewrite Hna | done].
Qed.

Lemma caught_up_check_thresholds self : caught_up (_check_thresholds self).
Proof.
  unfold caught_up, _check_thresholds, _check_alert, _check_warning.
  destruct (ge (total_cost self) (CostConfig.warn (config self))) eqn:Hw,
    (warning_acknowledged self) eqn:Hwa; cbn;
    destruct (ge (total_cost self) (CostConfig.alert (config self))) eqn:Ha,
      (alert_acknowledged self) eqn:Haa; cbn;
    rewrite ?Hw, ?Ha, ?Hwa, ?Haa; cbn; rewrite ?Hw, ?Ha, ?Hwa, ?Haa; done.
Qed.

Lemma counted_step cfg onw ona self o :
  counted cfg onw ona self → counted cfg onw ona (step self o).
Proof.
  intros Hc. destruct o; unfold step, add_usage, set_initial_cost; cbn [snd];
    apply counted_check_alert, counted_check_warning; exact Hc.
Qed.

Lemma caught_up_step self o : caught_up (step self o).
Proof.
  destruct o; unfold step, add_usage, set_initial_cost; cbn [snd];
    apply caught_up_check_thresholds.
Qed.

Lemma counted_run cfg onw ona ops self :
  counted cfg onw ona self → counted cfg onw ona (run ops self).
Proof.
  revert self. induction ops as [|o ops IH]; intros self Hc; [exact Hc|].
  apply IH, counted_step, Hc.
Qed.

(** X4.  After one or more [add_usage] and [set_initial_cost] calls on a
    tracker fresh from its constructor: if the total cost is at or above
    [warn], the warning latch is set and [on_warning], when installed,
    has been called exactly once; the same for [alert] and [on_alert]. *)
Theorem threshold_callbacks_fire (cfg : CostConfig.t) (pr : gmap string Pricing.t)
    (onw ona : bool) (ops : list op) :
  ops ≠ [] →
  let self := run ops (init cfg pr onw ona) in
  (ge (total_cost self) (CostConfig.warn cfg) = true →
   warning_acknowledged self = true ∧ warnings self = (if onw then 1 else 0)%nat)
  ∧ (ge (total_cost self) (CostConfig.alert cfg) = true →
     alert_acknowledged self = true ∧ alerts self = (if ona then 1 else 0)%nat).
Proof.
  intros Hne self.
  destruct (exists_last Hne) as (ops' & o & Hops).
  assert (Hstep : self = step (run ops' (init cfg pr onw ona)) o).
  { unfold self, run. rewrite Hops. apply fold_left_app. }
  assert (Hc : counted cfg onw ona self).
  { unfold self. apply counted_run. by repeat split. }
  assert (Hu : caught_up self) by (rewrite Hstep; apply caught_up_step).
  destruct Hc as (Hcfg & _ & _ & Hnw & Hna), Hu as [Hw Ha]. rewrite Hcfg in Hw, Ha.
  split; intros Hge.
  - rewrite Hnw, (Hw Hge). done.
  - rewrite Hna, (Ha Hge). done.
Qed.

(** X3.  [threshold_level] agrees with [should_stop] and with the
    latches.  After one or more [add_usage] and [set_initial_cost]
    calls on a tracker fresh from its constructor, the level is [STOP]
    exactly when [should_stop] holds; at level [WARNING] the warning
    latch is set and at level [ALERT] the alert latch is set; and when
    the thresholds are ordered, [warn <= alert <= max], every level but
    [OK] has the warning latch set and the levels [ALERT] and [STOP]
    have the alert latch set. *)
Theorem threshold_level_latched (cfg : CostConfig.t) (pr : gmap string Pricing.t)
    (onw ona : bool) (ops : list op) :
  ops ≠ [] →
  let self := run ops (init cfg pr onw ona) in
  (should_stop self = true ↔ threshold_level self = STOP)
  ∧ (threshold_level self = WARNING → warning_acknowledged self = true)
  ∧ (threshold_level self = ALERT → alert_acknowledged self = true)
  ∧ ((CostConfig.warn cfg <= CostConfig.alert cfg)%Q →
     (CostConfig.alert cfg <= CostConfig.max cfg)%Q →
     (threshold_level self ≠ OK → warning_acknowledged self = true)
     ∧ (threshold_level self = ALERT ∨ threshold_level self = STOP →
        alert_acknowledged self = true)).
Proof.
  intros Hne self.
  destruct (exists_last Hne) as (ops' & o & Hops).
  assert (Hstep : self = step (run ops' (init cfg pr onw ona)) o).
  { unfold self, run. rewrite Hops. apply fold_left_app. }
  assert (Hc : counted cfg onw ona self).
  { unfold self. apply counted_run. by repeat split. }
  assert (Hu : caught_up self) by (rewrite Hstep; apply caught_up_step).
  destruct Hc as (Hcfg & _), Hu as [Hw Ha]. rewrite Hcfg in Hw, Ha.
  unfold should_stop, threshold_level. rewrite Hcfg. unfold ge in *.
  set (total := total_cost self) in *.
  destruct (Qle_bool (CostConfig.max cfg) total) eqn:Hmax.
  - split; [done|]. split; [done|]. split; [done|].
    intros Hwa Ham. apply Qle_bool_iff in Hmax.
    assert (Halert : Qle_bool (CostConfig.alert cfg) total = true).
    { apply Qle_bool_iff. by apply (Qle_trans _ (CostConfig.max cfg)). }
    assert (Hwarn : Qle_bool (CostConfig.warn cfg) total = true).
    { apply Qle_bool_iff. apply (Qle_trans _ (CostConfig.alert cfg)); [done|].
      by apply Qle_bool_iff. }
    split; intros _; [by apply Hw | by apply Ha].
  - destruct (Qle_bool (CostConfig.alert cfg) total) eqn:Halert.
    + split; [done|]. split; [done|]. split; [by intros _; apply Ha|].
      intros Hwa Ham.
      assert (Hwarn : Qle_bool (CostConfig.warn cfg) total = true).
      { apply Qle_bool_iff. apply (Qle_trans _ (CostConfig.alert cfg)); [done|].
        by apply Qle_bool_iff. }
      split; intros _; [by apply Hw | by apply Ha].
    + destruct (Qle_bool (CostConfig.warn cfg) total) eqn:Hwarn.
      * split; [done|]. split; [by intros _; apply Hw|]. split; [done|].
        intros _ _. split; [by intros _; apply Hw | by intros [|]].
      * split; [done|]. split; [done|]. split; [done|].
        intros _ _. split; [done | by intros [|]].
Qed.

(** the sum of the first components after an update of one entry *)
Lemma input_total_insert (m : gmap string (Z * Z)) (k : string) (i o : Z) :
  let toks := default (0, 0) (m !! k) in
  map_fold (λ _ (io : Z * Z) acc, fst io + acc) 0 (<[k := (fst toks + i, snd toks + o)]> m)
  = map_fold (λ _ (io : Z * Z) acc, fst io + acc) 0 m + i.
Proof.
  intros toks. unfold toks.
  destruct (m !! k) as [[a b]|] eqn:Hk; cbn [default from_option fst snd]; unfold id; cbn [fst snd].
  - assert (Hm : map_fold (λ _ (io : Z * Z) acc, fst io + acc) 0 m
                 = a + map_fold (λ _ (io : Z * Z) acc, fst io + acc) 0 (delete k m)).
    { rewrite <- (insert_delete_id m k (a, b) Hk) at 1.
      rewrite (map_fold_insert_L _ _ k); [done|intros; lia|apply lookup_delete_eq]. }
    rewrite Hm, <- (insert_delete_eq m).
    rewrite (map_fold_insert_L _ _ k); [|intros; lia|apply lookup_delete_eq].
    cbn [fst]. lia.
  - rewrite (map_fold_insert_L _ _ k); [|intros; lia|exact Hk]. cbn [fst]. lia.
Qed.

Lemma output_total_insert (m : gmap string (Z * Z)) (k : string) (i o : Z) :
  let toks := default (0, 0) (m !! k) in
  map_fold (λ _ (io : Z * Z) acc, snd io + acc) 0 (<[k := (fst toks + i, snd toks + o)]> m)
  = map_fold (λ _ (io : Z * Z) acc, snd io + acc) 0 m + o.
Proof.
  intros toks. unfold toks.
  destruct (m !! k) as [[a b]|] eqn:Hk; cbn [default from_option fst snd]; unfold id; cbn [fst snd].
  - assert (Hm : map_fold (λ _ (io : Z * Z) acc, snd io + acc) 0 m
                 = b + map_fold (λ _ (io : Z * Z) acc, snd io + acc) 0 (delete k m)).
    { rewrite <- (insert_delete_id m k (a, b) Hk) at 1.
      rewrite (map_fold_insert_L _ _ k); [done|intros; lia|apply lookup_delete_eq]. }
    rewrite Hm, <- (insert_delete_eq m).
    rewrite (map_fold_insert_L _ _ k); [|intros; lia|apply lookup_delete_eq].
    cbn [snd]. lia.
  - rewrite (map_fold_insert_L _ _ k); [|intros; lia|exact Hk]. cbn [snd]. lia.
Qed.

(** the fields [_check_thresholds] leaves alone *)
Lemma check_thresholds_accounts self :
  let self' := _check_thresholds self in
  input_tokens self' = input_tokens self ∧ output_tokens self' = output_tokens self
  ∧ api_calls self' = api_calls self ∧ cost_by_model self' = cost_by_model self
  ∧ tokens_by_model self' = tokens_by_model self.
Proof.
  unfold _check_thresholds, _check_alert, _check_warning.
  destruct (_ && _); cbn; destruct (_ && _); cbn; done.
Qed.

Lemma balanced_step n ms self o :
  balanced n ms self →
  balanced (n + usage_calls [o]) (ms ∪ models_used [o]) (step self o).
Proof.
  intros (Hi & Ho & Hn & Hd & Hc).
  unfold model_input_total, model_output_total in Hi, Ho.
  destruct o as [model i o|c]; unfold step, add_usage, set_initial_cost; cbn [snd];
    match goal with |- balanced _ _ (_check_thresholds ?s) =>
      destruct (check_thresholds_accounts s) as (Ei & Eo & En & Ec & Et) end;
    unfold balanced, model_input_total, model_output_total;
    rewrite Ei, Eo, En, Ec, Et; cbn;
    rewrite ?input_total_insert, ?output_total_insert, ?dom_insert_L, Hd, Hc.
  - unfold usage_calls, models_used, Py.len. cbn.
    repeat split; try lia; by rewrite union_empty_r_L, (comm_L (∪)).
  - unfold usage_calls, models_used, Py.len. cbn.
    repeat split; try lia; by rewrite union_empty_r_L.
Qed.

Lemma balanced_run ops n ms self :
  balanced n ms self →
  balanced (n + usage_calls ops) (ms ∪ models_used ops) (run ops self).
Proof.
  revert n ms self. induction ops as [|o ops IH]; intros n ms self Hb.
  - change (usage_calls []) with 0. change (models_used []) with (∅ : gset string).
    by rewrite Z.add_0_r, union_empty_r_L.
  - cbn [run fold_left]. specialize (IH _ _ _ (balanced_step _ _ _ o Hb)).
    unfold run in IH.
    replace (n + usage_calls (o :: ops)) with (n + usage_calls [o] + usage_calls ops).
    2: { unfold usage_calls, Py.len. cbn. destruct (is_add_usage o); cbn; lia. }
    replace (ms ∪ models_used (o :: ops)) with (ms ∪ models_used [o] ∪ models_used ops).
    2: { unfold models_used. destruct o; cbn;
         by rewrite ?union_empty_r_L, ?union_empty_l_L, <- ?(assoc_L (∪)). }
    exact IH.
Qed.

(** X5.  After any sequence of [add_usage] and [set_initial_cost] calls
    on a tracker fresh from its constructor, the token totals are the
    sums of the per-model counters, [api_calls] is the number of
    [add_usage] calls, and both per-model tables have an entry for
    exactly the models those calls named. *)
Theorem accounts_balance (cfg : CostConfig.t) (pr : gmap string Pricing.t)
    (onw ona : bool) (ops : list op) :
  let self := run ops (init cfg pr onw ona) in
  input_tokens self = model_input_total self
  ∧ output_tokens self = model_output_total self
  ∧ api_calls self = usage_calls ops
  ∧ dom (tokens_by_model self) = models_used ops
  ∧ dom (cost_by_model self) = models_used ops.
Proof.
  intros self.
  assert (Hinit : balanced 0 ∅ (init cfg pr onw ona)).
  { unfold balanced, model_input_total, model_output_total. cbn.
    rewrite !map_fold_empty, !dom_empty_L. done. }
  pose proof (balanced_run ops _ _ _ Hinit) as Hb.
  rewrite union_empty_l_L in Hb. exact Hb.
Qed.

End CostRuns.

(** ** The token estimate and summaries *)

Section EstimateProps.
Context `{Platform}.

Import ContextManager.

Lemma update_refreshes (self self' : t) (n : Z) :
  update_token_estimate self = (self', Ok n) →
  estimate_current self' ∧ n = _estimated_tokens self'.
Proof.
  unfold update_token_estimate, mbind, SE_bind, se_bind, get_state, lift_res, modify.
  unfold estimate_current.
  destruct (token_estimate _ _) as [total|e] eqn:Ht; [|done].
  intros [= <- <-]. by cbn.
Qed.

(** a change of the state followed by [update_token_estimate] *)
Lemma modify_update_refreshes (f : t → t) (self self' : t) :
  (modify f ;; update_token_estimate ;; mret ()) self = (self', Ok ()) →
  estimate_current self'.
Proof.
  unfold mbind, SE_bind, se_bind, modify, mret, SE_ret, se_ret.
  destruct (update_token_estimate (f self)) as [self1 [n|e]] eqn:Hu; [|done].
  intros [= <-]. by apply update_refreshes in Hu as [Hu _].
Qed.

(** X6.  Every method of the Context Manager that changes the messages
    and returns leaves the stored estimate equal to the estimate
    recomputed from the system prompt and the messages:
    [add_user_message], [add_assistant_message], [add_tool_result],
    [add_tool_results], [clear], [from_dict], and
    [summarize_old_context] when the estimate was current before (its
    early return computes nothing). *)
Theorem mutators_refresh_estimate (self self' : t) :
  (∀ content, add_user_message content self = (self', Ok ()) → estimate_current self')
  ∧ (∀ content, add_assistant_message content self = (self', Ok ()) →
       estimate_current self')
  ∧ (∀ tool_use_id result is_error,
       add_tool_result tool_use_id result is_error self = (self', Ok ()) →
       estimate_current self')
  ∧ (∀ results, add_tool_results results self = (self', Ok ()) → estimate_current self')
  ∧ (clear self = (self', Ok ()) → estimate_current self')
  ∧ (∀ summary keep_recent,
       estimate_current self →
       summarize_old_context summary keep_recent self = (self', Ok ()) →
       estimate_current self')
  ∧ (∀ data max_tokens, from_dict data max_tokens = Ok self' → estimate_current self').
Proof.
  repeat split.
  - intros content. apply modify_update_refreshes.
  - intros content. apply modify_update_refreshes.
  - intros tool_use_id result is_error. apply modify_update_refreshes.
  - intros results. unfold add_tool_results.
    unfold mbind at 1, SE_bind, se_bind at 1, lift_res.
    destruct (result_blocks results) as [content|e]; [|done].
    apply modify_update_refreshes.
  - unfold clear, mbind, SE_bind, se_bind, modify, get_state, lift_res, estimate_current.
    cbn. destruct (estimate_tokens (PStr (system_prompt self))) as [n|e] eqn:He; [|done].
    intros [= <-]. cbn. unfold token_estimate. rewrite He. reflexivity.
  - intros summary keep_recent Hcur. unfold summarize_old_context.
    unfold mbind at 1, SE_bind, se_bind at 1, get_state.
    destruct (_ <=? _); [by intros [= <-]|]. apply modify_update_refreshes.
  - intros data max_tokens. unfold from_dict, res_bind.
    destruct (expect _ _) as [sp|e]; [|done].
    destruct (Py.get_default "messages" _ data); try done.
    destruct (update_token_estimate _) as [ctx' [n|e]] eqn:Hu; [|done].
    intros [= <-]. by apply update_refreshes in Hu as [Hu _].
Qed.

Lemma estimate_tokens_nonneg (text : pyval) (n : Z) : estimate_tokens text = Ok n → 0 ≤ n.
Proof.
  unfold estimate_tokens, PyStr.len, Py.len.
  destruct (negb _); [intros [= <-]; lia|].
  destruct text; intros [= <-]; apply Z.div_pos; lia.
Qed.

Lemma sum_res_grows {A} (f : A → res Z) (l : list A) (total n : Z) :
  (∀ x k, f x = Ok k → 0 ≤ k) → sum_res f l total = Ok n → total ≤ n.
Proof.
  intros Hf. revert total. induction l as [|x l IH]; intros total; cbn [sum_res].
  - intros [= <-]. lia.
  - destruct (f x) as [k|e] eqn:Hk; [|done]. cbn [res_bind]. intros Hs.
    apply IH in Hs. apply Hf in Hk. lia.
Qed.

Lemma estimate_block_tokens_nonneg (block : pyval) (n : Z) :
  estimate_block_tokens block = Ok n → 0 ≤ n.
Proof.
  unfold estimate_block_tokens. destruct block; try (intros [= <-]; lia).
  destruct (is_str "text" _); [apply estimate_tokens_nonneg|].
  destruct (is_str "tool_use" _).
  { destruct (json_dumps _) as [s|e]; [|done]. apply estimate_tokens_nonneg. }
  destruct (is_str "tool_result" _); [apply estimate_tokens_nonneg|].
  intros [= <-]. lia.
Qed.

Lemma estimate_message_tokens_nonneg (message : pyval) (n : Z) :
  estimate_message_tokens message = Ok n → 0 ≤ n.
Proof.
  unfold estimate_message_tokens. destruct message; try done.
  destruct (Py.get_default "content" _ _); try (intros [= <-]; lia).
  - apply estimate_tokens_nonneg.
  - apply sum_res_grows. apply estimate_block_tokens_nonneg.
Qed.

(** X7.  The estimate is never negative, and a message added at the end
    never lowers it: when the estimate of the longer conversation can be
    computed, so can the one of the shorter, and it is not greater. *)
Theorem estimate_grows (sp : string) (ms : list pyval) (m : pyval) (n' : Z) :
  token_estimate sp (ms ++ [m]) = Ok n' →
  ∃ n, token_estimate sp ms = Ok n ∧ 0 ≤ n ∧ n ≤ n'.
Proof.
  unfold token_estimate.
  destruct (estimate_tokens (PStr sp)) as [total|e] eqn:Hsp; [|done]. cbn [res_bind].
  rewrite sum_res_app.
  destruct (sum_res estimate_message_tokens ms total) as [n|e] eqn:Hms; [|done].
  intros Hm. exists n. split; [done|].
  apply estimate_tokens_nonneg in Hsp.
  apply sum_res_grows in Hms; [|apply estimate_message_tokens_nonneg].
  apply sum_res_grows in Hm; [|apply estimate_message_tokens_nonneg]. lia.
Qed.

(** X8.  A second [summarize_old_context] with the same [keep_recent]
    keeps the same recent messages and puts its own summary message in
    the place of the first one, counting 1 previous message: the text of
    the first summary is not kept.  A later call that keeps more
    messages changes nothing. *)
Theorem summarize_twice (self : t) (first second : string) (k : Z) :
  0 ≤ k → 2 * k < Py.len (messages self) →
  let self1 := fst (summarize_old_context first k self) in
  let self2 := fst (summarize_old_context second k self1) in
  messages self2 = summary_message 1 second :: last_n (2 * k) (messages self)
  ∧ ∀ third k', k < k' →
      summarize_old_context third k' self1 = (self1, Ok ()).
Proof.
  intros Hk HN self1 self2.
  destruct (summarize_messages self first k Hk HN) as [Hm1 _]. fold self1 in Hm1.
  assert (Hlen1 : Py.len (messages self1) = 2 * k + 1).
  { rewrite Hm1. unfold Py.len in *. cbn [length]. rewrite length_drop. lia. }
  split.
  - destruct (summarize_messages self1 second k Hk) as [Hm2 _]; [lia|].
    fold self2 in Hm2. rewrite Hm2, Hlen1.
    replace (2 * k + 1 - 2 * k) with 1 by lia. rewrite Hm1. reflexivity.
  - intros third k' Hk'. unfold summarize_old_context, mbind, SE_bind, se_bind, get_state.
    destruct (Z.leb_spec (Py.len (messages self1)) (k' * 2)) as [_|Hgt]; [done|lia].
Qed.

(** with [checkpoint_threshold] at most [summary_threshold], as in the
    defaults, a context that should be summarised should also be
    checkpointed *)
Lemma summarize_implies_checkpoint (self : t) :
  (checkpoint_threshold self <= summary_threshold self)%Q →
  should_summarize self = Ok true → should_checkpoint self = Ok true.
Proof.
  intros Hle. unfold should_summarize, should_checkpoint.
  destruct (context_usage self) as [u|e]; [|done]. cbn [res_bind].
  intros [= Hs]. f_equal. apply Qle_bool_iff. apply Qle_bool_iff in Hs. lra.
Qed.

End EstimateProps.

(** ** The checkpoint directory *)

Section CheckpointFiles.
Context `{Platform}.

Import CheckpointManager.

(** X10.  [get_history(limit)] gives the last [limit] entries for a
    positive [limit], all of them when there are fewer; with
    [limit = 0] it gives every entry, not none ([entries[-0:]]), and
    with a negative [limit] it drops the first [-limit] entries. *)
Theorem get_history_window (self : t) (limit : Z) :
  (0 < limit →
   get_history self limit = last_n limit (history_file self)
   ∧ Py.len (get_history self limit) = Z.min limit (Py.len (history_file self)))
  ∧ get_history self 0 = history_file self
  ∧ (limit < 0 → get_history self limit = drop (Z.to_nat (- limit)) (history_file self)).
Proof.
  unfold get_history, Py.slice_from, last_n. repeat split.
  - destruct (Z.ltb_spec (- limit) 0); [|lia]. f_equal; lia.
  - destruct (Z.ltb_spec (- limit) 0); [|lia].
    unfold Py.len. rewrite length_drop. lia.
  - destruct (Z.ltb_spec (- limit) 0); [lia|done].
Qed.

Lemma jsonable_history_entry now usage cost phase done :
  Py.jsonable (history_entry now usage cost phase done) = true.
Proof. unfold history_entry. by destruct phase. Qed.

(** X11.  [save] never leaves [checkpoint.json] half written, but it
    is not all or nothing.  Whatever the file operations do,
    [checkpoint.json] afterwards holds the document from before or the
    complete new one, and the learnings and the archived files are not
    touched.  When [save] returns, the new document is in place, the
    temporary file is gone, and one line was added to the history,
    which [get_history(1)] gives.  When [json.dumps] raises, no file
    was touched.  When it raises for another reason the history has no
    new line; and then either [checkpoint.json] is the old one (with
    the new document left in [checkpoint.tmp] when it was the rename
    that failed), or, when the append to the history failed,
    [checkpoint.json] is already the new one. *)
Theorem save_outcomes (io : save_io) (files : t) (now : string) (ctx : ContextManager.t)
    (usage : TokenUsage.t) (cost : Q) (task : string) (phase : option string)
    (done : option (list pyval)) (extra : option dict) :
  let record := PDict (checkpoint_record now ctx usage cost task phase done extra) in
  let entry := history_entry now usage cost phase done in
  let result := save_under io now ctx usage cost task phase done extra files in
  let files' := fst result in
  (checkpoint_file files' = checkpoint_file files
   ∨ checkpoint_file files' = Some (JsonText record))
  ∧ learnings_file files' = learnings_file files
  ∧ completed_files files' = completed_files files
  ∧ (snd result = Ok () →
     checkpoint_file files' = Some (JsonText record)
     ∧ temp_file files' = None
     ∧ history_file files' = (history_file files ++ [entry])%list
     ∧ get_history files' 1 = [entry])
  ∧ (Py.jsonable record = false →
     result = (files, Raise (TypeError "Object is not JSON serializable")))
  ∧ (∀ e, snd result = Raise e → history_file files' = history_file files)
  ∧ (Py.jsonable record = true →
     (∀ e remains, io_write io = WriteFails e remains →
        snd result = Raise e
        ∧ checkpoint_file files' = checkpoint_file files
        ∧ temp_file files' = remains)
     ∧ (∀ e, io_write io = Written → io_rename io = Fails e →
          snd result = Raise e
          ∧ checkpoint_file files' = checkpoint_file files
          ∧ temp_file files' = Some (JsonText record))
     ∧ (∀ e, io_write io = Written → io_rename io = Done → io_append io = Fails e →
          snd result = Raise e
          ∧ checkpoint_file files' = Some (JsonText record)
          ∧ temp_file files' = None)).
Proof.
  intros record entry result files'. unfold files', result, save_under.
  unfold mbind, SE_bind, se_bind, lift_res, modify, json_dumps, raise.
  fold record. fold entry.
  assert (Hlast : get_history
                    (mk (Some (JsonText record)) (history_file files ++ [entry])
                        (learnings_file files) (completed_files files) None) 1
                  = [entry]).
  { unfold get_history, Py.slice_from. cbn [history_file].
    change (- (1) <? 0) with true. cbv iota.
    unfold Py.len. rewrite length_app. cbn [length].
    replace (Z.to_nat (Z.of_nat (length (history_file files) + 1) + - (1)))
      with (length (history_file files)) by lia.
    by rewrite drop_app_length. }
  destruct (Py.jsonable record) eqn:Hjson.
  - pose proof (jsonable_history_entry now usage cost phase done) as Hentry.
    fold entry in Hentry.
    destruct io as [[|e1 remains] [|e2] [|e3]]; cbn [io_write io_rename io_append];
      rewrite ?Hentry; cbn [fst snd];
      (repeat split; try done; try (by left); try (by right); try (by intros; simplify_eq)).
  - cbn. repeat split; try done; by left.
Qed.

(** lookups in a dict after [d[k] = v] and after [d.update(other)] *)
Lemma get_dict_set (k k' : string) (v : pyval) (d : dict) :
  Py.get k (dict_set k' v d) = if String.eqb k' k then Some v else Py.get k d.
Proof.
  induction d as [|[k0 v0] d IH]; cbn [dict_set Py.get]; [done|].
  destruct (String.eqb_spec k0 k') as [->|Hne]; cbn [Py.get].
  - by destruct (String.eqb k' k).
  - destruct (String.eqb_spec k0 k) as [->|_]; [|exact IH].
    by destruct (String.eqb_spec k' k) as [->|_].
Qed.

Lemma get_absent (k : string) (d : dict) : k ∉ d.*1 → Py.get k d = None.
Proof.
  induction d as [|[k0 v0] d IH]; [done|]. cbn [Py.get fmap list_fmap fst].
  intros Hnot. destruct (String.eqb_spec k0 k) as [->|_].
  - destruct Hnot. by left.
  - apply IH. intros Hin. apply Hnot. by right.
Qed.

Lemma get_dict_update (k : string) (existing learnings : dict) :
  NoDup learnings.*1 →
  Py.get k (dict_update existing learnings)
  = match Py.get k learnings with Some v => Some v | None => Py.get k existing end.
Proof.
  unfold dict_update. revert existing.
  induction learnings as [|[k1 v1] learnings IH]; intros existing Hnd; [done|].
  cbn [fold_left fst snd Py.get fmap list_fmap] in *.
  apply NoDup_cons in Hnd as [Hk1 Hnd].
  rewrite (IH _ Hnd), get_dict_set.
  destruct (String.eqb_spec k1 k) as [->|_]; [|done].
  by rewrite (get_absent k learnings Hk1).
Qed.

Lemma jsonable_dict_set (k : string) (v : pyval) (d : dict) :
  Py.jsonable v = true → Py.jsonable (PDict d) = true →
  Py.jsonable (PDict (dict_set k v d)) = true.
Proof.
  intros Hv. cbn [Py.jsonable].
  induction d as [|[k0 v0] d IH]; cbn [dict_set forallb]; [by rewrite Hv|].
  intros [Hv0 Hd]%andb_true_iff.
  destruct (String.eqb k0 k); cbn [forallb]; [by rewrite Hv, Hd|].
  by rewrite Hv0, (IH Hd).
Qed.

Lemma jsonable_dict_update (existing learnings : dict) :
  Py.jsonable (PDict existing) = true → Py.jsonable (PDict learnings) = true →
  Py.jsonable (PDict (dict_update existing learnings)) = true.
Proof.
  unfold dict_update. revert existing.
  induction learnings as [|[k1 v1] learnings IH]; intros existing He Hl; [exact He|].
  cbn [Py.jsonable forallb] in Hl. apply andb_true_iff in Hl as [Hv1 Hl].
  cbn [fold_left fst snd]. apply IH; [by apply jsonable_dict_set | exact Hl].
Qed.

(** X12.  After [save_learnings(learnings)], [load_learnings] gives a
    dict in which every key of [learnings] has its new value, every
    other key that was stored before has its old value, and
    [last_updated] is the time of the call (also when [learnings] has
    that key); the checkpoint and the history are not touched. *)
Theorem learnings_roundtrip (files : t) (now : string) (existing learnings : dict) :
  load_learnings files = PDict existing →
  Py.jsonable (PDict existing) = true →
  Py.jsonable (PDict learnings) = true →
  NoDup learnings.*1 →
  ∃ files' stored,
    save_learnings now learnings files = (files', Ok ())
    ∧ load_learnings files' = PDict stored
    ∧ Py.get "last_updated" stored = Some (PStr now)
    ∧ (∀ k, k ≠ "last_updated" →
         Py.get k stored
         = match Py.get k learnings with Some v => Some v | None => Py.get k existing end)
    ∧ checkpoint_file files' = checkpoint_file files
    ∧ history_file files' = history_file files.
Proof.
  intros Hload He Hl Hnd.
  set (stored := dict_set "last_updated" (PStr now) (dict_update existing learnings)).
  assert (Hj : Py.jsonable (PDict stored) = true).
  { apply jsonable_dict_set; [done|]. by apply jsonable_dict_update. }
  assert (Hold : match learnings_file files with
                 | Some (JsonText (PDict d)) => Ok d
                 | Some (JsonText _) =>
                     Raise (Exn "AttributeError" "object has no attribute 'update'")
                 | _ => Ok []
                 end = Ok existing).
  { unfold load_learnings in Hload.
    destruct (learnings_file files) as [[v|text]|]; try (by injection Hload as <-).
    by rewrite Hload. }
  eexists _, stored. split.
  { unfold save_learnings, mbind, SE_bind, se_bind, get_state, lift_res, modify, json_dumps.
    rewrite Hold. fold stored. rewrite Hj. reflexivity. }
  cbn. repeat split.
  - unfold stored. by rewrite get_dict_set.
  - intros k Hk. unfold stored. rewrite get_dict_set.
    destruct (String.eqb_spec "last_updated" k) as [<-|_]; [done|].
    by apply get_dict_update.
Qed.

End CheckpointFiles.

(** ** Tools that only read *)

Section ToolFrames.
Context `{Platform}.

Import Tools.

Lemma leaves_world_ret {A} (a : A) : leaves_world (mret a).
Proof. by intros w. Qed.

Lemma leaves_world_raise {A} (e : exn) : leaves_world (raise e : SE world A).
Proof. by intros w. Qed.

Lemma leaves_world_lift_res {A} (r : res A) : leaves_world (lift_res r).
Proof. by intros w. Qed.

Lemma leaves_world_read_disk {A} (f : fs → A) : leaves_world (read_disk f).
Proof. by intros w. Qed.

Lemma leaves_world_read_disk_res {A} (f : fs → res A) : leaves_world (read_disk_res f).
Proof. by intros w. Qed.

Lemma leaves_world_bind {A B} (m : SE world A) (k : A → SE world B) :
  leaves_world m → (∀ a, leaves_world (k a)) → leaves_world (m ≫= k).
Proof.
  intros Hm Hk w. specialize (Hm w). unfold mbind, SE_bind, se_bind.
  destruct (m w) as [w1 [a|e]]; cbn [fst] in *; subst w1; [apply Hk | done].
Qed.

Lemma leaves_world_try {A} (m : SE world A) (h : exn → SE world A) :
  leaves_world m → (∀ e, leaves_world (h e)) → leaves_world (try_except m h).
Proof.
  intros Hm Hh w. specialize (Hm w). unfold try_except.
  destruct (m w) as [w1 [a|e]]; cbn [fst] in *; subst w1; [done | apply Hh].
Qed.

Lemma leaves_world_resolve_path (self : t) (path : string) :
  leaves_world (resolve_path self path).
Proof. apply leaves_world_read_disk_res. Qed.

Lemma leaves_world_path_or_project (self : t) (path : option string) :
  leaves_world (path_or_project self path).
Proof.
  unfold path_or_project.
  destruct (given path); [apply leaves_world_resolve_path | apply leaves_world_ret].
Qed.

Ltac world_frame :=
  repeat first
    [ apply leaves_world_ret
    | apply leaves_world_raise
    | apply leaves_world_lift_res
    | apply leaves_world_read_disk
    | apply leaves_world_read_disk_res
    | apply leaves_world_resolve_path
    | apply leaves_world_path_or_project
    | apply leaves_world_try; [|intros ?]
    | apply leaves_world_bind; [|intros ?]
    | match goal with |- leaves_world (if ?b then _ else _) => destruct b end
    | match goal with |- leaves_world (match ?x with _ => _ end) => destruct x end ].

(** X13.  The four tools that only read ([read_file], [glob], [grep],
    [list_dir]) leave the disk and the list of started subprocesses
    exactly as they were, for every input and whether they return or
    raise. *)
Theorem read_tools_leave_world (self : t) :
  (∀ path offset limit, leaves_world (tool_read_file self path offset limit))
  ∧ (∀ pattern path, leaves_world (tool_glob self pattern path))
  ∧ (∀ pattern path glob_filter case_insensitive,
       leaves_world (tool_grep self pattern path glob_filter case_insensitive))
  ∧ (∀ path, leaves_world (tool_list_dir self path)).
Proof.
  repeat split; intros.
  - unfold tool_read_file. world_frame.
  - unfold tool_glob. world_frame.
  - unfold tool_grep. world_frame.
  - unfold tool_list_dir. world_frame.
Qed.

End ToolFrames.

(** ** The shell policy in general *)

Section ShellPolicy.
Context `{Platform}.

Import Tools.

Lemma str_in_elem (a : string) (l : list string) : str_in a l = true ↔ a ∈ l.
Proof.
  unfold str_in. rewrite existsb_exists. split.
  - intros (x & Hin & Heq). apply String.eqb_eq in Heq as ->. by apply list_elem_of_In.
  - intros Hin. exists a. split; [by apply list_elem_of_In | apply String.eqb_refl].
Qed.

Lemma find_blocked_none (blocked parts : list string) :
  List.find (λ blocked_cmd, str_in blocked_cmd parts) blocked = None ↔
  Forall (λ word, word ∉ parts) blocked.
Proof.
  induction blocked as [|b blocked IH]; cbn [List.find]; [by split|].
  destruct (str_in b parts) eqn:Hb.
  - split; [done|]. intros [Hnot _]%Forall_cons. by apply str_in_elem in Hb.
  - rewrite IH, Forall_cons. split; [|by intros [_ ?]].
    intros Hall. split; [|done]. intros Hin%str_in_elem. congruence.
Qed.

Lemma exists_confirm_false (confirm parts : list string) :
  existsb (λ cmd, str_in cmd parts) confirm = false ↔
  Forall (λ word, word ∉ parts) confirm.
Proof.
  induction confirm as [|c confirm IH]; cbn [existsb]; [by split|].
  rewrite orb_false_iff, IH, Forall_cons. split; intros [Hc Hall]; (split; [|done]).
  - intros Hin%str_in_elem. congruence.
  - destruct (str_in c parts) eqn:Hs; [|done]. by apply str_in_elem in Hs.
Qed.

Lemma allowed_check (allowed : list string) (base_cmd : string) :
  negb (Nat.eqb (length allowed) 0) && negb (str_in base_cmd allowed) = false ↔
  allowed = [] ∨ base_cmd ∈ allowed.
Proof.
  rewrite <- str_in_elem. destruct allowed as [|a allowed]; cbn [length Nat.eqb negb andb].
  - split; [by left|done].
  - destruct (str_in base_cmd (a :: allowed)); cbn [negb]; split; try done.
    + by right.
    + by intros [|].
Qed.

(** X14.  Whatever the configuration and the callback, [tool_bash]
    either raises with the disk and the process list untouched, or
    hands the command to the shell once, and then the command passed
    all three layers: none of its words is in the blocked list; the
    allowed list is empty or holds its first word, cut at the first
    separator; and if one of its words is in the confirm list, a
    confirmation callback is installed and answered yes. *)
Theorem bash_policy_sound (self : t) (command : string) (timeout : pyval) (w : world) :
  let r := tool_bash self command timeout w in
  let cfg := bash_config self in
  (∃ e, r = (w, Raise e))
  ∨ (spawned (fst r) = SpawnShell command :: spawned w
     ∧ ∃ part0 rest,
         PyStr.split command = part0 :: rest
         ∧ Forall (λ word, word ∉ part0 :: rest) (blocked cfg)
         ∧ (allowed cfg = [] ∨ first_command separators part0 ∈ allowed cfg)
         ∧ (Forall (λ word, word ∉ part0 :: rest) (confirm cfg)
            ∨ ∃ ask message, on_confirm_request self = Some ask ∧ ask message = true)).
Proof.
  intros r cfg. unfold r, tool_bash. fold cfg.
  destruct (PyStr.split command) as [|part0 rest] eqn:Hparts; [left; by eexists|].
  destruct (List.find _ (blocked cfg)) as [blocked_cmd|] eqn:Hb; [left; by eexists|].
  apply find_blocked_none in Hb.
  destruct (negb _ && negb _) eqn:Ha; [left; by eexists|].
  apply allowed_check in Ha.
  unfold mbind, SE_bind, se_bind.
  destruct (existsb _ (confirm cfg)) eqn:Hc.
  - destruct (on_confirm_request self) as [ask|] eqn:Hask; [|left; by eexists].
    destruct (ask _) eqn:Hyes; cbn [negb]; [|left; by eexists].
    right. split; [apply run_command_spawns|].
    exists part0, rest. repeat split; try done. right. by eexists _, _.
  - apply exists_confirm_false in Hc.
    right. split; [apply run_command_spawns|].
    exists part0, rest. repeat split; try done. by left.
Qed.

(** X15.  The lists are matched against the whitespace-separated words
    of the command only.  A command none of whose words is in the
    blocked or the confirm list, and whose first word, cut at the first
    separator, is allowed, is handed to the shell as it was written:
    what follows a separator inside a word is not looked at. *)
Theorem bash_runs_permitted (self : t) (command : string) (timeout : pyval) (w : world)
    (part0 : string) (rest : list string) :
  PyStr.split command = part0 :: rest →
  Forall (λ word, word ∉ part0 :: rest) (blocked (bash_config self)) →
  allowed (bash_config self) = []
  ∨ first_command separators part0 ∈ allowed (bash_config self) →
  Forall (λ word, word ∉ part0 :: rest) (confirm (bash_config self)) →
  spawned (fst (tool_bash self command timeout w)) = SpawnShell command :: spawned w.
Proof.
  intros Hparts Hb Ha Hc. unfold tool_bash. rewrite Hparts.
  apply find_blocked_none in Hb. rewrite Hb.
  apply allowed_check in Ha. unfold separators in Ha. rewrite Ha.
  apply exists_confirm_false in Hc. rewrite Hc.
  apply run_command_spawns.
Qed.

End ShellPolicy.

Section PhaseComplete.
Context `{Platform}.

Import Tools.

Lemma starts_with_self (s : string) : PyStr.startswith s s = true.
Proof.
  unfold PyStr.startswith. induction s as [|a s IH]; cbn [String.prefix]; [done|].
  by destruct (ascii_dec a a).
Qed.

Lemma join_starts (first : string) (more : list string) :
  PyStr.startswith (PyStr.join nl (first :: more)) first = true.
Proof.
  unfold PyStr.join. destruct more as [|x more]; cbn [String.concat].
  - apply starts_with_self.
  - apply starts_with_app.
Qed.

(** what a call of [tool_phase_complete] comes to *)
Lemma phase_complete_outcome (self : t) (phase_name summary : string)
    (verification : option string) (files_changed : option (list string))
    (tests_passed : pyval) (w : world) :
  ∃ w' more gits,
    tool_phase_complete self phase_name summary verification files_changed tests_passed w
    = (w', Ok (PyStr.join nl (("Phase '" ++ phase_name ++ "' completed: " ++ summary) :: more)))
    ∧ spawned w' = (gits ++ spawned w)%list
    ∧ (gits = [] ∧ w' = w
       ∨ auto_commit_of self = true
         ∧ (require_verification_of self = true → is_Some (given verification))
         ∧ (gits = [git_status] ∨ gits = [git_add; git_status]
            ∨ gits = [git_commit (commit_message (commit_prefix_of self) phase_name summary
                                    verification files_changed);
                      git_add; git_status])).
Proof.
  unfold tool_phase_complete.
  assert (Hcfg : match orchestrator_config self with
                 | Some c => (git_auto_commit c, git_commit_prefix c, git_require_verification c)
                 | None => (true, "feat", true)
                 end = (auto_commit_of self, commit_prefix_of self, require_verification_of self)).
  { unfold auto_commit_of, commit_prefix_of, require_verification_of.
    by destruct (orchestrator_config self). }
  rewrite Hcfg. clear Hcfg. cbv beta iota.
  set (first := "Phase '" ++ phase_name ++ "' completed: " ++ summary).
  destruct (require_verification_of self && negb (bool_decide (is_Some (given verification))))
    eqn:Hgate.
  { eexists w, _, []. split; [reflexivity|]. split; [done|]. by left. }
  assert (Hver : require_verification_of self = true → is_Some (given verification)).
  { intros Hrv. rewrite Hrv in Hgate. cbn [andb] in Hgate.
    apply negb_false_iff, bool_decide_eq_true in Hgate. exact Hgate. }
  clear Hgate.
  match goal with |- context [if negb _ then mret (PyStr.join nl (app ?lines _)) else _] =>
    assert (Hlines : ∃ more, lines = first :: more) end.
  { destruct (given verification), tests_passed; by eexists. }
  destruct Hlines as [more Hlines]. rewrite Hlines. clear Hlines.
  destruct (auto_commit_of self) eqn:Hac; cbn [negb].
  2: { eexists w, _, []. split; [reflexivity|]. split; [done|]. by left. }
  unfold try_except, git, run_argv.
  unfold mbind, SE_bind, se_bind, mret, SE_ret, se_ret, raise. cbv beta.
  cbn [disk spawned].
  repeat match goal with
    | |- context [subprocess_argv ?a ?c ?d] =>
        destruct (subprocess_argv a c d) as [? [? ? ?| |?]]; cbn [disk spawned fst snd]
    | |- context [if ?b then _ else _] => destruct b
    end.
  all: first
    [ by (eexists _, _, [git_status]; split; [reflexivity|]; split; [reflexivity|];
          right; repeat split; auto)
    | by (eexists _, _, [git_add; git_status]; split; [reflexivity|]; split; [reflexivity|];
          right; repeat split; auto)
    | by (eexists _, _, [git_commit _; git_add; git_status];
          split; [reflexivity|]; split; [reflexivity|]; right; repeat split; auto) ].
Qed.

(** X16.  [tool_phase_complete] never raises: whatever git does (a
    failing command, a timeout, no git at all), the call returns a text
    whose first line is ["Phase '<name>' completed: <summary>"]. *)
Theorem phase_complete_returns (self : t) (phase_name summary : string)
    (verification : option string) (files_changed : option (list string))
    (tests_passed : pyval) (w : world) :
  ∃ w' result,
    tool_phase_complete self phase_name summary verification files_changed tests_passed w
    = (w', Ok result)
    ∧ PyStr.startswith result ("Phase '" ++ phase_name ++ "' completed: " ++ summary) = true.
Proof.
  destruct (phase_complete_outcome self phase_name summary verification files_changed
              tests_passed w) as (w' & more & gits & Hrun & _).
  eexists _, _. split; [exact Hrun | apply join_starts].
Qed.

(** X17.  The subprocesses [tool_phase_complete] starts are git commands
    in the project directory, at most three, in the order status, add,
    commit: no commit without an add before it and a status before
    that.  It starts none when [auto_commit] is off, and none when
    verification is required and the call gives no verification text
    (an empty one counts as none); the disk is untouched then. *)
Theorem phase_complete_commits (self : t) (phase_name summary : string)
    (verification : option string) (files_changed : option (list string))
    (tests_passed : pyval) (w : world) :
  let w' :=
    fst (tool_phase_complete self phase_name summary verification files_changed
           tests_passed w) in
  let commit_msg :=
    commit_message (commit_prefix_of self) phase_name summary verification files_changed in
  (w' = w
   ∨ spawned w' = git_status :: spawned w
   ∨ spawned w' = git_add :: git_status :: spawned w
   ∨ spawned w' = git_commit commit_msg :: git_add :: git_status :: spawned w)
  ∧ (auto_commit_of self = false → w' = w)
  ∧ (require_verification_of self = true → given verification = None → w' = w).
Proof.
  intros w' commit_msg. unfold w'.
  destruct (phase_complete_outcome self phase_name summary verification files_changed
              tests_passed w) as (w1 & more & gits & -> & Hs & Hg).
  cbn [fst]. destruct Hg as [[-> ->] | (Hac & Hver & Hgits)].
  - repeat split; auto.
  - split; [|split].
    + right. rewrite Hs. by destruct Hgits as [-> | [-> | ->]]; auto.
    + congruence.
    + intros Hrv Hnone. destruct (Hver Hrv) as [v Hv]. congruence.
Qed.

End PhaseComplete.

(** ** Edits *)

Section EditFile.
Context `{Platform}.

Import Tools.

(** X18.  [tool_edit_file] writes once or not at all.  When it raises
    anything but the "Cannot write file" error, the disk and the process
    list are untouched.  When it returns, the path resolved inside the
    project, the file could be read and held [old_string] (once, unless
    [replace_all] was set), and the only change to the world is one
    [write_text] of the content with the first occurrence replaced, or
    with all of them under [replace_all]; the message gives the count. *)
Theorem edit_file_outcome (self : t) (path old_string new_string : string)
    (replace_all : pyval) (w : world) :
  match tool_edit_file self path old_string new_string replace_all w with
  | (w', Raise e) => w' = w ∨ ∃ e0, e = cannot_write e0
  | (w', Ok message) =>
      ∃ file_path content,
        resolve_path_on self path (disk w) = Ok file_path
        ∧ read_text (disk w) file_path false = Ok content
        ∧ PyStr.contains old_string content = true
        ∧ (Py.truthy replace_all = false → (PyStr.count old_string content ≤ 1)%nat)
        ∧ w' = fst (on_disk
                      (write_text file_path
                         (PyStr.replace old_string new_string content
                            (if Py.truthy replace_all then None else Some 1%nat))) w)
        ∧ message
          = "Replaced "
            ++ PyStr.of_Z (Z.of_nat (if Py.truthy replace_all
                                     then PyStr.count old_string content else 1%nat))
            ++ " occurrence(s) in " ++ path
  end.
Proof.
  unfold tool_edit_file, resolve_path, read_disk_res, read_disk, try_except.
  unfold mbind, SE_bind, se_bind, mret, SE_ret, se_ret, raise. cbv beta.
  destruct (resolve_path_on self path (disk w)) as [file_path|e] eqn:Hp; [|by left].
  destruct (exists_ (disk w) file_path); cbn [negb]; [|by left].
  destruct (read_text (disk w) file_path false) as [content|e] eqn:Hr; [|by left].
  destruct (PyStr.contains old_string content) eqn:Hc; cbn [negb]; [|by left].
  destruct (Py.truthy replace_all) eqn:Ht; cbn [negb].
  - unfold on_disk.
    destruct (write_text file_path _ (disk w)) as [d [[]|e]] eqn:Hw; cbn.
    + exists file_path, content. rewrite Hw. by repeat split.
    + right. by eexists.
  - destruct (Nat.ltb_spec 1 (PyStr.count old_string content)) as [Hlt|Hle]; [by left|].
    unfold on_disk.
    destruct (write_text file_path _ (disk w)) as [d [[]|e]] eqn:Hw; cbn.
    + exists file_path, content. rewrite Hw. by repeat split.
    + right. by eexists.
Qed.

End EditFile.

(** ** The tool definitions and the methods *)

Section ToolDefinitions.
Context `{Platform}.

Import Tools.

Lemma check_keywords_ok (method : string) (params : list string) (kwargs : dict) (k : string) :
  check_keywords method params kwargs = Ok () → k ∈ kwargs.*1 → k ∈ params.
Proof.
  unfold check_keywords.
  destruct (List.find _ kwargs) as [[k' v']|] eqn:Hf; [done|]. intros _ Hin.
  apply list_elem_of_fmap in Hin as ([k0 v0] & -> & Hin).
  apply list_elem_of_In in Hin.
  pose proof (find_none _ _ Hf _ Hin) as Hk. cbn [fst] in *.
  apply negb_false_iff in Hk. by apply str_in_elem.
Qed.

Lemma required_absent (method k : string) (kwargs : dict) :
  k ∉ kwargs.*1 → required method k kwargs = Raise (missing method k).
Proof. intros Hk. unfold required. by rewrite (get_absent k kwargs Hk). Qed.

Lemma required_str_absent (method k : string) (kwargs : dict) :
  k ∉ kwargs.*1 → required_str method k kwargs = Raise (missing method k).
Proof. intros Hk. unfold required_str. by rewrite (required_absent method k kwargs Hk). Qed.

Lemma lift_bind {A B} (r : res A) (k : A → SE world B) (w : world) :
  (lift_res r ≫= k) w = match r with Ok a => k a w | Raise e => (w, Raise e) end.
Proof. by destruct r. Qed.

Lemma execute_rejected (self : t) (tool_name : string) (method : method) (kwargs : dict)
    (w : world) :
  getattr_tool self tool_name = Some method →
  (∃ e, method kwargs w = (w, Raise e)) →
  ∃ content, execute self tool_name kwargs w = (w, (content, true)).
Proof.
  intros Hm [e He]. unfold execute. rewrite Hm, He. destruct (is_ToolError e); by eexists.
Qed.

(** the arguments are bound before the body of the method runs *)
Ltac bind_arguments Hmiss :=
  repeat (rewrite lift_bind;
          first [ rewrite (required_str_absent _ _ _ Hmiss); by eexists
                | rewrite (required_absent _ _ _ Hmiss); by eexists
                | match goal with
                  | |- context [match ?r with Ok _ => _ | Raise _ => _ end] =>
                      destruct r as [?|?]; [|by eexists]
                  end ]).

Ltac unexpected_keyword Hin Hnot :=
  rewrite lift_bind;
  match goal with
  | |- context [check_keywords ?m ?params ?kwargs] =>
      let Hck := fresh "Hck" in
      let Hk := fresh "Hk" in
      destruct (check_keywords m params kwargs) as [[]|?] eqn:Hck; [|by eexists];
      pose proof (check_keywords_ok m params kwargs _ Hck Hin) as Hk;
      destruct Hnot; vm_compute;
      repeat (apply elem_of_cons in Hk as [-> | Hk]); [..|by apply elem_of_nil in Hk];
      repeat constructor
  end.

Ltac each_definition Hd :=
  unfold get_tool_definitions in Hd;
  repeat (apply elem_of_cons in Hd as [-> | Hd]); [..|by apply elem_of_nil in Hd].

(** X19.  The tools offered to the model are the tools [execute] can
    dispatch, in the same order.  For each of them, an input with a key
    that is not a property of its schema, or without a key that its
    schema requires, comes back as an error result and leaves the disk
    and the process list untouched; the one exception is
    [verification] of [phase_complete], which the schema requires and
    the method takes as optional. *)
Theorem tool_definitions_dispatch (self : t) :
  definition_name <$> get_tool_definitions = tool_names
  ∧ (∀ d kwargs w k,
       d ∈ get_tool_definitions → k ∈ kwargs.*1 → k ∉ schema_properties d →
       ∃ content, execute self (definition_name d) kwargs w = (w, (content, true)))
  ∧ (∀ d kwargs w k,
       d ∈ get_tool_definitions → k ∈ schema_required d → k ∉ kwargs.*1 →
       (definition_name d, k) ≠ ("phase_complete", "verification") →
       ∃ content, execute self (definition_name d) kwargs w = (w, (content, true))).
Proof.
  split; [reflexivity|]. split.
  - intros d kwargs w k Hd Hin Hnot. each_definition Hd.
    all: eapply execute_rejected; [reflexivity|].
    all: unfold call_read_file, call_write_file, call_edit_file, call_bash, call_glob,
           call_grep, call_list_dir, call_phase_complete, call_task_complete,
           call_request_help; cbn [snd]; cbv beta.
    all: unexpected_keyword Hin Hnot.
  - intros d kwargs w k Hd Hreq Hmiss Hne. each_definition Hd.
    all: vm_compute in Hreq.
    all: repeat (apply elem_of_cons in Hreq as [-> | Hreq]);
           try (by apply elem_of_nil in Hreq); try (by destruct Hne).
    all: eapply execute_rejected; [reflexivity|].
    all: unfold call_read_file, call_write_file, call_edit_file, call_bash, call_glob,
           call_grep, call_list_dir, call_phase_complete, call_task_complete,
           call_request_help; cbn [snd]; cbv beta.
    all: bind_arguments Hmiss.
Qed.

Lemma get_none_absent (k : string) (d : dict) : Py.get k d = None → k ∉ d.*1.
Proof.
  induction d as [|[k0 v0] d IH]; cbn [Py.get fmap list_fmap fst].
  - intros _ Hin. by apply elem_of_nil in Hin.
  - destruct (String.eqb_spec k0 k) as [->|Hne]; [done|].
    intros Hnone Hin. apply elem_of_cons in Hin as [->|Hin]; [done|]. by apply IH.
Qed.

(** [task_complete] without a [summary] is an error result *)
Lemma task_complete_needs_summary (self : t) (kwargs : dict) (w : world) :
  Py.get "summary" kwargs = None →
  ∃ content, execute self "task_complete" kwargs w = (w, (content, true)).
Proof.
  intros Hmiss%get_none_absent.
  eapply execute_rejected; [reflexivity|].
  unfold call_task_complete; cbn [snd]; cbv beta.
  bind_arguments Hmiss.
Qed.

End ToolDefinitions.

(** ** The run loop *)

Section RunFrames.
Context `{Platform}.

Import Orchestrator.

Lemma preserves_ret {X A} (f : t → X) (a : A) : preserves f (mret a).
Proof. by intros o. Qed.

Lemma preserves_raise {X A} (f : t → X) (e : exn) : preserves f (raise e : SE t A).
Proof. by intros o. Qed.

Lemma preserves_lift_res {X A} (f : t → X) (r : res A) : preserves f (lift_res r).
Proof. by intros o. Qed.

Lemma preserves_get_state {X} (f : t → X) : preserves f get_state.
Proof. by intros o. Qed.

Lemma preserves_modify {X} (f : t → X) (g : t → t) :
  (∀ o, f (g o) = f o) → preserves f (modify g).
Proof. intros Hg o. apply Hg. Qed.

Lemma preserves_bind {X A B} (f : t → X) (m : SE t A) (k : A → SE t B) :
  preserves f m → (∀ a, preserves f (k a)) → preserves f (m ≫= k).
Proof.
  intros Hm Hk o. specialize (Hm o). unfold mbind, SE_bind, se_bind.
  destruct (m o) as [o1 [a|e]]; cbn [fst] in *; [|exact Hm].
  by rewrite Hk.
Qed.

Lemma preserves_try {X A} (f : t → X) (m : SE t A) (h : exn → SE t A) :
  preserves f m → (∀ e, preserves f (h e)) → preserves f (try_except m h).
Proof.
  intros Hm Hh o. specialize (Hm o). unfold try_except.
  destruct (m o) as [o1 [a|e]]; cbn [fst] in *; [exact Hm|].
  by rewrite Hh.
Qed.

Lemma preserves_with_context {X A} (f : t → X) (m : SE ContextManager.t A) :
  (∀ c o, f (set_context c o) = f o) → preserves f (with_context m).
Proof.
  intros Hf o. unfold with_context. destruct (context o) as [c|]; [|done].
  destruct (m c) as [c' r]. apply Hf.
Qed.

Lemma preserves_with_checkpoint_mgr {X A} (f : t → X) (m : SE CheckpointManager.t A) :
  (∀ c o, f (set_checkpoint_mgr c o) = f o) → preserves f (with_checkpoint_mgr m).
Proof.
  intros Hf o. unfold with_checkpoint_mgr. destruct (m _) as [c' r]. apply Hf.
Qed.

Lemma preserves_with_token_usage {X A} (f : t → X) (m : SE TokenUsage.t A) :
  (∀ u o, f (set_token_usage u o) = f o) → preserves f (with_token_usage m).
Proof.
  intros Hf o. unfold with_token_usage. destruct (m _) as [u' r]. apply Hf.
Qed.

Lemma preserves_for_each {X A} (f : t → X) (l : list A) (body : A → SE t unit) :
  (∀ x, preserves f (body x)) → preserves f (for_each l body).
Proof.
  intros Hb. induction l as [|x l IH]; [apply preserves_ret|].
  cbn [for_each]. apply preserves_bind; [apply Hb | by intros _].
Qed.

Lemma preserves_map_se {X A B} (f : t → X) (g : A → SE t B) (l : list A) :
  (∀ x, preserves f (g x)) → preserves f (map_se g l).
Proof.
  intros Hg. induction l as [|x l IH]; [apply preserves_ret|].
  cbn [map_se]. apply preserves_bind; [apply Hg|]. intros y.
  apply preserves_bind; [exact IH|]. intros ys. apply preserves_ret.
Qed.

Ltac field_frame :=
  repeat first
    [ apply preserves_ret
    | apply preserves_raise
    | apply preserves_lift_res
    | apply preserves_get_state
    | apply preserves_modify; intros ?; reflexivity
    | apply preserves_with_context; intros ? ?; reflexivity
    | apply preserves_with_checkpoint_mgr; intros ? ?; reflexivity
    | apply preserves_with_token_usage; intros ? ?; reflexivity
    | apply preserves_for_each; intros ?
    | apply preserves_map_se; intros ?
    | apply preserves_try; [|intros ?]
    | apply preserves_bind; [|intros ?]
    | progress unfold on_output, emit
    | match goal with |- preserves _ (if ?b then _ else _) => destruct b end
    | match goal with |- preserves _ (match ?x with _ => _ end) => destruct x end ].

Lemma requests_save_checkpoint (reason : string) : preserves requests (save_checkpoint reason).
Proof. unfold save_checkpoint. field_frame. Qed.

Lemma requests_execute_tools (tool_uses : list ToolUse) :
  preserves requests (_execute_tools tool_uses).
Proof. unfold _execute_tools, execute_tool_use. field_frame. Qed.

Lemma requests_process_response (response : Response) :
  preserves requests (process_response response).
Proof.
  unfold process_response, task_completed.
  field_frame; try apply requests_execute_tools; try apply requests_save_checkpoint.
Qed.

Lemma within_preserves {A} (m : SE t A) : preserves requests m → requests_within 0 m.
Proof. intros Hm o. rewrite Hm. lia. Qed.

Lemma within_weaken {A} (k k' : Z) (m : SE t A) :
  k ≤ k' → requests_within k m → requests_within k' m.
Proof. intros Hk Hm o. specialize (Hm o). lia. Qed.

Lemma within_bind {A B} (k1 k2 : Z) (m : SE t A) (f : A → SE t B) :
  0 ≤ k2 → requests_within k1 m → (∀ a, requests_within k2 (f a)) →
  requests_within (k1 + k2) (m ≫= f).
Proof.
  intros Hk Hm Hf o. specialize (Hm o). unfold mbind, SE_bind, se_bind.
  destruct (m o) as [o1 [a|e]]; cbn [fst] in *; [|lia].
  specialize (Hf a o1). lia.
Qed.

Lemma within_try {A} (k1 k2 : Z) (m : SE t A) (h : exn → SE t A) :
  0 ≤ k2 → requests_within k1 m → (∀ e, requests_within k2 (h e)) →
  requests_within (k1 + k2) (try_except m h).
Proof.
  intros Hk Hm Hh o. specialize (Hm o). unfold try_except.
  destruct (m o) as [o1 [a|e]]; cbn [fst] in *; [lia|].
  specialize (Hh e o1). lia.
Qed.

Lemma within_call_api : requests_within 1 _call_api.
Proof.
  intros o. unfold _call_api, mbind, SE_bind, se_bind, get_state, lift_res, modify.
  destruct (context o) as [c|]; cbn [expect fst]; [|lia].
  destruct (client _ _ _ _) as [response|msg]; [|cbn; lia].
  match goal with |- context [with_token_usage ?m ?s] =>
    pose proof (preserves_with_token_usage requests m (λ _ _, eq_refl) s) as Hu;
    destruct (with_token_usage m s) as [o1 [[]|e]] end;
    cbn in *; rewrite ?Hu; cbn; lia.
Qed.

Lemma within_handle_context_pressure : requests_within 1 _handle_context_pressure.
Proof.
  unfold _handle_context_pressure.
  apply (within_bind 0 1); [lia|apply within_preserves, preserves_get_state|]. intros o.
  apply (within_bind 0 1); [lia|apply within_preserves, preserves_lift_res|]. intros c.
  apply (within_bind 0 1); [lia|apply within_preserves, preserves_lift_res|]. intros b.
  apply (within_bind 0 1); [lia| |intros _].
  { apply within_preserves. destruct b; [apply requests_save_checkpoint|apply preserves_ret]. }
  apply (within_bind 0 1); [lia|apply within_preserves, preserves_lift_res|]. intros b'.
  destruct b'; [|apply (within_weaken 0); [lia|apply within_preserves, preserves_ret]].
  apply (within_bind 0 1); [lia|apply within_preserves; field_frame|]. intros _.
  apply (within_bind 0 1); [lia|apply within_preserves; field_frame|]. intros _.
  apply (within_bind 1 0); [lia|apply within_call_api|]. intros response.
  apply within_preserves. field_frame.
Qed.

Lemma within_iteration : requests_within 2 iteration.
Proof.
  unfold iteration.
  apply (within_bind 0 2); [lia|apply within_preserves, preserves_get_state|]. intros o.
  destruct (CostTracker.should_stop _).
  { apply (within_weaken 0); [lia|]. apply within_preserves.
    field_frame. }
  apply (within_bind 1 1); [lia|apply within_handle_context_pressure|]. intros _.
  apply (within_bind 1 0); [lia| |].
  - apply (within_try 1 0); [lia| |].
    + apply (within_bind 1 0); [lia|apply within_call_api|]. intros response.
      apply within_preserves, preserves_ret.
    + intros e. apply within_preserves. field_frame.
  - intros [response|]; apply within_preserves;
      [apply requests_process_response | apply preserves_ret].
Qed.

Lemma within_loop (turns : nat) : requests_within (2 * Z.of_nat turns) (loop turns).
Proof.
  induction turns as [|turns IH]; cbn [loop].
  - apply within_preserves. field_frame.
  - replace (2 * Z.of_nat (S turns)) with (2 + 2 * Z.of_nat turns) by lia.
    apply within_bind; [lia|apply within_iteration|].
    intros [|completed]; [exact IH|].
    apply (within_weaken 0); [lia|apply within_preserves, preserves_ret].
Qed.

(** X20.  One [run] sends at most [2 * max_iterations] requests to the
    model API, whatever the model answers and whether [run] returns or
    raises: one request for each turn of the loop and at most one more
    for a summary. *)
Theorem run_request_bound (o : t) :
  requests o ≤ requests (fst (run o))
  ≤ requests o + 2 * Z.max 0 (OrchestratorConfig.max_iterations (config o)).
Proof.
  unfold run, mbind, SE_bind, se_bind, get_state.
  destruct (context o) as [c|] eqn:Hc; [|cbn; lia].
  match goal with |- context [with_context ?m o] =>
    pose proof (preserves_with_context requests m (λ _ _, eq_refl) o) as Hr;
    destruct (with_context m o) as [o1 [[]|e]] end; cbn [fst] in *; [|lia].
  pose proof (within_loop (Z.to_nat (OrchestratorConfig.max_iterations (config o))) o1).
  lia.
Qed.

Lemma yields_ret {A} (P : A → Prop) (a : A) : P a → yields P (mret a).
Proof. intros HP o a' [= <-]. exact HP. Qed.

Lemma yields_bind {A B} (P : B → Prop) (m : SE t A) (k : A → SE t B) :
  (∀ a, yields P (k a)) → yields P (m ≫= k).
Proof.
  intros Hk o b. unfold mbind, SE_bind, se_bind.
  destruct (m o) as [o1 [a|e]]; [apply Hk | done].
Qed.

Lemma iteration_stop (o : t) :
  CostTracker.should_stop (cost_tracker o) = true →
  requests (fst (iteration o)) = requests o
  ∧ ∀ f, snd (iteration o) = Ok f → f = Return false.
Proof.
  intros Hs. unfold iteration. rewrite bind_get_state, Hs. split.
  - match goal with |- requests (fst (?m o)) = _ =>
      assert (Hm : preserves requests m) by field_frame; apply Hm end.
  - match goal with |- ∀ f, snd (?m o) = Ok f → _ =>
      assert (Hm : yields (λ f, f = Return false) m); [|apply Hm] end.
    apply yields_bind; intros _. apply yields_bind; intros _. by apply yields_ret.
Qed.

(** X21.  When the total cost is at or above [max], [run] sends no
    request to the model API and does not report the task as
    completed: it returns [False] after saving a checkpoint, or raises. *)
Theorem exhausted_budget_no_request (o : t) :
  CostTracker.should_stop (cost_tracker o) = true →
  requests (fst (run o)) = requests o ∧ snd (run o) ≠ Ok true.
Proof.
  intros Hs. unfold run. rewrite bind_get_state.
  destruct (context o) as [c|] eqn:Hc; [|done].
  unfold mbind, SE_bind, se_bind.
  match goal with |- context [with_context ?m o] =>
    pose proof (preserves_with_context requests m (λ _ _, eq_refl) o) as Hr;
    pose proof (preserves_with_context cost_tracker m (λ _ _, eq_refl) o) as Hct;
    destruct (with_context m o) as [o1 [[]|e]] end; cbn [fst snd] in *; [|done].
  rewrite <- Hct in Hs. rewrite <- Hr.
  destruct (Z.to_nat _) as [|turns]; cbn [loop].
  - split.
    + match goal with |- requests (fst (?m o1)) = _ =>
        assert (Hm : preserves requests m) by field_frame; apply Hm end.
    + match goal with |- snd (?m o1) ≠ _ =>
        assert (Hm : yields (λ b, b = false) m) end.
      { apply yields_bind; intros o2. apply yields_bind; intros _.
        apply yields_bind; intros _. by apply yields_ret. }
      intros Hv. by apply Hm in Hv.
  - destruct (iteration_stop o1 Hs) as [Hreq Hflow].
    unfold mbind, SE_bind, se_bind.
    destruct (iteration o1) as [o2 [f|e]]; cbn [fst snd] in *; [|done].
    rewrite (Hflow f eq_refl). cbn. split; [exact Hreq | done].
Qed.

(** ** Tool uses with a meaning for the loop *)

Lemma bind_ret {S A B} (a : A) (k : A → SE S B) (s : S) : (mret a ≫= k) s = k a s.
Proof. reflexivity. Qed.

(** X22.  A [task_complete] tool use marks the task as complete and
    adds its summary (or ["Task completed"] when the input has none) to
    the completed tasks whatever the tool call returned, also when the
    call was an error, as it is for an input without a [summary]. *)
Theorem task_complete_marks_done (tool_use : ToolUse) (o : t) :
  name tool_use = "task_complete" →
  let o' := fst (execute_tool_use tool_use o) in
  let outcome := Tools.execute (tools o) "task_complete" (input tool_use) (world o) in
  is_complete o' = true
  ∧ completed_tasks o'
    = (completed_tasks o
       ++ [Py.get_default "summary" (PStr "Task completed") (input tool_use)])%list
  ∧ snd (execute_tool_use tool_use o)
    = Ok (tool_result (id tool_use) (fst (snd outcome)) (snd (snd outcome)))
  ∧ (Py.get "summary" (input tool_use) = None → snd (snd outcome) = true).
Proof.
  intros Hname o' outcome. unfold o', outcome. clear o' outcome.
  unfold execute_tool_use. rewrite Hname. cbv zeta.
  rewrite bind_get_state.
  assert (Hmiss : Py.get "summary" (input tool_use) = None →
                  snd (snd (Tools.execute (tools o) "task_complete" (input tool_use)
                              (world o))) = true).
  { intros Hnone.
    destruct (task_complete_needs_summary (tools o) (input tool_use) (world o) Hnone)
      as [content ->]. reflexivity. }
  destruct (on_tool_start o); cbv iota;
    [unfold emit; rewrite bind_modify | rewrite bind_ret];
    rewrite bind_get_state; cbn [tools world on_tool_end set_events];
    destruct (Tools.execute (tools o) "task_complete" (input tool_use) (world o))
      as [w [result is_error]];
    rewrite bind_modify;
    (destruct (on_tool_end o); cbv iota;
       [unfold emit; rewrite bind_modify | rewrite bind_ret]);
    cbn; done.
Qed.


(** X23.  A [request_help] tool use stores the text of the request and
    sets [needs_human_input]; the flag is cleared again only when a
    help callback is installed and gives a non-empty answer, and then
    the tool result handed to the model is that answer. *)
Theorem request_help_outcome (tool_use : ToolUse) (o : t) :
  name tool_use = "request_help" →
  let o' := fst (execute_tool_use tool_use o) in
  let outcome := Tools.execute (tools o) "request_help" (input tool_use) (world o) in
  let result := fst (snd outcome) in
  let answered (content : string) :=
    snd (execute_tool_use tool_use o)
    = Ok (tool_result (id tool_use) content (snd (snd outcome))) in
  human_input_request o' = result
  ∧ is_complete o' = is_complete o
  ∧ match on_help_requested o with
    | Some ask =>
        if String.eqb (ask result) ""
        then needs_human_input o' = true ∧ answered result
        else needs_human_input o' = false ∧ answered ("Human response: " ++ ask result)
    | None => needs_human_input o' = true ∧ answered result
    end.
Proof.
  intros Hname o' outcome result answered. unfold answered, result, o', outcome.
  clear o' outcome result answered.
  unfold execute_tool_use. rewrite Hname. cbv zeta.
  rewrite bind_get_state.
  destruct (on_tool_start o); cbv iota;
    [unfold emit; rewrite bind_modify | rewrite bind_ret];
    rewrite bind_get_state; cbn [tools world on_tool_end on_help_requested set_events];
    destruct (Tools.execute (tools o) "request_help" (input tool_use) (world o))
      as [w [result is_error]];
    rewrite bind_modify;
    (destruct (on_tool_end o); cbv iota;
       [unfold emit; rewrite bind_modify | rewrite bind_ret]);
    cbn [fst snd];
    (destruct (on_help_requested o) as [ask|];
       [destruct (String.eqb (ask result) "") eqn:Hask|]);
    cbn; rewrite ?Hask; cbn; done.
Qed.

Lemma help_pending_execute_tool_use (tool_use : ToolUse) :
  name tool_use ≠ "request_help" → preserves needs_human_input (execute_tool_use tool_use).
Proof.
  intros Hne. unfold execute_tool_use. cbv zeta.
  rewrite (proj2 (String.eqb_neq _ _) Hne). field_frame.
Qed.

Lemma Forall_slice_to {A} (P : A → Prop) (l : list A) (i : Z) :
  Forall P l → Forall P (Py.slice_to l i).
Proof. intros Hl. unfold Py.slice_to. destruct (i <? 0); by apply Forall_take. Qed.

Lemma preserves_map_se_Forall {X A B} (f : t → X) (P : A → Prop) (g : A → SE t B) (l : list A) :
  (∀ x, P x → preserves f (g x)) → Forall P l → preserves f (map_se g l).
Proof.
  intros Hg Hl. induction Hl as [|x l Hx Hl IH]; [apply preserves_ret|].
  cbn [map_se]. apply preserves_bind; [by apply Hg|]. intros y.
  apply preserves_bind; [exact IH|]. intros ys. apply preserves_ret.
Qed.

Lemma preserves_bind_yields {X A B} (f : t → X) (Q : A → Prop) (m : SE t A) (k : A → SE t B) :
  preserves f m → yields Q m → (∀ a, Q a → preserves f (k a)) → preserves f (m ≫= k).
Proof.
  intros Hm HQ Hk o. specialize (Hm o). specialize (HQ o). unfold mbind, SE_bind, se_bind.
  destruct (m o) as [o1 [a|e]]; cbn [fst snd] in *; [|exact Hm].
  rewrite Hk; [exact Hm | by apply HQ].
Qed.

Lemma help_pending_execute_tools (tool_uses : list ToolUse) :
  Forall (λ tool_use, name tool_use ≠ "request_help") tool_uses →
  preserves needs_human_input (_execute_tools tool_uses).
Proof.
  intros Hall. unfold _execute_tools.
  apply preserves_bind; [apply preserves_get_state|]. intros o.
  apply (preserves_bind_yields _ (Forall (λ tool_use, name tool_use ≠ "request_help"))).
  - destruct (_ >? _); field_frame.
  - destruct (_ >? _); [|by apply yields_ret].
    apply yields_bind; intros _. apply yields_ret. by apply Forall_slice_to.
  - intros kept_uses Hkept.
    apply (preserves_map_se_Forall _ _ _ _ help_pending_execute_tool_use Hkept).
Qed.

Lemma ensures_preserves {A} (m : SE t A) :
  preserves needs_human_input m → ensures help_pending (λ _, True) m.
Proof. intros Hm o Ho. split; [|done]. unfold help_pending. by rewrite Hm. Qed.

Lemma ensures_ret {A} (I : t → Prop) (P : A → Prop) (a : A) : P a → ensures I P (mret a).
Proof. intros HP o Ho. split; [exact Ho|]. intros a' [= <-]. exact HP. Qed.

Lemma ensures_bind {A B} (I : t → Prop) (P : B → Prop) (m : SE t A) (k : A → SE t B) :
  ensures I (λ _, True) m → (∀ a, ensures I P (k a)) → ensures I P (m ≫= k).
Proof.
  intros Hm Hk o Ho. destruct (Hm o Ho) as [H1 _]. unfold mbind, SE_bind, se_bind.
  destruct (m o) as [o1 [a|e]]; cbn [fst snd] in *; [by apply Hk | by split].
Qed.

Lemma ensures_get_state {B} (I : t → Prop) (P : B → Prop) (k : t → SE t B) :
  (∀ o, I o → ensures I P (k o)) → ensures I P (get_state ≫= k).
Proof. intros Hk o Ho. rewrite bind_get_state. by apply Hk. Qed.

Lemma ensures_task_completed : ensures help_pending (λ f, f ≠ Continue) task_completed.
Proof.
  unfold task_completed.
  apply ensures_bind; [apply ensures_preserves; field_frame | intros _].
  apply ensures_get_state. intros o _.
  apply ensures_bind; [apply ensures_preserves; field_frame | intros _].
  by apply ensures_ret.
Qed.

(** X24.  A pending request for help outlasts a new session:
    [initialize] and [resume] leave [needs_human_input] set.  While it
    is set, a reply that uses tools, none of them [request_help], ends
    the run with the flag still set: the turn returns or raises, it
    never goes on to the next request. *)
Theorem pending_help_ends_run (response : Response) (o : t)
    (text_blocks : list string) (tool_uses : list ToolUse) :
  needs_human_input o = true →
  extract (content response) = Ok (text_blocks, tool_uses) →
  tool_uses ≠ [] →
  Forall (λ tool_use, name tool_use ≠ "request_help") tool_uses →
  (∀ task_description,
     needs_human_input (fst (initialize task_description o)) = true)
  ∧ needs_human_input (fst (resume o)) = true
  ∧ needs_human_input (fst (process_response response o)) = true
  ∧ snd (process_response response o) ≠ Ok Continue.
Proof.
  intros Hpending Hextract Hsome Hall.
  assert (Hinit : ∀ task, preserves needs_human_input (initialize task)).
  { intros task. unfold initialize. field_frame. }
  assert (Hresume : preserves needs_human_input resume).
  { unfold resume. field_frame. }
  split; [by intros task; rewrite Hinit|]. split; [by rewrite Hresume|].
  assert (Hturn : ensures help_pending (λ f, f ≠ Continue) (process_response response)).
  { unfold process_response. cbv zeta.
    apply ensures_bind; [apply ensures_preserves; field_frame | intros _].
    intros o1 Ho1. rewrite (bind_lift_res _ _ _ _ Hextract). revert o1 Ho1.
    apply ensures_bind; [apply ensures_preserves; field_frame | intros _].
    apply ensures_get_state. intros o1 _.
    rewrite (bool_decide_eq_false_2 _ Hsome), andb_false_r.
    destruct tool_uses as [|tool_use rest]; [done|].
    apply ensures_bind.
    { apply ensures_preserves. by apply help_pending_execute_tools. }
    intros results.
    apply ensures_bind; [apply ensures_preserves; field_frame | intros _].
    apply ensures_get_state. intros o2 Ho2.
    destruct (is_complete o2); [apply ensures_task_completed|].
    rewrite Ho2.
    apply ensures_bind; [apply ensures_preserves; unfold save_checkpoint; field_frame | intros _].
    by apply ensures_ret. }
  destruct (Hturn o Hpending) as [Hkept Hflow]. split; [exact Hkept|].
  intros Hv. by apply Hflow in Hv.
Qed.

(** ** Sessions *)

Lemma bind_with_checkpoint_mgr {A B} (m : SE CheckpointManager.t A) (k : A → SE t B)
    (o : t) (files : CheckpointManager.t) (a : A) :
  m (checkpoint_mgr o) = (files, Ok a) →
  (with_checkpoint_mgr m ≫= k) o = k a (set_checkpoint_mgr files o).
Proof. intros Hm. unfold with_checkpoint_mgr, mbind, SE_bind, se_bind. by rewrite Hm. Qed.

(** [resume] once [restore_context] has given a checkpoint *)
Lemma resume_of_restored (o : t) (ctx : ContextManager.t) (usage : TokenUsage.t)
    (cost : Q) (data : pyval) (task : string) (done : list pyval) :
  CheckpointManager.restore_context (checkpoint_mgr o)
    (OrchestratorConfig.max_context_tokens (config o)) = Ok (Some (ctx, usage, cost, data)) →
  res_bind (checkpoint_get data "task_description" (PStr ""))
    (λ v, expect (Py.as_str v) (TypeError "task_description is not a str")) = Ok task →
  res_bind (checkpoint_get data "completed_tasks" (PList []))
    (λ v, match v with
          | PList l => Ok l
          | _ => Raise (TypeError "completed_tasks is not a list")
          end) = Ok done →
  let o' := fst (resume o) in
  snd (resume o) = Ok true
  ∧ context o'
    = Some (ContextManager.set_system_prompt
              (system_prompt_text (project_dir o) task
                 (CheckpointManager.load_learnings (checkpoint_mgr o)) done) ctx)
  ∧ token_usage o' = usage
  ∧ cost_tracker o' = CostTracker.set_initial_cost cost (cost_tracker o)
  ∧ task_description o' = task
  ∧ completed_tasks o' = done.
Proof.
  intros Hrestore Htask Hdone.
  unfold resume. rewrite bind_get_state, (bind_lift_res _ _ _ _ Hrestore).
  cbv beta iota zeta. rewrite !bind_modify.
  rewrite (bind_lift_res _ _ _ _ Htask), bind_modify.
  rewrite (bind_lift_res _ _ _ _ Hdone), bind_modify, bind_get_state.
  erewrite with_context_modify; [|reflexivity].
  unfold on_output, emit. rewrite !bind_modify.
  unfold _build_system_prompt.
  cbn [fst snd mret SE_ret se_ret context set_context set_task set_token_usage
       set_cost_tracker set_events token_usage cost_tracker task_description
       completed_tasks project_dir checkpoint_mgr].
  done.
Qed.

(** X25.  A checkpoint written by [save_checkpoint] is resumed by any
    orchestrator that shares the checkpoint directory: [resume] returns
    [True] and restores the task, the completed tasks, the token usage,
    the total cost and the messages.  The restored Context Manager has
    the window of the resuming configuration and the default
    thresholds; its estimate is the one of the checkpointed prompt, and
    its prompt is composed anew. *)
Theorem save_then_resume (o o2 : t) (c : ContextManager.t) (reason : string) (n : Z) :
  context o = Some c →
  Py.jsonable (PList (ContextManager.messages c)) = true →
  Py.jsonable (PList (completed_tasks o)) = true →
  ContextManager.token_estimate (ContextManager.system_prompt c)
                                (ContextManager.messages c) = Ok n →
  checkpoint_mgr o2 = checkpoint_mgr (fst (save_checkpoint reason o)) →
  let o3 := fst (resume o2) in
  snd (save_checkpoint reason o) = Ok tt
  ∧ snd (resume o2) = Ok true
  ∧ task_description o3 = task_description o
  ∧ completed_tasks o3 = completed_tasks o
  ∧ token_usage o3 = token_usage o
  ∧ CostTracker.total_cost (cost_tracker o3) = CostTracker.total_cost (cost_tracker o)
  ∧ context o3
    = Some (ContextManager.mk
              (system_prompt_text (project_dir o2) (task_description o)
                 (CheckpointManager.load_learnings (checkpoint_mgr o)) (completed_tasks o))
              (ContextManager.messages c)
              (OrchestratorConfig.max_context_tokens (config o2))
              ContextManager.default_checkpoint_threshold
              ContextManager.default_summary_threshold n).
Proof.
  intros Hc Hm Hd Hn Hshared.
  pose proof (save_ok (checkpoint_mgr o) (clock o) c (token_usage o)
                (CostTracker.total_cost (cost_tracker o)) (task_description o) None
                (Some (completed_tasks o)) None Hm Hd eq_refl) as Hsave.
  assert (Hsaved : save_checkpoint reason o
                   = (fst (save_checkpoint reason o), Ok tt)
                   ∧ checkpoint_mgr (fst (save_checkpoint reason o))
                     = fst (CheckpointManager.save (clock o) c (token_usage o)
                              (CostTracker.total_cost (cost_tracker o)) (task_description o)
                              None (Some (completed_tasks o)) None (checkpoint_mgr o))).
  { unfold save_checkpoint. rewrite bind_get_state, Hc.
    erewrite bind_lift_res; [|reflexivity].
    rewrite (bind_with_checkpoint_mgr _ _ _ _ _ Hsave).
    destruct (on_checkpoint _); unfold on_output, emit; rewrite ?bind_modify;
      unfold modify; rewrite Hsave; by cbn. }
  destruct Hsaved as [Hrun Hmgr]. rewrite Hmgr, Hsave in Hshared. cbn [fst] in Hshared.
  split; [by rewrite Hrun|].
  pose proof (restore_saved (checkpoint_mgr o2) (clock o) c (token_usage o)
                (CostTracker.total_cost (cost_tracker o)) (task_description o) None
                (Some (completed_tasks o)) None
                (OrchestratorConfig.max_context_tokens (config o2)) n) as Hrestore.
  cbv zeta in Hrestore. rewrite Hshared in Hrestore. specialize (Hrestore eq_refl Hn).
  rewrite <- Hshared in Hrestore.
  destruct (resume_of_restored o2 _ _ _ _ (task_description o) (completed_tasks o) Hrestore
              eq_refl eq_refl) as (Hv & Hctx & Hu & Hcost & Ht & Hdone).
  cbv zeta. rewrite Hv, Hctx, Hu, Hcost, Ht, Hdone, Hshared.
  repeat split; try reflexivity.
  apply (set_initial_cost_latches _ (cost_tracker o2)).
Qed.

Lemma save_checkpoint_unserialisable (o : t) (c : ContextManager.t) (reason : string) :
  context o = Some c →
  Py.jsonable (PList (ContextManager.messages c)) = false →
  save_checkpoint reason o = (o, Raise (TypeError "Object is not JSON serializable")).
Proof.
  intros Hc Hjson. unfold save_checkpoint. rewrite bind_get_state, Hc.
  erewrite bind_lift_res; [|reflexivity].
  assert (Hsave : CheckpointManager.save (clock o) c (token_usage o)
                    (CostTracker.total_cost (cost_tracker o)) (task_description o)
                    None (Some (completed_tasks o)) None (checkpoint_mgr o)
                  = (checkpoint_mgr o, Raise (TypeError "Object is not JSON serializable"))).
  { unfold CheckpointManager.save, CheckpointManager.save_under, mbind, SE_bind, se_bind,
      lift_res, json_dumps, CheckpointManager.checkpoint_record.
    cbn [Py.jsonable forallb ContextManager.to_dict TokenUsage.to_dict andb snd] in *.
    rewrite Hjson. by rewrite !andb_false_r. }
  unfold with_checkpoint_mgr, mbind, SE_bind, se_bind. rewrite Hsave.
  by destruct o.
Qed.

Lemma save_returned (files : CheckpointManager.t) now ctx usage cost task phase done extra :
  snd (CheckpointManager.save now ctx usage cost task phase done extra files) = Ok () →
  CheckpointManager.checkpoint_file
    (fst (CheckpointManager.save now ctx usage cost task phase done extra files))
  = Some (JsonText (PDict (CheckpointManager.checkpoint_record
                             now ctx usage cost task phase done extra))).
Proof.
  unfold CheckpointManager.save, CheckpointManager.save_under, mbind, SE_bind, se_bind,
    lift_res, modify, json_dumps.
  destruct (Py.jsonable (PDict _)); [|done].
  cbn [CheckpointManager.io_write CheckpointManager.io_rename CheckpointManager.io_append
       CheckpointManager.io_ok fst snd].
  by destruct (Py.jsonable (CheckpointManager.history_entry now usage cost phase done)).
Qed.

Lemma save_checkpoint_returned (o : t) (c : ContextManager.t) (reason : string) :
  context o = Some c →
  snd (save_checkpoint reason o) = Ok () →
  CheckpointManager.checkpoint_file (checkpoint_mgr (fst (save_checkpoint reason o)))
  = Some (JsonText (PDict (CheckpointManager.checkpoint_record (clock o) c (token_usage o)
                             (CostTracker.total_cost (cost_tracker o)) (task_description o)
                             None (Some (completed_tasks o)) None))).
Proof.
  intros Hc. unfold save_checkpoint. rewrite bind_get_state, Hc.
  erewrite bind_lift_res; [|reflexivity].
  pose proof (save_returned (checkpoint_mgr o) (clock o) c (token_usage o)
                (CostTracker.total_cost (cost_tracker o)) (task_description o) None
                (Some (completed_tasks o)) None) as Hfile.
  destruct (CheckpointManager.save _ _ _ _ _ _ _ _ (checkpoint_mgr o))
    as [files [[]|e]] eqn:Hsave; cbn [fst snd] in Hfile.
  - rewrite (bind_with_checkpoint_mgr _ _ _ _ _ Hsave). intros _.
    destruct (on_checkpoint _); unfold on_output, emit; rewrite ?bind_modify;
      unfold modify; cbn; by apply Hfile.
  - unfold with_checkpoint_mgr, mbind, SE_bind, se_bind. by rewrite Hsave.
Qed.

(** X9.  [_handle_context_pressure] saves before it asks for a
    summary.  With [checkpoint_threshold] at most [summary_threshold],
    as in the defaults, a context that should be summarised is first
    handed to [save_checkpoint]: when that raises,
    [_handle_context_pressure] raises the same exception in the state
    the save left, so no request was sent and nothing was summarised;
    when it returns, the checkpoint on disk afterwards is the one of the
    conversation from before the summary request, and at most one
    request was sent.  A conversation that [json.dumps] refuses (one
    that holds the content blocks of a reply) is therefore never
    summarised: the call raises a [TypeError] with nothing changed,
    and so does the turn of [run] it belongs to. *)
Theorem pressure_saves_before_summary (o : t) (c : ContextManager.t) :
  context o = Some c →
  (ContextManager.checkpoint_threshold c <= ContextManager.summary_threshold c)%Q →
  ContextManager.should_summarize c = Ok true →
  let saved := save_checkpoint "context_threshold" o in
  let after := _handle_context_pressure o in
  (∀ e, snd saved = Raise e → after = (fst saved, Raise e))
  ∧ requests (fst saved) = requests o
  ∧ requests o ≤ requests (fst after) ≤ requests o + 1
  ∧ (snd saved = Ok () →
     checkpoint_mgr (fst after) = checkpoint_mgr (fst saved)
     ∧ CheckpointManager.checkpoint_file (checkpoint_mgr (fst after))
       = Some (JsonText
                 (PDict (CheckpointManager.checkpoint_record (clock o) c (token_usage o)
                           (CostTracker.total_cost (cost_tracker o)) (task_description o)
                           None (Some (completed_tasks o)) None))))
  ∧ (Py.jsonable (PList (ContextManager.messages c)) = false →
     ∃ e, exn_type e = "TypeError"
          ∧ after = (o, Raise e)
          ∧ (CostTracker.should_stop (cost_tracker o) = false → iteration o = (o, Raise e))).
Proof.
  intros Hc Hle Hsum saved after.
  pose proof (summarize_implies_checkpoint c Hle Hsum) as Hcheck.
  assert (Hafter : after
                   = (save_checkpoint "context_threshold" ≫= λ _,
                      b ← lift_res (ContextManager.should_summarize c);
                      if b : bool
                      then
                        on_output "[Context pressure - requesting summary]";;
                        with_context
                          (ContextManager.add_user_message
                             ("Please provide a brief summary of what has been accomplished so far, "
                              ++ "including key decisions and current state. This will be used to compress context."));;
                        response ← _call_api;
                        summary ← lift_res (first_text (content response));
                        if negb (String.eqb summary "")
                        then
                          with_context (ContextManager.summarize_old_context summary 6);;
                          on_output "[Context summarized]"
                        else mret tt
                      else mret tt) o).
  { unfold after, _handle_context_pressure. rewrite bind_get_state, Hc.
    erewrite bind_lift_res; [|reflexivity].
    by rewrite (bind_lift_res _ _ _ _ Hcheck). }
  assert (Hraise : ∀ e, snd saved = Raise e → after = (fst saved, Raise e)).
  { intros e He. rewrite Hafter. apply bind_raised.
    fold saved. destruct saved as [o1 r]. cbn in He. by rewrite He. }
  split; [exact Hraise|].
  split; [apply requests_save_checkpoint|].
  split; [apply within_handle_context_pressure|].
  split.
  - intros Hok.
    pose proof (save_checkpoint_returned o c "context_threshold" Hc Hok) as Hfile.
    fold saved in Hfile.
    assert (Hmgr : checkpoint_mgr (fst after) = checkpoint_mgr (fst saved)).
    { rewrite Hafter. unfold mbind at 1, SE_bind at 1, se_bind at 1. fold saved.
      destruct saved as [o1 [[]|e]]; [|done]. cbn [fst snd].
      rewrite (bind_lift_res _ _ _ _ Hsum).
      match goal with |- checkpoint_mgr (fst (?m o1)) = _ =>
        assert (Hm : preserves checkpoint_mgr m) by (unfold _call_api; field_frame);
        apply Hm end. }
    split; [exact Hmgr | by rewrite Hmgr].
  - intros Hjson.
    pose proof (save_checkpoint_unserialisable o c "context_threshold" Hc Hjson) as Hsave.
    assert (Ho : after = (o, Raise (TypeError "Object is not JSON serializable"))).
    { rewrite (Hraise (TypeError "Object is not JSON serializable")); unfold saved;
        by rewrite Hsave. }
    exists (TypeError "Object is not JSON serializable").
    split; [reflexivity|]. split; [exact Ho|]. intros Hstop.
    unfold iteration. rewrite bind_get_state, Hstop.
    by apply bind_raised.
Qed.

(** X26.  With no readable checkpoint [resume] returns [False] and
    leaves the orchestrator as it is.  That is the case after a
    completed task: completing moves the checkpoint to a
    [completed-...] file, so nothing is left to resume. *)
Theorem completed_task_not_resumed (o : t) :
  (CheckpointManager.load (checkpoint_mgr o) = None → resume o = (o, Ok false))
  ∧ let o1 := fst (task_completed o) in
    snd (task_completed o) = Ok (Return true)
    ∧ resume o1 = (o1, Ok false)
    ∧ ∀ file, CheckpointManager.checkpoint_file (checkpoint_mgr o) = Some file →
        CheckpointManager.completed_files (checkpoint_mgr o1)
        = (CheckpointManager.completed_files (checkpoint_mgr o)
           ++ [(("completed-" ++ clock o ++ ".json")%string, file)])%list.
Proof.
  assert (Hnone : ∀ o', CheckpointManager.load (checkpoint_mgr o') = None →
                        resume o' = (o', Ok false)).
  { intros o' Hload. unfold resume. rewrite bind_get_state.
    unfold CheckpointManager.restore_context. rewrite Hload.
    by erewrite bind_lift_res; [|reflexivity]. }
  split; [apply Hnone|]. cbv zeta.
  unfold task_completed, on_output, emit.
  rewrite bind_modify, bind_get_state, bind_modify.
  cbn [fst snd mret SE_ret se_ret]. split; [done|]. split.
  - apply Hnone. cbn [checkpoint_mgr set_checkpoint_mgr set_events clock].
    unfold CheckpointManager.load, CheckpointManager.clear.
    destruct (CheckpointManager.checkpoint_file (checkpoint_mgr o)) eqn:Hfile;
      [done | by rewrite Hfile].
  - intros file Hfile. cbn [checkpoint_mgr set_checkpoint_mgr set_events clock].
    unfold CheckpointManager.clear. by rewrite Hfile.
Qed.

Lemma handle_context_pressure_idle (o : t) (c : ContextManager.t) :
  context o = Some c →
  ContextManager.should_checkpoint c = Ok false →
  ContextManager.should_summarize c = Ok false →
  _handle_context_pressure o = (o, Ok tt).
Proof.
  intros Hc Hcheck Hsum. unfold _handle_context_pressure. rewrite bind_get_state, Hc.
  erewrite bind_lift_res; [|reflexivity].
  rewrite (bind_lift_res _ _ _ _ Hcheck), bind_ret.
  by rewrite (bind_lift_res _ _ _ _ Hsum).
Qed.

Lemma call_api_error (o : t) (c : ContextManager.t) (msg : string) :
  context o = Some c →
  client o (requests o) (ContextManager.system_prompt c) (ContextManager.get_messages c)
  = APIError msg →
  _call_api o = (set_requests (requests o + 1) o, Raise (Exn "APIError" msg)).
Proof.
  intros Hc Hclient. unfold _call_api. rewrite bind_get_state, Hc.
  erewrite bind_lift_res; [|reflexivity].
  by rewrite bind_modify, Hclient.
Qed.

Lemma iteration_api_error (o : t) (c : ContextManager.t) (msg : string) :
  context o = Some c →
  CostTracker.should_stop (cost_tracker o) = false →
  ContextManager.should_checkpoint c = Ok false →
  ContextManager.should_summarize c = Ok false →
  client o (requests o) (ContextManager.system_prompt c) (ContextManager.get_messages c)
  = APIError msg →
  iteration o
  = (set_events (events o ++ [Output (nl ++ "⚠️ API error: " ++ msg)])
       (set_requests (requests o + 1) o),
     Ok Continue).
Proof.
  intros Hc Hstop Hcheck Hsum Hclient.
  unfold iteration. rewrite bind_get_state, Hstop.
  rewrite (bind_returned _ _ _ _ _ (handle_context_pressure_idle o c Hc Hcheck Hsum)).
  unfold mbind at 1, SE_bind at 1, se_bind at 1, try_except.
  rewrite (bind_raised _ _ _ _ _ (call_api_error o c msg Hc Hclient)).
  cbn [exn_type String.eqb Ascii.eqb Bool.eqb exn_msg].
  unfold on_output, emit. by rewrite bind_modify.
Qed.

(** X27.  An API error does not end the run and changes neither the
    conversation nor the spending: as long as the API fails, with the
    cost below the limit and no context pressure, every turn of the
    loop sends one request and goes on to the next, until the
    iterations are used up; the run then does not report completion. *)
Theorem api_errors_use_up_turns (turns : nat) (o : t) (c : ContextManager.t) :
  context o = Some c →
  CostTracker.should_stop (cost_tracker o) = false →
  ContextManager.should_checkpoint c = Ok false →
  ContextManager.should_summarize c = Ok false →
  (∀ n, ∃ msg, client o n (ContextManager.system_prompt c) (ContextManager.get_messages c)
               = APIError msg) →
  let o' := fst (loop turns o) in
  requests o' = requests o + Z.of_nat turns
  ∧ context o' = Some c
  ∧ cost_tracker o' = cost_tracker o
  ∧ token_usage o' = token_usage o
  ∧ snd (loop turns o) ≠ Ok true.
Proof.
  intros Hc Hstop Hcheck Hsum. revert o Hc Hstop.
  induction turns as [|turns IH]; intros o Hc Hstop Hclient; cbv zeta.
  - cbn [loop]. rewrite bind_get_state.
    match goal with |- context [fst (?m o)] =>
      assert (Hreq : preserves requests m) by (unfold save_checkpoint; field_frame);
      assert (Hctx : preserves context m) by (unfold save_checkpoint; field_frame);
      assert (Hcost : preserves cost_tracker m) by (unfold save_checkpoint; field_frame);
      assert (Huse : preserves token_usage m) by (unfold save_checkpoint; field_frame);
      assert (Hval : yields (λ b, b = false) m)
        by (apply yields_bind; intros _; apply yields_bind; intros _; by apply yields_ret)
    end.
    rewrite Hreq, Hctx, Hcost, Huse. repeat split; [lia | done |].
    intros Hv. by apply Hval in Hv.
  - destruct (Hclient (requests o)) as [msg Hmsg].
    cbn [loop]. unfold mbind, SE_bind, se_bind.
    rewrite (iteration_api_error o c msg Hc Hstop Hcheck Hsum Hmsg). cbv beta iota.
    match goal with |- context [loop turns ?s] => specialize (IH s Hc Hstop Hclient) end.
    cbv zeta in IH. destruct IH as (Hreq & Hctx & Hcost & Huse & Hval).
    rewrite Hreq, Hctx, Hcost, Huse. cbn. repeat split; [lia | exact Hval].
Qed.

End RunFrames.

(** ** The further properties on the example project *)

Section MoreExamples.

Import Example.

(** A use of [threshold_callbacks_fire]: a tracker resumed at 12
    dollars, with [warn = 10]. *)
Lemma threshold_callbacks_fire_witness :
  let self := CostTracker.run [CostTracker.SetInitialCost 12]
                (CostTracker.init (CostConfig.mk 10 25 50) DEFAULT_PRICING true true) in
  CostTracker.warning_acknowledged self = true ∧ CostTracker.warnings self = 1%nat.
Proof.
  destruct (threshold_callbacks_fire (CostConfig.mk 10 25 50) DEFAULT_PRICING true true
              [CostTracker.SetInitialCost 12]) as [Hwarn _]; [discriminate|].
  apply Hwarn. reflexivity.
Defined.

(** A use of [threshold_level_latched]: the same tracker is at the
    level [WARNING], with the warning latch set. *)
Lemma threshold_level_latched_witness :
  let self := CostTracker.run [CostTracker.SetInitialCost 12]
                (CostTracker.init (CostConfig.mk 10 25 50) DEFAULT_PRICING true true) in
  CostTracker.threshold_level self = WARNING
  ∧ CostTracker.warning_acknowledged self = true.
Proof.
  destruct (threshold_level_latched (CostConfig.mk 10 25 50) DEFAULT_PRICING true true
              [CostTracker.SetInitialCost 12]) as (_ & Hwarn & _); [discriminate|].
  split; [reflexivity | apply Hwarn; reflexivity].
Defined.

(** A use of [mutators_refresh_estimate]: the first message of a
    conversation. *)
Lemma mutators_refresh_estimate_witness :
  let self := ContextManager.init "abcdefgh" 150000 (6 # 10) (8 # 10) in
  estimate_current (fst (ContextManager.add_user_message "Please begin." self)).
Proof.
  cbv zeta.
  apply (proj1 (mutators_refresh_estimate
                  (ContextManager.init "abcdefgh" 150000 (6 # 10) (8 # 10))
                  (fst (ContextManager.add_user_message "Please begin."
                          (ContextManager.init "abcdefgh" 150000 (6 # 10) (8 # 10)))))
           "Please begin.").
  reflexivity.
Defined.

(** A use of [estimate_grows]: 6 tokens with the second message, 5
    without. *)
Lemma estimate_grows_witness :
  ∃ n, ContextManager.token_estimate "abcdefgh"
         [ContextManager.user_message (PStr "Please begin.")] = Ok n
       ∧ 0 ≤ n ∧ n ≤ 6.
Proof.
  apply (estimate_grows "abcdefgh" [ContextManager.user_message (PStr "Please begin.")]
           (ContextManager.user_message (PStr "more")) 6).
  reflexivity.
Defined.

(** A use of [summarize_twice]: three messages, of which each summary
    keeps the last two. *)
Lemma summarize_twice_witness :
  let self :=
    ContextManager.mk "abcdefgh"
      [ ContextManager.user_message (PStr "one");
        ContextManager.user_message (PStr "two");
        ContextManager.user_message (PStr "three") ] 150000 (6 # 10) (8 # 10) 5 in
  let self1 := fst (ContextManager.summarize_old_context "first" 1 self) in
  let self2 := fst (ContextManager.summarize_old_context "second" 1 self1) in
  ContextManager.messages self2
  = [ ContextManager.summary_message 1 "second";
      ContextManager.user_message (PStr "two");
      ContextManager.user_message (PStr "three") ].
Proof.
  cbv zeta.
  apply (proj1 (summarize_twice
                  (ContextManager.mk "abcdefgh"
                     [ ContextManager.user_message (PStr "one");
                       ContextManager.user_message (PStr "two");
                       ContextManager.user_message (PStr "three") ]
                     150000 (6 # 10) (8 # 10) 5)
                  "first" "second" 1 ltac:(lia) ltac:(vm_compute; reflexivity))).
Defined.

(** A use of [get_history_window]: the one entry of the example
    checkpoint directory. *)
Lemma get_history_window_witness :
  CheckpointManager.get_history saved_dir 1
  = last_n 1 (CheckpointManager.history_file saved_dir)
  ∧ Py.len (CheckpointManager.get_history saved_dir 1) = 1.
Proof.
  destruct (proj1 (get_history_window saved_dir 1)) as [Hlast Hlen]; [lia|].
  split; [exact Hlast|]. rewrite Hlen. reflexivity.
Defined.

(** A use of [save_outcomes]: the disk is full when the history line is
    written; [save] raises with the new checkpoint in place and no
    line in the history. *)
Lemma save_outcomes_witness :
  let io := CheckpointManager.mkSaveIO CheckpointManager.Written CheckpointManager.Done
              (CheckpointManager.Fails (Exn "OSError" "No space left on device")) in
  let result := CheckpointManager.save_under io "2026-01-01T00:00:00" saved_context
                  saved_usage 12 "tidy the project" None (Some saved_tasks) None
                  CheckpointManager.init in
  snd result = Raise (Exn "OSError" "No space left on device")
  ∧ CheckpointManager.checkpoint_file (fst result)
    = Some (JsonText (PDict (CheckpointManager.checkpoint_record "2026-01-01T00:00:00"
                               saved_context saved_usage 12 "tidy the project" None
                               (Some saved_tasks) None)))
  ∧ CheckpointManager.history_file (fst result) = [].
Proof.
  cbv zeta.
  destruct (save_outcomes
              (CheckpointManager.mkSaveIO CheckpointManager.Written CheckpointManager.Done
                 (CheckpointManager.Fails (Exn "OSError" "No space left on device")))
              CheckpointManager.init "2026-01-01T00:00:00" saved_context saved_usage 12
              "tidy the project" None (Some saved_tasks) None)
    as (_ & _ & _ & _ & _ & Hhistory & Hfaults).
  destruct (Hfaults eq_refl) as (_ & _ & Happend).
  destruct (Happend (Exn "OSError" "No space left on device") eq_refl eq_refl eq_refl)
    as (Hraise & Hfile & _).
  split; [exact Hraise|]. split; [exact Hfile|].
  exact (Hhistory _ Hraise).
Defined.

(** A use of [learnings_roundtrip]: the first learning of a project. *)
Lemma learnings_roundtrip_witness :
  ∃ files' stored,
    CheckpointManager.save_learnings "2026-01-01T00:00:00" [("style", PStr "pep8")]
      CheckpointManager.init = (files', Ok ())
    ∧ CheckpointManager.load_learnings files' = PDict stored
    ∧ Py.get "style" stored = Some (PStr "pep8")
    ∧ Py.get "last_updated" stored = Some (PStr "2026-01-01T00:00:00").
Proof.
  destruct (learnings_roundtrip CheckpointManager.init "2026-01-01T00:00:00" []
              [("style", PStr "pep8")])
    as (files' & stored & Hsave & Hload & Hstamp & Hkeys & _).
  - reflexivity.
  - reflexivity.
  - reflexivity.
  - repeat constructor. intros Hin. by apply elem_of_nil in Hin.
  - exists files', stored. repeat split; [exact Hsave | exact Hload | | exact Hstamp].
    rewrite (Hkeys "style"); [reflexivity | discriminate].
Defined.

(** A use of [bash_runs_permitted]: [rm] is blocked, and it runs behind
    a semicolon that is not set off by spaces. *)
Lemma bash_runs_permitted_witness :
  Tools.spawned (fst (Tools.tool_bash tools0 "ls;rm -rf ." PNone w0))
  = [SpawnShell "ls;rm -rf ."].
Proof.
  apply (bash_runs_permitted tools0 "ls;rm -rf ." PNone w0 "ls;rm" ["-rf"; "."]).
  - reflexivity.
  - repeat constructor. intros Hin.
    repeat (apply elem_of_cons in Hin as [Heq|Hin]; [discriminate|]).
    by apply elem_of_nil in Hin.
  - right. apply elem_of_cons. left. reflexivity.
  - repeat constructor. intros Hin.
    repeat (apply elem_of_cons in Hin as [Heq|Hin]; [discriminate|]).
    by apply elem_of_nil in Hin.
Defined.

(** A use of [tool_definitions_dispatch]: a misspelt key of
    [read_file]. *)
Lemma tool_definitions_dispatch_witness :
  ∃ content,
    Tools.execute tools0 "read_file" [("paht", PStr "x.py")] w0 = (w0, (content, true)).
Proof.
  destruct (tool_definitions_dispatch tools0) as (_ & Hkey & _).
  apply (Hkey (hd PNone Tools.get_tool_definitions) [("paht", PStr "x.py")] w0 "paht").
  - apply elem_of_cons. left. reflexivity.
  - apply elem_of_cons. left. reflexivity.
  - intros Hin. vm_compute in Hin.
    repeat (apply elem_of_cons in Hin as [Heq|Hin]; [discriminate|]).
    by apply elem_of_nil in Hin.
Defined.

(** A use of [exhausted_budget_no_request]: a session whose cost was
    set to 60 dollars, with [max = 50]. *)
Lemma exhausted_budget_no_request_witness :
  let o := Orchestrator.set_cost_tracker
             (CostTracker.set_initial_cost 60 (Orchestrator.cost_tracker (started 20)))
             (started 20) in
  Orchestrator.requests (fst (Orchestrator.run o)) = Orchestrator.requests o
  ∧ snd (Orchestrator.run o) ≠ Ok true.
Proof.
  cbv zeta. apply exhausted_budget_no_request. reflexivity.
Defined.

(** A use of [pressure_saves_before_summary]: a window that is nine
    tenths full and holds the text block of a reply. *)
Lemma pressure_saves_before_summary_witness :
  let c := ContextManager.mk "p" [assistant_message [PTextBlock "done"]]
             10 (6 # 10) (8 # 10) 9 in
  let o := Orchestrator.set_context (Some c) (started 20) in
  ∃ e, exn_type e = "TypeError" ∧ Orchestrator._handle_context_pressure o = (o, Raise e).
Proof.
  cbv zeta.
  destruct (pressure_saves_before_summary
              (Orchestrator.set_context
                 (Some (ContextManager.mk "p" [assistant_message [PTextBlock "done"]]
                          10 (6 # 10) (8 # 10) 9)) (started 20))
              (ContextManager.mk "p" [assistant_message [PTextBlock "done"]]
                 10 (6 # 10) (8 # 10) 9))
    as (_ & _ & _ & _ & Hrefused).
  - reflexivity.
  - vm_compute. discriminate.
  - reflexivity.
  - destruct Hrefused as (e & Htype & Hraise & _); [reflexivity|].
    exists e. split; [exact Htype | exact Hraise].
Defined.

(** A use of [task_complete_marks_done]. *)
Lemma task_complete_marks_done_witness :
  let tool_use := Orchestrator.mkToolUse "toolu_9" "task_complete" [("summary", PStr "all tidy")] in
  let o' := fst (Orchestrator.execute_tool_use tool_use (started 20)) in
  Orchestrator.is_complete o' = true
  ∧ Orchestrator.completed_tasks o' = [PStr "all tidy"].
Proof.
  cbv zeta.
  destruct (task_complete_marks_done
              (Orchestrator.mkToolUse "toolu_9" "task_complete" [("summary", PStr "all tidy")])
              (started 20) eq_refl) as (Hdone & Htasks & _).
  split; [exact Hdone|]. rewrite Htasks. reflexivity.
Defined.

(** A use of [request_help_outcome]: no help callback is installed, so
    the request stays pending. *)
Lemma request_help_outcome_witness :
  let tool_use := Orchestrator.mkToolUse "toolu_9" "request_help" [("question", PStr "which database?")] in
  let o' := fst (Orchestrator.execute_tool_use tool_use (started 20)) in
  Orchestrator.human_input_request o' = "HELP REQUESTED: which database?"
  ∧ Orchestrator.needs_human_input o' = true.
Proof.
  cbv zeta.
  destruct (request_help_outcome
              (Orchestrator.mkToolUse "toolu_9" "request_help" [("question", PStr "which database?")])
              (started 20) eq_refl) as (Hrequest & _ & Hflag).
  split; [rewrite Hrequest; reflexivity|].
  exact (proj1 Hflag).
Defined.

(** A use of [pending_help_ends_run]: a reply that lists a directory
    and reads a file while a question is waiting. *)
Lemma pending_help_ends_run_witness :
  let o := Orchestrator.set_flags false true "which database?" (started 20) in
  Orchestrator.needs_human_input (fst (Orchestrator.resume o)) = true
  ∧ snd (Orchestrator.process_response two_tools o) ≠ Ok Orchestrator.Continue.
Proof.
  cbv zeta.
  destruct (pending_help_ends_run two_tools
              (Orchestrator.set_flags false true "which database?" (started 20))
              ["Looking around."]
              [ Orchestrator.mkToolUse "toolu_1" "list_dir" [];
                Orchestrator.mkToolUse "toolu_2" "read_file" [("path", PStr "x.py")] ])
    as (_ & Hresume & _ & Hturn).
  - reflexivity.
  - reflexivity.
  - discriminate.
  - repeat constructor; discriminate.
  - split; [exact Hresume | exact Hturn].
Defined.

(** A use of [save_then_resume]: the example session, saved and then
    resumed by a fresh orchestrator on the same directory. *)
Lemma save_then_resume_witness :
  let o := started 20 in
  let o2 := fresh 20 (Orchestrator.checkpoint_mgr
                        (fst (Orchestrator.save_checkpoint "periodic" o))) in
  snd (Orchestrator.resume o2) = Ok true
  ∧ Orchestrator.task_description (fst (Orchestrator.resume o2)) = "tidy the project".
Proof.
  cbv zeta.
  destruct (save_then_resume (started 20)
              (fresh 20 (Orchestrator.checkpoint_mgr
                           (fst (Orchestrator.save_checkpoint "periodic" (started 20)))))
              (default (ContextManager.init "" 0 0 0) (Orchestrator.context (started 20)))
              "periodic" 178)
    as (_ & Hresumed & Htask & _).
  - vm_compute; reflexivity.
  - vm_compute; reflexivity.
  - vm_compute; reflexivity.
  - vm_compute; reflexivity.
  - vm_compute; reflexivity.
  - split; [exact Hresumed|]. rewrite Htask. vm_compute; reflexivity.
Defined.

(** A use of [completed_task_not_resumed]: a project without a
    checkpoint. *)
Lemma completed_task_not_resumed_witness :
  Orchestrator.resume (fresh 20 CheckpointManager.init)
  = (fresh 20 CheckpointManager.init, Ok false).
Proof.
  apply (proj1 (completed_task_not_resumed (fresh 20 CheckpointManager.init))).
  vm_compute; reflexivity.
Defined.

(** A use of [api_errors_use_up_turns]: three turns against an API that
    is overloaded. *)
Lemma api_errors_use_up_turns_witness :
  let o := fst (Orchestrator.initialize "tidy the project"
                  (Orchestrator.init "/tmp/proj" (config 20) false false false true true
                     None None (λ _ _ _, APIError "overloaded") "2026-01-01T00:00:00"
                     w0 CheckpointManager.init)) in
  Orchestrator.requests (fst (Orchestrator.loop 3 o)) = 3
  ∧ Orchestrator.cost_tracker (fst (Orchestrator.loop 3 o)) = Orchestrator.cost_tracker o.
Proof.
  cbv zeta.
  destruct (api_errors_use_up_turns 3
              (fst (Orchestrator.initialize "tidy the project"
                      (Orchestrator.init "/tmp/proj" (config 20) false false false true true
                         None None (λ _ _ _, APIError "overloaded") "2026-01-01T00:00:00"
                         w0 CheckpointManager.init)))
              (default (ContextManager.init "" 0 0 0)
                 (Orchestrator.context
                    (fst (Orchestrator.initialize "tidy the project"
                            (Orchestrator.init "/tmp/proj" (config 20) false false false
                               true true None None (λ _ _ _, APIError "overloaded")
                               "2026-01-01T00:00:00" w0 CheckpointManager.init))))))
    as (Hrequests & _ & Hcost & _).
  - vm_compute; reflexivity.
  - vm_compute; reflexivity.
  - vm_compute; reflexivity.
  - vm_compute; reflexivity.
  - intros n. exists "overloaded". vm_compute; reflexivity.
  - split; [rewrite Hrequests; vm_compute; reflexivity | exact Hcost].
Defined.

End MoreExamples.
